(** * Hourly sales-log aggregation: a model of [aggregate_logs.py]

    The development embeds the Python driver [aggregate_logs.py] and proves
    properties of it, and of [load_data], by which the dashboard of
    [dashboard.py] reads the files that the driver wrote.  The definitions
    come first:

    - [Py]       the Python values the driver works with: exceptions,
                 strings and slices, [str.isdigit], [os.path.join], floats
                 and the [.2f] format, insertion-ordered dictionaries;
    - [Spark]    what the driver sees of PySpark (rows, data frames, the
                 session) and a model of the CSV query that
                 [process_log_file] builds;
    - [Driver]   [get_hour_folders], [process_log_file], [format_datetime]
                 and [main], with the directories and files they act on;
    - [Notions]  the vocabulary of the statements;
    - [Inputs]   small log trees to run [main] on;
    - [Dashboard] [load_data] of [dashboard.py], which reads the files
                 that [main] writes: dates and [datetime.strptime], the
                 choice of the files, with pandas left abstract;
    - [Effects]  the vocabulary of the statements about whole runs.

    The properties follow, one module per function of the driver, then
    the runs as a whole and the dashboard.

    Conventions.  A Python [str] is a [string]: one [ascii] per character,
    read as a code point below 256.  A Python [float] is a binary64
    primitive float.  A Python call that may raise returns a [result]. *)

From Stdlib Require Import ZArith NArith Ascii String List Floats DecimalString.
From Stdlib Require Import Permutation Lia.
From stdpp Require Import gmap strings list.

Set Default Proof Using "Type".

(** ** Python values *)
Module Py.

(** *** Exceptions and results *)

(** An exception: the name of its class and [str(e)]. *)
Record exn := Exn { exn_class : string; exn_str : string }.

Inductive result (A : Type) : Type :=
| Return (a : A)
| Raise (e : exn).
Arguments Return {A} a.
Arguments Raise {A} e.

(** *** Strings *)

(** [s[i:j]] for [0 <= i <= j]: out-of-range bounds are clipped, never an
    error. *)
Definition slice (i j : nat) (s : string) : string := substring i (j - i) s.

Definition chars (s : string) : list ascii := list_ascii_of_string s.

(** The ten ASCII digits. *)
Definition is_ascii_digit (c : ascii) : bool :=
  let n := nat_of_ascii c in (48 <=? n) && (n <=? 57).

(** [c.isdigit()] for one character: Numeric_Type is Digit or Decimal.
    Below code point 256 these are the ASCII digits and the superscripts
    two (178), three (179) and one (185). *)
Definition char_isdigit (c : ascii) : bool :=
  let n := nat_of_ascii c in
  is_ascii_digit c || (n =? 178) || (n =? 179) || (n =? 185).

(** [s.isdigit()]: at least one character, and all of them digits. *)
Definition isdigit (s : string) : bool :=
  match s with
  | EmptyString => false
  | _ => forallb char_isdigit (chars s)
  end.

(** A string of ASCII digits only. *)
Definition all_ascii_digits (s : string) : bool := forallb is_ascii_digit (chars s).

(** [os.path.join(a, b)] on POSIX, two components. *)
Definition starts_with_slash (s : string) : bool :=
  match s with String "/" _ => true | _ => false end.

Fixpoint ends_with_slash (s : string) : bool :=
  match s with
  | EmptyString => false
  | String c EmptyString => Ascii.eqb c "/"
  | String _ r => ends_with_slash r
  end.

Definition os_path_join (a b : string) : string :=
  if starts_with_slash b then b
  else if String.eqb a "" || ends_with_slash a then a +:+ b
  else a +:+ "/" +:+ b.

(** [path] cut at its last slash. *)
Fixpoint split_last_slash (s : string) : option (string * string) :=
  match s with
  | EmptyString => None
  | String c r =>
      match split_last_slash r with
      | Some (h, t) => Some (String c h, t)
      | None => if Ascii.eqb c "/" then Some (EmptyString, r) else None
      end
  end.

(** The directory that holds [path]: what stands before its last slash
    (the root for a path directly under it, the current directory for a
    bare name). *)
Definition parent_dir (path : string) : string :=
  match split_last_slash path with
  | Some (EmptyString, _) => "/"
  | Some (h, _) => h
  | None => "."
  end.

(** *** Floats *)

Definition is_finite (x : float) : bool :=
  match Prim2SF x with
  | S754_zero _ | S754_finite _ _ _ => true
  | S754_infinity _ | S754_nan => false
  end.

(** [m * 2^e] in hundredths, rounded to nearest, ties to even. *)
Definition hundredths (m : positive) (e : Z) : N :=
  let n := (100 * Npos m)%N in
  match e with
  | Z0 => n
  | Zpos k => N.shiftl n (Npos k)
  | Zneg k =>
      let d := N.shiftl 1 (Npos k) in
      let q := (n / d)%N in
      let r := (n mod d)%N in
      match (2 * r ?= d)%N with
      | Lt => q
      | Gt => N.succ q
      | Eq => if N.even q then q else N.succ q
      end
  end.

Definition digit_char (n : N) : ascii := ascii_of_N (48 + n mod 10).

Definition string_of_N (n : N) : string := NilZero.string_of_uint (N.to_uint n).

(** A number of hundredths printed with two decimals. *)
Definition fixed2 (c : N) : string :=
  string_of_N (c / 100) +:+ "." +:+
  String (digit_char (c / 10)) (String (digit_char c) EmptyString).

Definition sign_str (s : bool) : string := if s then "-" else "".

(** [f"{x:.2f}"]: the exact binary value rounded half-even to two
    decimals; the sign is kept when the value rounds to zero. *)
Definition format_2f (x : float) : string :=
  match Prim2SF x with
  | S754_nan => "nan"
  | S754_infinity s => sign_str s +:+ "inf"
  | S754_zero s => sign_str s +:+ "0.00"
  | S754_finite s m e => sign_str s +:+ fixed2 (hundredths m e)
  end.

(** *** [repr] and the text of an [OSError] *)

(** [c.isprintable()], for a code point below 256. *)
Definition isprintable (c : ascii) : bool :=
  let n := nat_of_ascii c in
  ((32 <=? n) && (n <=? 126)) || ((161 <=? n) && negb (n =? 173)).

Definition hex_digit (n : nat) : ascii :=
  ascii_of_nat (if n <? 10 then 48 + n else 87 + n).

Definition single_quote : ascii := ascii_of_nat 39.
Definition double_quote : ascii := ascii_of_nat 34.
Definition backslash : ascii := ascii_of_nat 92.

Definition has_char (c : ascii) (s : string) : bool := existsb (Ascii.eqb c) (chars s).

(** The quote that [repr(s)] puts around [s]: the double quote when [s]
    holds a single quote and no double quote. *)
Definition repr_quote (s : string) : ascii :=
  if has_char single_quote s && negb (has_char double_quote s)
  then double_quote else single_quote.

Definition repr_char (quote c : ascii) : string :=
  let n := nat_of_ascii c in
  if Ascii.eqb c quote || Ascii.eqb c backslash then String backslash (String c "")
  else if n =? 9 then String backslash "t"
  else if n =? 10 then String backslash "n"
  else if n =? 13 then String backslash "r"
  else if isprintable c then String c ""
  else String backslash
         (String "x" (String (hex_digit (n / 16)) (String (hex_digit (n mod 16)) ""))).

(** [repr(s)] of a [str]. *)
Definition repr (s : string) : string :=
  let quote := repr_quote s in
  String quote (fold_right (fun c r => repr_char quote c +:+ r) "" (chars s))
  +:+ String quote "".

(** An [OSError] that names a file: [str(e)] is the error number, the
    text of the system for it (here that of Linux) and the [repr] of the
    file name. *)
Definition os_error (class : string) (errno : N) (strerror filename : string) : exn :=
  Exn class ("[Errno " +:+ string_of_N errno +:+ "] " +:+ strerror +:+ ": "
             +:+ repr filename).

Definition file_exists_error (path : string) : exn :=
  os_error "FileExistsError" 17 "File exists" path.

Definition is_a_directory_error (path : string) : exn :=
  os_error "IsADirectoryError" 21 "Is a directory" path.

Definition file_not_found_error (path : string) : exn :=
  os_error "FileNotFoundError" 2 "No such file or directory" path.

(** *** Dictionaries

    A [dict] keeps its keys in insertion order; assigning to a key that is
    present replaces the value in place. *)
Section Dict.
Context {K V : Type} `{EqDecision K}.

Definition dict := list (K * V).

Fixpoint dict_get (k : K) (d : dict) : option V :=
  match d with
  | [] => None
  | (k', v) :: r => if decide (k = k') then Some v else dict_get k r
  end.

Fixpoint dict_set (k : K) (v : V) (d : dict) : dict :=
  match d with
  | [] => [(k, v)]
  | (k', v') :: r =>
      if decide (k = k') then (k, v) :: r else (k', v') :: dict_set k v r
  end.

Definition dict_keys (d : dict) : list K := map fst d.

(** [bool(d)]. *)
Definition dict_truthy (d : dict) : bool :=
  match d with [] => false | _ => true end.

End Dict.
Arguments dict : clear implicits.

End Py.

(** ** The PySpark interface *)
Module Spark.
Import Py.

(** A collected [Row] of the aggregate: both columns are nullable. *)
Record Row (V : Type) := mkRow { product_name : option string; total_price : option V }.
Arguments mkRow {V} _ _.
Arguments product_name {V} _.
Arguments total_price {V} _.

(** A data frame is a query that has not run yet: [collect()] runs it. *)
Record DataFrame := { collect : result (list (Row float)) }.

(** The session, seen through the one query the driver builds with it
    (lines 30-41 of [process_log_file]): reading the file at a path as
    pipe-delimited CSV, naming its four columns, casting [price] to float,
    grouping by [product_name] and summing [price].  Building the query
    may raise; so may running it. *)
Record Session := { log_totals : string -> result DataFrame }.

(** *** The query on the text of a file

    The four calls of [process_log_file], after Spark's documentation, on
    lines that hold no quote character (the default quote of the CSV
    reader is the double quote; a line with one is outside this model,
    and the statements about the query ask for [quote_free] lines).

    - [spark.read.option("delimiter", "|").csv(path)], with no header and
      no schema, in the default PERMISSIVE mode: the path must name
      something to read; the data has as many columns as its first line
      has fields; lines that are empty after trimming are skipped; an
      empty field is null; a line with fewer fields than columns is
      padded with nulls, one with more is cut.
    - [toDF] with four names raises unless there are four columns.
    - [cast("float")] of a string that is no number is null, as is the
      cast of a null.
    - [groupBy("product_name").agg(sum("price"))] has one row per product
      (null being one of them); [sum] skips nulls and is null for a group
      that holds no number.

    Spark does not say in which order the rows of the groups come.  It
    adds up the numbers of a group partition by partition (from [0.0],
    in the order of the lines) and then adds up what the partitions
    gave; how a file is cut into partitions depends on its size and on
    the configuration.  The text of its exceptions names the absolute
    path and the columns.  All of these are left to an [Engine]. *)

Fixpoint split_on (sep : ascii) (s : string) : list string :=
  match s with
  | EmptyString => [EmptyString]
  | String c r =>
      if Ascii.eqb c sep then EmptyString :: split_on sep r
      else match split_on sep r with
           | h :: t => String c h :: t
           | [] => [String c EmptyString]
           end
  end.

Definition null_if_empty (s : string) : option string :=
  if String.eqb s "" then None else Some s.

Definition csv_fields (line : string) : list string := split_on "|" line.

(** Column [i] of a line, for [i] below the number of columns. *)
Definition csv_column (i : nat) (line : string) : option string :=
  match nth_error (csv_fields line) i with
  | Some f => null_if_empty f
  | None => None
  end.

(** A line that is not empty once blanks and control characters are
    trimmed off. *)
Definition nonblank (line : string) : bool :=
  existsb (fun c => 32 <? nat_of_ascii c) (chars line).

(** A line without the quote character of the CSV reader. *)
Definition quote_free (line : string) : bool := negb (has_char double_quote line).

(** What Spark leaves open, for the lines that it reads. *)
Record Engine := {
  (** the order in which [collect()] returns the rows of the groups *)
  arrange : list string -> list (Row float) -> list (Row float);
  (** the sum of the numbers of the group of a product, given in the
      order of the lines *)
  add_up : list string -> option string -> list float -> float;
  (** the [AnalysisException] for a path that names nothing to read *)
  path_not_found : string -> exn;
  (** the [IllegalArgumentException] of [toDF] for data of so many
      columns *)
  column_mismatch : nat -> exn;
}.

(** An engine returns the rows it is given, in some order. *)
Definition permutes (engine : Engine) : Prop :=
  forall lines rows, Permutation (arrange engine lines rows) rows.

(** An engine that reads these lines as one partition adds the numbers
    of each group from [0.0] in the order of the lines. *)
Definition one_partition (engine : Engine) (lines : list string) : Prop :=
  forall q prices,
    add_up engine lines q prices = fold_left PrimFloat.add prices 0%float.

Section Query.
(** The cast of a string to a float: null ([None]) when it is no number. *)
Context (cast_float : string -> option float) (engine : Engine).

(** The columns [product_name] and [price] of one line, after the cast. *)
Definition record_of (line : string) : option string * option float :=
  (csv_column 2 line,
   match csv_column 3 line with
   | Some f => cast_float f
   | None => None
   end).

(** The numbers of a group, in the order of the lines. *)
Definition group_prices (q : option string)
    (records : list (option string * option float)) : list float :=
  flat_map (fun r => if decide (fst r = q)
                     then match snd r with Some x => [x] | None => [] end
                     else []) records.

(** [sum("price")] of a group: null when the group holds no number. *)
Definition group_total (lines : list string) (q : option string)
    (records : list (option string * option float)) : option float :=
  match group_prices q records with
  | [] => None
  | prices => Some (add_up engine lines q prices)
  end.

(** [groupBy("product_name").agg(sum("price"))]: one row for each product
    of the records, in the order of the engine. *)
Definition group_sum (lines : list string)
    (records : list (option string * option float)) : list (Row float) :=
  arrange engine lines
    (map (fun q => mkRow q (group_total lines q records))
         (remove_dups (map fst records))).

(** The query over the lines that Spark reads. *)
Definition query_lines (lines : list string) : result DataFrame :=
  let data := List.filter nonblank lines in
  let width := match data with l :: _ => length (csv_fields l) | [] => 0 end in
  if width =? 4
  then Return {| collect := Return (group_sum lines (map record_of data)) |}
  else Raise (column_mismatch engine width).

(** A session over text files.  [read_lines path] is what Spark reads
    when it is given [path]: Spark takes the path as a pattern, so for a
    name without the characters of a pattern (the star, the question
    mark, brackets, braces and the backslash) these are the lines of the
    file of that name; [None] when the path names nothing. *)
Definition csv_session (read_lines : string -> option (list string)) : Session :=
  {| log_totals := fun path =>
       match read_lines path with
       | Some lines => query_lines lines
       | None => Raise (path_not_found engine path)
       end |}.

End Query.

End Spark.

(** ** The driver *)
Module Driver.
Import Py Spark.

(** *** What the driver reads and what it changes *)

(** The input side, which a run only reads: the directory listings,
    [glob.glob], and the Spark session over the log files. *)
Record World := {
  os_listdir : string -> result (list string);
  glob_glob : string -> list string;
  spark : Session;
}.

(** The output side: the directories and text files that exist, what has
    been printed, and whether a Spark session is running. *)
Record state := {
  dirs : gset string;
  files : gmap string string;
  stdout : list string;
  spark_running : bool;
}.

Definition print (msg : string) (st : state) : state :=
  {| dirs := dirs st; files := files st;
     stdout := stdout st ++ [msg]; spark_running := spark_running st |}.

(** [os.makedirs(path, exist_ok=True)]: a directory that is there is left
    alone; a regular file of that name is an error. *)
Definition os_makedirs (path : string) (st : state) : result state :=
  if decide (path ∈ dirs st) then Return st
  else if decide (is_Some (files st !! path))
  then Raise (file_exists_error path)
  else Return {| dirs := {[path]} ∪ dirs st; files := files st;
                 stdout := stdout st; spark_running := spark_running st |}.

(** [with open(path, 'a') as f: f.write(text)]: the text goes after what
    the file holds; the file is created when missing.  Opening a directory
    is an error, and so is opening a file in a directory that is not
    there. *)
Definition open_append (path text : string) (st : state) : result state :=
  if decide (path ∈ dirs st) then Raise (is_a_directory_error path)
  else if decide (parent_dir path ∈ dirs st)
  then Return {| dirs := dirs st;
                 files := <[path := default "" (files st !! path) +:+ text]> (files st);
                 stdout := stdout st; spark_running := spark_running st |}
  else Raise (file_not_found_error path).

(** [create_spark_session()] and [spark.stop()], as far as the driver is
    concerned: a session runs from the one to the other. *)
Definition create_spark_session (st : state) : state :=
  {| dirs := dirs st; files := files st; stdout := stdout st; spark_running := true |}.

Definition spark_stop (st : state) : state :=
  {| dirs := dirs st; files := files st; stdout := stdout st; spark_running := false |}.

(** *** get_hour_folders

    [[d for d in os.listdir(base_path) if len(d) == 10 and d.isdigit()]]. *)
Definition get_hour_folders (w : World) (base_path : string) : result (list string) :=
  match os_listdir w base_path with
  | Raise e => Raise e
  | Return entries =>
      Return (List.filter (fun d => (String.length d =? 10) && isdigit d) entries)
  end.

(** *** process_log_file

    The query is built inside [try]: an exception of Spark is printed and
    the result is [None].  Nothing runs the query here. *)
Definition process_log_file (spark : Session) (file_path : string) (st : state)
  : state * option DataFrame :=
  match log_totals spark file_path with
  | Return result_df => (st, Some result_df)
  | Raise e =>
      (print ("Error processing file " +:+ file_path +:+ ": " +:+ exn_str e) st, None)
  end.

(** *** format_datetime

    Four slices of the folder name and three separators. *)
Definition format_datetime (folder_name : string) : string :=
  let year := slice 0 4 folder_name in
  let month := slice 4 6 folder_name in
  let day := slice 6 8 folder_name in
  let hour := slice 8 10 folder_name in
  year +:+ "/" +:+ month +:+ "/" +:+ day +:+ " " +:+ hour.

(** *** main *)
Definition input_path : string := "./logs".
Definition output_path : string := "./output".

Definition none_amount : exn :=
  Exn "TypeError" "unsupported operand type(s) for +=: 'float' and 'NoneType'".

(** Lines 90-95, for one collected row: a product that is new gets the
    total [zero], then the amount is added to the total of the product
    with [add].  A null amount cannot be added: [+=] raises [TypeError].
    (The key is there by then, so the [KeyError] branch is never taken.) *)
Section Merge.
Context {V : Type} (add : V -> V -> V) (zero : V).

Definition add_row (hour_results : dict (option string) V) (row : Row V)
  : result (dict (option string) V) :=
  let product := product_name row in
  let amount := total_price row in
  let hour_results :=
    match dict_get product hour_results with
    | None => dict_set product zero hour_results
    | Some _ => hour_results
    end in
  match dict_get product hour_results, amount with
  | Some total, Some a => Return (dict_set product (add total a) hour_results)
  | Some _, None => Raise none_amount
  | None, _ => Raise (Exn "KeyError" "")
  end.

Fixpoint add_rows (hour_results : dict (option string) V) (rows : list (Row V))
  : result (dict (option string) V) :=
  match rows with
  | [] => Return hour_results
  | row :: rest =>
      match add_row hour_results row with
      | Return hour_results' => add_rows hour_results' rest
      | Raise e => Raise e
      end
  end.

End Merge.

Definition hour_dict := dict (option string) float.

(** Lines 84-95: the loop over the log files of one hour.  [if result_df:]
    tells [None] from a data frame (a data frame is true, whatever it
    holds); [collect()] runs the query, outside any [try]. *)
Fixpoint for_log_files (w : World) (log_files : list string)
    (hour_results : hour_dict) (st : state) : state * result hour_dict :=
  match log_files with
  | [] => (st, Return hour_results)
  | file_path :: rest =>
      let '(st1, result_df) := process_log_file (spark w) file_path st in
      match result_df with
      | Some df =>
          match collect df with
          | Return rows =>
              match add_rows PrimFloat.add 0%float hour_results rows with
              | Return hour_results' => for_log_files w rest hour_results' st1
              | Raise e => (st1, Raise e)
              end
          | Raise e => (st1, Raise e)
          end
      | None => for_log_files w rest hour_results st1
      end
  end.

(** [str(product)] inside the f-string. *)
Definition str_of_product (product : option string) : string :=
  match product with Some s => s | None => "None" end.

Definition newline : string := String (ascii_of_nat 10) EmptyString.

Definition output_line (date_str : string) (item : option string * float) : string :=
  date_str +:+ "|" +:+ str_of_product (fst item) +:+ "|" +:+ format_2f (snd item)
  +:+ newline.

Definition output_text (date_str : string) (hour_results : hour_dict) : string :=
  fold_right String.append "" (map (output_line date_str) hour_results).

Definition output_file (folder : string) : string :=
  os_path_join output_path (folder +:+ ".txt").

(** Lines 98-106: writing the totals of one hour, when there are any.  The
    file is opened in mode ['a']. *)
Definition write_results (folder : string) (hour_results : hour_dict) (st : state)
  : state * result unit :=
  if dict_truthy hour_results then
    let date_str := format_datetime folder in
    match open_append (output_file folder) (output_text date_str hour_results) st with
    | Return st1 => (print ("File created: " +:+ output_file folder) st1, Return tt)
    | Raise e => (st, Raise e)
    end
  else (st, Return tt).

(** Lines 75-106: one iteration of the loop over the hour folders. *)
Definition process_folder (w : World) (folder : string) (st : state)
  : state * result unit :=
  let folder_path := os_path_join input_path folder in
  let log_files := glob_glob w (os_path_join folder_path "*.txt") in
  match for_log_files w log_files [] st with
  | (st1, Return hour_results) => write_results folder hour_results st1
  | (st1, Raise e) => (st1, Raise e)
  end.

Fixpoint for_hour_folders (w : World) (hour_folders : list string) (st : state)
  : state * result unit :=
  match hour_folders with
  | [] => (st, Return tt)
  | folder :: rest =>
      match process_folder w folder st with
      | (st1, Return _) => for_hour_folders w rest st1
      | (st1, Raise e) => (st1, Raise e)
      end
  end.

(** The [try] block of [main]. *)
Definition main_body (w : World) (st : state) : state * result unit :=
  match get_hour_folders w input_path with
  | Return hour_folders => for_hour_folders w hour_folders st
  | Raise e => (st, Raise e)
  end.

(** [main]: the output directory, the session, the [try] block, and
    [spark.stop()] in the [finally] clause, whatever the block did. *)
Definition main (w : World) (st : state) : state * result unit :=
  match os_makedirs output_path st with
  | Raise e => (st, Raise e)
  | Return st1 =>
      let st2 := create_spark_session st1 in
      let '(st3, r) := main_body w st2 in
      (spark_stop st3, r)
  end.

End Driver.

(** ** The vocabulary of the statements *)
Module Notions.
Import Py Spark Driver.

(** The shape "digits, a decimal point and exactly two decimal digits",
    after a minus sign for a negative number. *)
Definition two_decimal_form (s : string) : Prop :=
  exists (neg : bool) (ip : string) (d1 d2 : ascii),
    s = sign_str neg +:+ ip +:+ "." +:+ String d1 (String d2 EmptyString)
    /\ ip <> "" /\ all_ascii_digits ip = true
    /\ is_ascii_digit d1 = true /\ is_ascii_digit d2 = true.

(** Two states that differ in what was printed only. *)
Definition same_output (a b : state) : Prop :=
  dirs a = dirs b /\ files a = files b /\ spark_running a = spark_running b.

(** One line of the file of an hour, for the date in four pieces. *)
Definition dated_line (y m d h : string) (item : option string * float) : string :=
  (y +:+ "/" +:+ m +:+ "/" +:+ d +:+ " " +:+ h)
  +:+ "|" +:+ str_of_product (fst item) +:+ "|" +:+ format_2f (snd item) +:+ newline.

(** *** Rows and totals *)
Section Totals.
Context {V : Type} (add : V -> V -> V) (zero : V).

(** A row that holds an amount. *)
Definition has_amount (r : Row V) : Prop := total_price r <> None.

(** The amounts the rows hold for a product, in the order of the rows. *)
Definition amounts_of (p : option string) (rows : list (Row V)) : list V :=
  omap (fun r => if decide (product_name r = p) then total_price r else None) rows.

(** A total after more amounts: untouched when there are none. *)
Definition total_after (cur : option V) (l : list V) : option V :=
  match l with
  | [] => cur
  | _ => Some (fold_left add l (default zero cur))
  end.

End Totals.

(** The rows a log file contributes: none when its query cannot be built
    or run. *)
Definition rows_of (w : World) (path : string) : list (Row float) :=
  match log_totals (spark w) path with
  | Return df => match collect df with Return rows => rows | Raise _ => [] end
  | Raise _ => []
  end.

(** Every query that can be built for these files can be run. *)
Definition collect_never_fails (w : World) (paths : list string) : Prop :=
  forall path df, In path paths -> log_totals (spark w) path = Return df ->
                  exists rows, collect df = Return rows.

(** A file that gives the hour nothing: its query cannot be built, or it
    runs and has no row. *)
Definition gives_no_row (w : World) (path : string) : Prop :=
  (exists e, log_totals (spark w) path = Raise e)
  \/ (exists df, log_totals (spark w) path = Return df /\ collect df = Return []).

(** The log files of an hour folder, as [main] looks them up. *)
Definition log_files_of (w : World) (folder : string) : list string :=
  glob_glob w (os_path_join (os_path_join input_path folder) "*.txt").

(** *** What can be raised *)

(** By the processing of a file: running its query raises, or one of its
    totals is null. *)
Definition raised_in_file (w : World) (path : string) (e : exn) : Prop :=
  exists df, log_totals (spark w) path = Return df
    /\ (collect df = Raise e
        \/ (e = none_amount
            /\ exists rows r, collect df = Return rows /\ In r rows
                              /\ total_price r = None)).

(** By the processing of an hour folder: by one of its files, or because
    the file of the hour is a directory. *)
Definition raised_in_folder (w : World) (folder : string) (e : exn) : Prop :=
  (exists path, In path (log_files_of w folder) /\ raised_in_file w path e)
  \/ e = is_a_directory_error (output_file folder).

(** *** What the specification asks of a file *)
Section SpecFile.
Context (cast_float : string -> option float).

(** The parser of the specification: a line is a record when it splits on
    the pipe into exactly four fields and the fourth one is a number. *)
Definition spec_parse_line (line : string) : option (string * float) :=
  match csv_fields line with
  | [_; _; product; price] =>
      match cast_float price with
      | Some x => Some (product, x)
      | None => None
      end
  | _ => None
  end.

(** The prices of the well-formed lines of a product, in file order. *)
Definition spec_prices (p : string) (lines : list string) : list float :=
  flat_map (fun l => match spec_parse_line l with
                     | Some (q, x) => if decide (q = p) then [x] else []
                     | None => []
                     end) lines.

(** The total the specification gives a product: the sum of the prices of
    its well-formed lines, however the sum is taken; none when it has no
    such line. *)
Definition spec_total (add_up : list float -> float) (p : string)
    (lines : list string) : option float :=
  match spec_prices p lines with
  | [] => None
  | prices => Some (add_up prices)
  end.



End SpecFile.

End Notions.

(** ** Small inputs *)
Module Inputs.
Import Py Spark Driver.

(** A state with nothing in the current directory. *)
Definition fresh_state : state :=
  {| dirs := {["."]}; files := ∅; stdout := []; spark_running := false |}.

(** A state in which the output directory is there and Spark runs. *)
Definition output_dir_state : state :=
  {| dirs := {[output_path]}; files := ∅; stdout := []; spark_running := true |}.

(** Spark's cast to float, on the price fields that occur in the trees
    below; no other field of theirs is a number. *)
Definition example_cast (s : string) : option float :=
  if String.eqb s "10.50" then Some 10.5%float
  else if String.eqb s "4.50" then Some 4.5%float
  else if String.eqb s "7.25" then Some 7.25%float
  else if String.eqb s "Infinity" then Some infinity
  else None.

(** Spark as it reads the small files below, started in the directory
    [/work]: each file as one partition, the rows in the order of the
    first line of the products.  The paths of the driver start with
    [./]. *)
Definition absolute_uri (path : string) : string :=
  "file:/work/"
  +:+ (if String.prefix "./" path then substring 2 (String.length path - 2) path
       else path).

Definition default_column_names (width : nat) : list string :=
  map (fun i => "_c" +:+ string_of_N (N.of_nat i)) (seq 0 width).

Definition example_engine : Engine :=
  {| arrange := fun _ rows => rows;
     add_up := fun _ _ prices => fold_left PrimFloat.add prices 0%float;
     path_not_found := fun path =>
       Exn "AnalysisException"
         ("[PATH_NOT_FOUND] Path does not exist: " +:+ absolute_uri path +:+ ".");
     column_mismatch := fun width =>
       Exn "IllegalArgumentException"
         ("requirement failed: The number of columns doesn't match." +:+ newline
          +:+ "Old column names (" +:+ string_of_N (N.of_nat width) +:+ "): "
          +:+ String.concat ", " (default_column_names width) +:+ newline
          +:+ "New column names (4): timestamp, id, product_name, price") |}.

(** A tree of logs: the entries of [./logs], in listing order, each with
    its [.txt] files and their lines.  The names of the files hold no
    character of a pattern, so that Spark reads the file that a path
    names. *)
Definition log_tree := list (string * list (string * list string)).

Definition folder_dir (folder : string) : string := "./logs/" +:+ folder.

Definition tree_files (t : log_tree) : list (string * list string) :=
  flat_map (fun d => map (fun f => (folder_dir (fst d) +:+ "/" +:+ fst f, snd f)) (snd d)) t.

Definition tree_world (t : log_tree) : World :=
  {| os_listdir := fun path =>
       if String.eqb path "./logs" then Return (map fst t)
       else Raise (Exn "FileNotFoundError" path);
     glob_glob := fun pattern =>
       flat_map (fun d =>
         if String.eqb pattern (folder_dir (fst d) +:+ "/*.txt")
         then map (fun f => folder_dir (fst d) +:+ "/" +:+ fst f) (snd d)
         else []) t;
     spark := csv_session example_cast example_engine (fun path =>
       snd <$> List.find (fun f => String.eqb (fst f) path) (tree_files t)) |}.

Definition run (t : log_tree) (st : state) : state * result unit := main (tree_world t) st.

Definition widget_lines : list string :=
  ["2024-11-23T14:00:00|1|Widget|10.50"; "2024-11-23T14:05:00|2|Widget|4.50"].

Definition gadget_lines : list string := ["2024-11-23T15:00:00|3|Gadget|7.25"].

(** One hour, one file, two sales of widgets. *)
Definition widget_tree : log_tree := [("2024112314", [("a.txt", widget_lines)])].


(** Two hours; the first one has the line that is no record. *)
Definition garbage_tree : log_tree :=
  [("2024112314", [("a.txt", widget_lines ++ ["garbage"])]);
   ("2024112315", [("b.txt", gadget_lines)])].

Definition clean_tree : log_tree :=
  [("2024112314", [("a.txt", widget_lines)]);
   ("2024112315", [("b.txt", gadget_lines)])].

(** One hour whose only line has a price that is no number. *)
Definition abc_tree : log_tree :=
  [("2024112314", [("a.txt", ["2024-11-23T14:00:00|1|Widget|abc"])])].

(** One hour whose only line has an infinite price. *)
Definition infinity_tree : log_tree :=
  [("2024112314", [("a.txt", ["2024-11-23T14:00:00|1|Widget|Infinity"])])].

Definition out14 : string := "./output/2024112314.txt".
Definition out15 : string := "./output/2024112315.txt".

(** A world whose input root is missing. *)
Definition no_logs_world : World :=
  {| os_listdir := fun path => Raise (Exn "FileNotFoundError" path);
     glob_glob := fun _ => ["./logs/2024112314/a.txt"];
     spark := {| log_totals := fun _ =>
        Return {| collect := Return [mkRow (Some "Widget") (Some 15%float)] |} |} |}.

(** The superscript two, a digit for [str.isdigit]. *)
Definition superscript_two : ascii := ascii_of_nat 178.

Definition superscript_twos : string :=
  string_of_list_ascii (repeat superscript_two 10).

(** A root that holds a single entry, named by ten superscript twos. *)
Definition superscript_world : World :=
  {| os_listdir := fun _ => Return [superscript_twos];
     glob_glob := fun _ => [];
     spark := {| log_totals := fun path => Raise (Exn "AnalysisException" path) |} |}.

(** A root with folders of the hour and other entries. *)
Definition mixed_root_world : World :=
  {| os_listdir := fun _ =>
       Return ["2024112314"; "notes"; "20241123"; "2024112315"; "2024-11-23";
               "20241123145"];
     glob_glob := fun _ => [];
     spark := {| log_totals := fun path => Raise (Exn "AnalysisException" path) |} |}.

(** A folder with two files, the first of which Spark cannot read. *)
Definition unreadable_file_world : World :=
  {| os_listdir := fun _ => Return ["2024112314"];
     glob_glob := fun _ => ["./logs/2024112314/a.txt"; "./logs/2024112314/b.txt"];
     spark := csv_session example_cast example_engine (fun path =>
       if String.eqb path "./logs/2024112314/b.txt" then Some widget_lines else None) |}.

(** The log files of one hour, each known by the rows that Spark gives
    for it. *)
Definition rows_world (files : dict string (list (Row float))) : World :=
  {| os_listdir := fun _ => Return ["2024112314"];
     glob_glob := fun _ => dict_keys files;
     spark := {| log_totals := fun path =>
       match dict_get path files with
       | Some rows => Return {| collect := Return rows |}
       | None => Raise (Exn "AnalysisException" path)
       end |} |}.

Definition file_a : string := "./logs/2024112314/a.txt".
Definition file_b : string := "./logs/2024112314/b.txt".
Definition file_c : string := "./logs/2024112314/c.txt".

(** Two files that both sell widgets. *)
Definition two_files_world : World :=
  rows_world
    [(file_a, [mkRow (Some "Widget") (Some 10.5%float);
               mkRow (Some "Gadget") (Some 7.25%float)]);
     (file_b, [mkRow (Some "Widget") (Some 4.5%float)])].

(** Three files that sell widgets: for two to the power 53, for as much
    back, and for 1. *)
Definition cancelling_world : World :=
  rows_world
    [(file_a, [mkRow (Some "Widget") (Some 9007199254740992%float)]);
     (file_b, [mkRow (Some "Widget") (Some (-9007199254740992)%float)]);
     (file_c, [mkRow (Some "Widget") (Some 1%float)])].

(** A file in which a product has no amount. *)
Definition null_amount_world : World :=
  rows_world
    [(file_a, [mkRow (Some "Widget") (Some 10.5%float); mkRow (Some "Gadget") None])].

End Inputs.


(** ** The dashboard: [load_data] of [dashboard.py] *)
Module Dashboard.
Import Py.

(** *** Dates *)

(** A [datetime.date]. *)
Record date := Date { year : N; month : N; day : N }.

Definition is_leap (y : N) : bool :=
  ((y mod 4 =? 0) && (negb (y mod 100 =? 0) || (y mod 400 =? 0)))%N.

Definition days_in_month (y m : N) : N :=
  match m with
  | 2 => if is_leap y then 29 else 28
  | 4 | 6 | 9 | 11 => 30
  | _ => 31
  end%N.

(** [date(y, m, d)] is an error unless the year is in 1..9999, the month
    in 1..12 and the day in the month. *)
Definition valid_date (y m d : N) : bool :=
  ((1 <=? y) && (y <=? 9999) && (1 <=? m) && (m <=? 12)
   && (1 <=? d) && (d <=? days_in_month y m))%N.

(** [a <= b] on dates: the order of the triples year, month, day. *)
Definition date_le (a b : date) : bool :=
  ((year a <? year b)
   || ((year a =? year b)
       && ((month a <? month b)
           || ((month a =? month b) && (day a <=? day b)))))%N.

(** *** [datetime.strptime]

    [strptime] turns the format into a regular expression and matches it
    at the start of the text as [re.match] does: the alternatives of a
    directive are tried in order, and the first way to match the whole
    expression is the match.  It raises [ValueError] when there is no
    match, when text remains after the match, and when the numbers read
    are no date.  Below code point 256 the digits of [\d] are the ASCII
    ones.  [None] stands for the [ValueError]; its text is not
    modelled. *)

Definition digit_value (c : ascii) : N := (N_of_ascii c - 48)%N.

(** [[lo-hi]]. *)
Definition in_class (lo hi c : ascii) : bool :=
  ((N_of_ascii lo <=? N_of_ascii c) && (N_of_ascii c <=? N_of_ascii hi))%N.

(** The ways to match at the head of a text, in the order of the search:
    the number read and the text that remains. *)
Definition matcher := string -> list (N * string).

(** Two digits, each of a class. *)
Definition two_chars (lo1 hi1 lo2 hi2 : ascii) : matcher := fun s =>
  match s with
  | String c1 (String c2 r) =>
      if in_class lo1 hi1 c1 && in_class lo2 hi2 c2
      then [((10 * digit_value c1 + digit_value c2)%N, r)]
      else []
  | _ => []
  end.

Definition one_char (lo hi : ascii) : matcher := fun s =>
  match s with
  | String c r => if in_class lo hi c then [(digit_value c, r)] else []
  | _ => []
  end.

(** A blank and a digit from 1 to 9. *)
Definition blank_and_digit : matcher := fun s =>
  match s with
  | String " " (String c r) => if in_class "1" "9" c then [(digit_value c, r)] else []
  | _ => []
  end.

(** [%Y] is [\d\d\d\d]. *)
Definition re_Y : matcher := fun s =>
  match s with
  | String a (String b (String c (String d r))) =>
      if is_ascii_digit a && is_ascii_digit b && is_ascii_digit c && is_ascii_digit d
      then [((1000 * digit_value a + 100 * digit_value b
              + 10 * digit_value c + digit_value d)%N, r)]
      else []
  | _ => []
  end.

(** [%m] is [1[0-2]|0[1-9]|[1-9]]. *)
Definition re_m : matcher := fun s =>
  two_chars "1" "1" "0" "2" s ++ two_chars "0" "0" "1" "9" s ++ one_char "1" "9" s.

(** [%d] is [3[0-1]|[1-2]\d|0[1-9]|[1-9]| [1-9]]. *)
Definition re_d : matcher := fun s =>
  two_chars "3" "3" "0" "1" s ++ two_chars "1" "2" "0" "9" s
  ++ two_chars "0" "0" "1" "9" s ++ one_char "1" "9" s ++ blank_and_digit s.

(** A character of the format that stands for itself. *)
Definition literal (c : ascii) (s : string) : list string :=
  match s with
  | String c' r => if Ascii.eqb c c' then [r] else []
  | _ => []
  end.

(** The matches of the format ['%Y%m%d']. *)
Definition matches_Ymd (s : string) : list (N * N * N * string) :=
  flat_map (fun '(y, r1) =>
    flat_map (fun '(m, r2) =>
      map (fun '(d, r3) => (y, m, d, r3)) (re_d r2)) (re_m r1)) (re_Y s).

(** The matches of the format ['%Y-%m-%d']. *)
Definition matches_Y_m_d (s : string) : list (N * N * N * string) :=
  flat_map (fun '(y, r1) =>
    flat_map (fun r1' =>
      flat_map (fun '(m, r2) =>
        flat_map (fun r2' =>
          map (fun '(d, r3) => (y, m, d, r3)) (re_d r2')) (literal "-" r2))
        (re_m r1')) (literal "-" r1)) (re_Y s).

(** [datetime.strptime(text, format).date()], for the matches of the
    format. *)
Definition strptime (matches : string -> list (N * N * N * string)) (text : string)
  : option date :=
  match matches text with
  | [] => None
  | (y, m, d, rest) :: _ =>
      if String.eqb rest ""
      then if valid_date y m d then Some (Date y m d) else None
      else None
  end.

(** *** Strings *)

(** [s.endswith(suffix)]. *)
Definition endswith (s suffix : string) : bool :=
  (String.length suffix <=? String.length s)
  && String.eqb (substring (String.length s - String.length suffix)
                   (String.length suffix) s) suffix.

(** *** load_data *)

(** What [load_data] reads: the listing of the output directory, and
    pandas.  A frame is whatever pandas makes of a file. *)
Record Env (Frame : Type) := {
  (** [os.listdir] *)
  listdir : string -> result (list string);
  (** lines 34-37: [pd.read_csv] with the separator ["|"] and the four
      column names, then [pd.to_numeric] on the column [sales] *)
  read_sales_csv : string -> result Frame;
  (** lines 44-46: [pd.concat] of the frames, and the columns [date] and
      [hour] that [pd.to_datetime] gives *)
  concat_dated : list Frame -> result Frame;
}.
Arguments listdir {Frame} _ _.
Arguments read_sales_csv {Frame} _ _.
Arguments concat_dated {Frame} _ _.

(** The frame that [load_data] returns: one that pandas made, or the empty
    [pd.DataFrame()]. *)
Inductive table (Frame : Type) : Type :=
| Data (df : Frame)
| EmptyFrame.
Arguments Data {Frame} df.
Arguments EmptyFrame {Frame}.

(** What ends the [try] block of [load_data]: the [ValueError] of
    [strptime] on a text, or an exception of [os.listdir] or of pandas. *)
Inductive cause :=
| BadDate (text : string)
| Raised (e : exn).

(** The two messages that [load_data] prints: that a file could not be
    read (and is passed over), and that the loading failed. *)
Inductive printed :=
| ReadError (filename : string) (e : exn)
| LoadError (c : cause).

(** The object: [self.output_dir]. *)
Record SalesDashboard := { output_dir : string }.

Section LoadData.
Context {Frame : Type} (env : Env Frame) (self : SalesDashboard).

(** Lines 27-41: the loop over the entries of the output directory.  The
    [strptime] of a file name is outside the inner [try]: its
    [ValueError] ends the loop. *)
Fixpoint for_filenames (start end_ : date) (filenames : list string)
    (all_data : list Frame) (out : list printed)
  : list printed * (list Frame + cause) :=
  match filenames with
  | [] => (out, inl all_data)
  | filename :: rest =>
      if endswith filename ".txt" then
        match strptime matches_Ymd (slice 0 8 filename) with
        | None => (out, inr (BadDate (slice 0 8 filename)))
        | Some file_date =>
            if date_le start file_date && date_le file_date end_ then
              let filepath := os_path_join (output_dir self) filename in
              match read_sales_csv env filepath with
              | Return df_temp =>
                  for_filenames start end_ rest (all_data ++ [df_temp]) out
              | Raise e =>
                  for_filenames start end_ rest all_data (out ++ [ReadError filename e])
              end
            else for_filenames start end_ rest all_data out
        end
      else for_filenames start end_ rest all_data out
  end.

(** The outer [try] block: the two dates, the listing, the loop, and the
    frames put together when there are any. *)
Definition load_data_body (start_date end_date : string)
  : list printed * (table Frame + cause) :=
  match strptime matches_Y_m_d start_date with
  | None => ([], inr (BadDate start_date))
  | Some start =>
      match strptime matches_Y_m_d end_date with
      | None => ([], inr (BadDate end_date))
      | Some end_ =>
          match listdir env (output_dir self) with
          | Raise e => ([], inr (Raised e))
          | Return filenames =>
              match for_filenames start end_ filenames [] [] with
              | (out, inl []) => (out, inl EmptyFrame)
              | (out, inl all_data) =>
                  match concat_dated env all_data with
                  | Return df => (out, inl (Data df))
                  | Raise e => (out, inr (Raised e))
                  end
              | (out, inr c) => (out, inr c)
              end
          end
      end
  end.

(** [load_data]: whatever ends the block is printed, and the empty frame
    returned. *)
Definition load_data (start_date end_date : string) : list printed * table Frame :=
  match load_data_body start_date end_date with
  | (out, inl df) => (out, df)
  | (out, inr c) => (out ++ [LoadError c], EmptyFrame)
  end.

End LoadData.

(** *** The vocabulary of the statements *)

(** The date in the name of a file. *)
Definition file_date (filename : string) : option date :=
  strptime matches_Ymd (slice 0 8 filename).

(** An entry that ends in [.txt] and whose date lies between two dates. *)
Definition in_range (start end_ : date) (filename : string) : bool :=
  endswith filename ".txt"
  && match file_date filename with
     | Some d => date_le start d && date_le d end_
     | None => false
     end.

(** Every entry that ends in [.txt] has a date in its name. *)
Definition names_have_dates (filenames : list string) : Prop :=
  forall filename, In filename filenames -> endswith filename ".txt" = true ->
                   file_date filename <> None.

(** The entries that [load_data] reads for a range of dates. *)
Definition chosen (start end_ : date) (filenames : list string) : list string :=
  List.filter (in_range start end_) filenames.

(** The frames of the entries that pandas can read, and the messages for
    those that it cannot. *)
Definition frames_of {Frame} (env : Env Frame) (self : SalesDashboard)
    (filenames : list string) : list Frame :=
  flat_map (fun filename =>
              match read_sales_csv env (os_path_join (output_dir self) filename) with
              | Return df => [df]
              | Raise _ => []
              end) filenames.

Definition read_errors_of {Frame} (env : Env Frame) (self : SalesDashboard)
    (filenames : list string) : list printed :=
  flat_map (fun filename =>
              match read_sales_csv env (os_path_join (output_dir self) filename) with
              | Return _ => []
              | Raise e => [ReadError filename e]
              end) filenames.

(** The number that a string of digits writes. *)
Definition number (s : string) : N :=
  fold_left (fun n c => (10 * n + digit_value c)%N) (chars s) 0%N.

(** *** Small inputs *)

(** The dashboard over the output directory of [main]. *)
Definition over_output : SalesDashboard := {| output_dir := "./output" |}.

(** A frame known by the paths it was read from; a file named [bad.txt]
    cannot be read. *)
Definition paths_env (filenames : list string) : Env (list string) :=
  {| listdir := fun _ => Return filenames;
     read_sales_csv := fun path =>
       if endswith path "/bad.txt" then Raise (Exn "EmptyDataError" path)
       else Return [path];
     concat_dated := fun frames => Return (concat frames) |}.

(** The files of three hours on two days, and a note. *)
Definition three_hours : list string :=
  ["2024112314.txt"; "notes.md"; "2024112409.txt"; "2024112315.txt"].

End Dashboard.

(** ** The vocabulary of the statements about whole runs *)
Module Effects.
Import Py Spark Driver Notions.

(** A file after a text was written behind it; without text nothing has
    happened to the file. *)
Definition append_text (old : option string) (text : string) : option string :=
  match text with
  | EmptyString => old
  | _ => Some (default "" old +:+ text)
  end.

(** The keys of a list, each once, in the order of their first
    occurrence. *)
Definition first_seen (l : list (option string)) : list (option string) :=
  fold_left (fun seen k => if decide (k ∈ seen) then seen else seen ++ [k]) l [].

(** Every query that can be built for these files can be run, and each of
    its rows holds an amount. *)
Definition rows_have_amounts (w : World) (paths : list string) : Prop :=
  forall path df, In path paths -> log_totals (spark w) path = Return df ->
                  exists rows, collect df = Return rows /\ Forall has_amount rows.

(** The rows of the log files of an hour folder, file after file. *)
Definition hour_rows (w : World) (folder : string) : list (Row float) :=
  flat_map (rows_of w) (log_files_of w folder).

(** The line of a product in the file of an hour: the date of the folder,
    the product, and the sum of its amounts from [0.0]. *)
Definition total_line (folder : string) (rows : list (Row float))
    (p : option string) : string :=
  format_datetime folder +:+ "|" +:+ str_of_product p +:+ "|"
  +:+ format_2f (fold_left PrimFloat.add (amounts_of p rows) 0%float) +:+ newline.

(** The text that a run puts behind the file of an hour folder: the line
    of each product of its rows, in the order in which the rows first name
    the products. *)
Definition hour_text (w : World) (folder : string) : string :=
  fold_right String.append ""
    (map (total_line folder (hour_rows w folder))
         (first_seen (map product_name (hour_rows w folder)))).

(** What a log file gives the hour for a product: the sum, as the engine
    adds them up, of the prices of the product in the records among the
    lines that Spark reads for the path; nothing when there is no record
    of the product or nothing to read. *)
Definition file_amount (cast_float : string -> option float) (engine : Engine)
    (read_lines : string -> option (list string)) (p : string) (path : string)
  : list float :=
  match read_lines path with
  | Some lines =>
      match spec_total cast_float (add_up engine lines (Some p)) p lines with
      | Some x => [x]
      | None => []
      end
  | None => []
  end.

(** A state with the output directory and the file of hour 14 as a first
    run leaves it. *)
Definition after_first_run : state :=
  {| dirs := {[output_path]};
     files := {["./output/2024112314.txt" := "2024/11/23 14|Widget|15.00" +:+ newline]};
     stdout := []; spark_running := false |}.

(** A world with one hour folder, whose only log file Spark cannot read. *)
Definition unreadable_hour_world : World :=
  {| os_listdir := fun _ => Return ["2024112314"];
     glob_glob := fun _ => ["./logs/2024112314/a.txt"];
     spark := {| log_totals := fun path => Raise (Exn "AnalysisException" path) |} |}.

(** A world with two hour folders; in the first one a total is null. *)
Definition null_total_world : World :=
  {| os_listdir := fun _ => Return ["2024112314"; "2024112315"];
     glob_glob := fun pattern =>
       if String.eqb pattern "./logs/2024112314/*.txt" then ["./logs/2024112314/a.txt"]
       else ["./logs/2024112315/b.txt"];
     spark := {| log_totals := fun path =>
       if String.eqb path "./logs/2024112314/a.txt"
       then Return {| collect := Return [mkRow (Some "Widget") (Some 15%float);
                                         mkRow (Some "Gadget") None] |}
       else Return {| collect := Return [mkRow (Some "Gadget") (Some 7.25%float)] |} |} |}.

End Effects.

(** * Properties *)

(** ** Strings and slices *)
Module StringFacts.
Import Py.

Lemma app_cons (c : ascii) (a b : string) : String c a +:+ b = String c (a +:+ b).
Proof. reflexivity. Qed.

Lemma app_nil_l (b : string) : "" +:+ b = b.
Proof. reflexivity. Qed.

Lemma chars_cons (c : ascii) (s : string) : chars (String c s) = c :: chars s.
Proof. reflexivity. Qed.

Lemma chars_app (a b : string) : chars (a +:+ b) = chars a ++ chars b.
Proof.
  induction a as [|c a IH]; [reflexivity|].
  now rewrite app_cons, !chars_cons, IH.
Qed.

Lemma chars_length (s : string) : length (chars s) = String.length s.
Proof.
  induction s as [|c s IH]; [reflexivity|].
  rewrite chars_cons. simpl. now rewrite IH.
Qed.

Lemma length_app (a b : string) :
  String.length (a +:+ b) = String.length a + String.length b.
Proof.
  induction a as [|c a IH]; [reflexivity|].
  rewrite app_cons. simpl. now rewrite IH.
Qed.

(** A substring, character by character. *)
Lemma substring_chars (s : string) :
  forall n m, chars (substring n m s) = firstn m (skipn n (chars s)).
Proof.
  induction s as [|c s IH]; intros n m.
  - destruct n, m; reflexivity.
  - destruct n as [|n].
    + destruct m as [|m]; [reflexivity|].
      change (substring 0 (S m) (String c s)) with (String c (substring 0 m s)).
      rewrite !chars_cons, IH. reflexivity.
    + change (substring (S n) m (String c s)) with (substring n m s).
      rewrite chars_cons. apply IH.
Qed.

Lemma slice_chars (i j : nat) (s : string) :
  chars (slice i j s) = firstn (j - i) (skipn i (chars s)).
Proof. apply substring_chars. Qed.

Lemma chars_inj (a b : string) : chars a = chars b -> a = b.
Proof.
  revert b; induction a as [|c a IH]; intros [|d b] H; try discriminate; [reflexivity|].
  rewrite !chars_cons in H. injection H as -> H. f_equal. now apply IH.
Qed.

Lemma app_assoc_s (a b c : string) : (a +:+ b) +:+ c = a +:+ (b +:+ c).
Proof.
  induction a as [|x a IH]; [reflexivity|].
  now rewrite !app_cons, IH.
Qed.

Lemma app_empty_r (a : string) : a +:+ "" = a.
Proof.
  induction a as [|x a IH]; [reflexivity|].
  now rewrite app_cons, IH.
Qed.

(** Consecutive pieces of a list make up one piece. *)
Lemma firstn_skipn_glue {A} (l : list A) (i n m : nat) :
  firstn n (skipn i l) ++ firstn m (skipn (i + n) l) = firstn (n + m) (skipn i l).
Proof.
  revert i n; induction l as [|x l IH]; intros i n.
  - now rewrite !skipn_nil, !firstn_nil.
  - destruct i as [|i].
    + destruct n as [|n]; [reflexivity|].
      simpl. f_equal. apply (IH 0 n).
    + simpl. apply IH.
Qed.

End StringFacts.

(** ** format_datetime *)
Module FormatDatetime.
Import Py Driver StringFacts.

Lemma slice_length (i j : nat) (s : string) :
  String.length (slice i j s) = Nat.min (j - i) (String.length s - i).
Proof.
  rewrite <- !chars_length, slice_chars, length_firstn, List.length_skipn.
  reflexivity.
Qed.

(** The characters of the result: the four fields and the separators. *)
Lemma format_datetime_chars (s : string) :
  chars (format_datetime s)
  = firstn 4 (chars s) ++ "/"%char :: firstn 2 (skipn 4 (chars s))
    ++ "/"%char :: firstn 2 (skipn 6 (chars s))
    ++ " "%char :: firstn 2 (skipn 8 (chars s)).
Proof. unfold format_datetime. rewrite !chars_app, !slice_chars. reflexivity. Qed.

(** The four fields, put side by side, are the first ten characters. *)
Lemma fields_cover_prefix (s : string) :
  slice 0 4 s +:+ slice 4 6 s +:+ slice 6 8 s +:+ slice 8 10 s = slice 0 10 s.
Proof.
  apply chars_inj. rewrite !chars_app, !slice_chars. simpl Nat.sub.
  pose proof (firstn_skipn_glue (chars s) 6 2 2) as H6.
  pose proof (firstn_skipn_glue (chars s) 4 2 4) as H4.
  pose proof (firstn_skipn_glue (chars s) 0 4 6) as H0.
  simpl Nat.add in H6, H4, H0. now rewrite H6, H4, H0.
Qed.

(** C9.  [format_datetime] is a total function of its string: whatever the
    string holds, and however long it is, the result is
    [s[0:4] + "/" + s[4:6] + "/" + s[6:8] + " " + s[8:10]].  Nothing is
    checked: the fields are the characters found at those positions, a
    field past the end of a short string is cut or empty, so the result
    has its three separators and the first ten characters of [s] (all of
    [s] when it is shorter), in order. *)
Theorem format_datetime_total (s : string) :
  format_datetime s
    = slice 0 4 s +:+ "/" +:+ slice 4 6 s +:+ "/" +:+ slice 6 8 s +:+ " " +:+ slice 8 10 s
  /\ chars (format_datetime s)
     = firstn 4 (chars s) ++ "/"%char :: firstn 2 (skipn 4 (chars s))
       ++ "/"%char :: firstn 2 (skipn 6 (chars s))
       ++ " "%char :: firstn 2 (skipn 8 (chars s))
  /\ String.length (format_datetime s) = 3 + Nat.min (String.length s) 10
  /\ slice 0 4 s +:+ slice 4 6 s +:+ slice 6 8 s +:+ slice 8 10 s = slice 0 10 s.
Proof.
  split; [reflexivity|]. split; [apply format_datetime_chars|]. split.
  - unfold format_datetime. rewrite !length_app, !slice_length. simpl String.length.
    lia.
  - apply fields_cover_prefix.
Qed.

Example format_datetime_bucket : format_datetime "2024112314" = "2024/11/23 14".
Proof. reflexivity. Qed.

Example format_datetime_short : format_datetime "20241" = "2024/1/ ".
Proof. reflexivity. Qed.

Example format_datetime_empty : format_datetime "" = "// ".
Proof. reflexivity. Qed.

Example format_datetime_not_digits : format_datetime "abcdefghijkl" = "abcd/ef/gh ij".
Proof. reflexivity. Qed.

(** A ten-character name is cut into year, month, day and hour. *)
Lemma format_datetime_bucket_id (y m d h : string) :
  String.length y = 4 -> String.length m = 2 ->
  String.length d = 2 -> String.length h = 2 ->
  format_datetime (y +:+ m +:+ d +:+ h) = y +:+ "/" +:+ m +:+ "/" +:+ d +:+ " " +:+ h.
Proof.
  intros Hy Hm Hd Hh. apply chars_inj. rewrite format_datetime_chars.
  rewrite <- !chars_length in *.
  rewrite !chars_app.
  change (chars "/") with ["/"%char]. change (chars " ") with [" "%char].
  set (cy := chars y) in *. set (cm := chars m) in *.
  set (cd := chars d) in *. set (ch := chars h) in *.
  assert (Hskip : forall (a b : list ascii) n, length a = n -> skipn n (a ++ b) = b).
  { intros a b n <-. rewrite skipn_app, skipn_all, Nat.sub_diag. reflexivity. }
  assert (Htake : forall (a b : list ascii) n, length a = n -> firstn n (a ++ b) = a).
  { intros a b n <-. rewrite firstn_app, firstn_all, Nat.sub_diag, firstn_O.
    apply app_nil_r. }
  assert (E4 : skipn 4 (cy ++ cm ++ cd ++ ch) = cm ++ cd ++ ch) by now apply Hskip.
  assert (E6 : skipn 6 (cy ++ cm ++ cd ++ ch) = cd ++ ch).
  { rewrite <- (List.skipn_skipn 2 4), E4. now apply Hskip. }
  assert (E8 : skipn 8 (cy ++ cm ++ cd ++ ch) = ch).
  { rewrite <- (List.skipn_skipn 2 6), E6. now apply Hskip. }
  rewrite E4, E6, E8, !Htake by assumption.
  rewrite firstn_all2 by lia.
  simpl. now rewrite <- ?app_assoc.
Qed.

(** A ten-character name can be cut that way. *)
Lemma bucket_id_pieces (folder : string) :
  String.length folder = 10 ->
  exists y m d h,
    folder = y +:+ m +:+ d +:+ h
    /\ String.length y = 4 /\ String.length m = 2
    /\ String.length d = 2 /\ String.length h = 2.
Proof.
  intros Hlen.
  exists (slice 0 4 folder), (slice 4 6 folder), (slice 6 8 folder), (slice 8 10 folder).
  rewrite !slice_length, Hlen. repeat split; try reflexivity.
  rewrite fields_cover_prefix. apply chars_inj.
  rewrite slice_chars.
  rewrite firstn_all2 by (rewrite List.length_skipn, chars_length; lia).
  reflexivity.
Qed.

End FormatDatetime.

(** ** get_hour_folders *)
Module GetHourFolders.
Import Py Spark Driver Inputs StringFacts.

Lemma isdigit_chars (d : string) :
  isdigit d = true <-> d <> "" /\ forall c, In c (chars d) -> char_isdigit c = true.
Proof.
  destruct d as [|c d].
  - split; [discriminate|]. now intros [H _].
  - unfold isdigit. rewrite forallb_forall. split.
    + intros H. split; [discriminate|exact H].
    + now intros [_ H].
Qed.

(** The digits of [str.isdigit]: the ASCII ones and three superscripts. *)
Lemma char_isdigit_cases (c : ascii) :
  char_isdigit c = true
  <-> is_ascii_digit c = true \/ In (nat_of_ascii c) [178; 179; 185].
Proof.
  unfold char_isdigit. rewrite !orb_true_iff, !Nat.eqb_eq. simpl. intuition congruence.
Qed.

(** C5, as stated, fails: the scanner does not return exactly the entries
    made of ten decimal digits.  A name of ten superscript twos passes
    [len(d) == 10 and d.isdigit()] and is returned. *)
Lemma get_hour_folders_keeps_superscripts :
  ~ (forall (w : World) (base : string) (entries : list string),
       os_listdir w base = Return entries ->
       exists l, get_hour_folders w base = Return l /\
         forall d, In d l <->
           In d entries /\ String.length d = 10 /\ all_ascii_digits d = true).
Proof.
  intros H.
  destruct (H superscript_world "./logs" [superscript_twos] eq_refl) as (l & Hl & Hiff).
  vm_compute in Hl. injection Hl as <-.
  destruct (proj1 (Hiff superscript_twos)) as (_ & _ & Hd).
  - now left.
  - vm_compute in Hd. discriminate.
Qed.

(** C5, amended.  When the root can be listed, the scanner returns, without
    error, exactly the entries (in listing order) that are ten characters
    long and whose characters all pass [str.isdigit]: the ASCII digits and
    the other digit characters, such as superscripts.  Every other entry is
    left out silently; with no entry left the result is the empty list.
    When the root cannot be listed the error is the scanner's. *)
Theorem get_hour_folders_filter (w : World) (base : string) :
  match os_listdir w base with
  | Raise e => get_hour_folders w base = Raise e
  | Return entries =>
      exists l, get_hour_folders w base = Return l
        /\ l = List.filter (fun d => (String.length d =? 10) && isdigit d) entries
        /\ (forall d, In d l <->
              In d entries /\ String.length d = 10
              /\ forall c, In c (chars d) ->
                   is_ascii_digit c = true \/ In (nat_of_ascii c) [178; 179; 185])
        /\ ((forall d, In d entries -> String.length d = 10 -> isdigit d = false)
            -> l = [])
  end.
Proof.
  unfold get_hour_folders. destruct (os_listdir w base) as [entries|e]; [|reflexivity].
  eexists. split; [reflexivity|]. split; [reflexivity|]. split.
  - intros d. rewrite filter_In, andb_true_iff, Nat.eqb_eq, isdigit_chars.
    split.
    + intros (Hin & Hlen & _ & Hc). repeat split; auto.
      intros c Hc'. now apply char_isdigit_cases, Hc.
    + intros (Hin & Hlen & Hc). repeat split; auto.
      * intros ->. discriminate.
      * intros c Hc'. now apply char_isdigit_cases, Hc.
  - intros Hnone. induction entries as [|d entries IH]; [reflexivity|].
    simpl. destruct (String.length d =? 10) eqn:Hlen.
    + apply Nat.eqb_eq in Hlen. rewrite (Hnone d) by (auto; now left). simpl.
      apply IH. intros d' Hd'. apply Hnone. now right.
    + simpl. apply IH. intros d' Hd'. apply Hnone. now right.
Qed.

Example get_hour_folders_example :
  get_hour_folders mixed_root_world "./logs" = Return ["2024112314"; "2024112315"].
Proof. reflexivity. Qed.

(** What the scanner returns are names of ten digits of [str.isdigit]. *)
Lemma get_hour_folders_digits (w : World) (base : string) (folders : list string) :
  get_hour_folders w base = Return folders ->
  Forall (fun folder => String.length folder = 10 /\ isdigit folder = true) folders.
Proof.
  unfold get_hour_folders. destruct (os_listdir w base); [|discriminate].
  intros [= <-]. apply List.Forall_forall. intros d Hd.
  apply filter_In in Hd as [_ Hd]. apply andb_true_iff in Hd as [Hlen Hd].
  now apply Nat.eqb_eq in Hlen.
Qed.

End GetHourFolders.

(** ** The [.2f] format *)
Module Format2f.
Import Py Notions StringFacts.

Lemma digit_char_is_digit (n : N) : is_ascii_digit (digit_char n) = true.
Proof.
  unfold digit_char.
  assert (H : (n mod 10 < 10)%N) by (apply N.mod_lt; discriminate).
  generalize dependent (n mod 10)%N. intros k Hk.
  assert (Hin : In k [0; 1; 2; 3; 4; 5; 6; 7; 8; 9]%N) by (simpl; lia).
  simpl in Hin. intuition (subst k; reflexivity).
Qed.

Lemma string_of_uint_digits (d : Decimal.uint) :
  all_ascii_digits (NilEmpty.string_of_uint d) = true.
Proof. induction d; simpl; auto. Qed.

Lemma string_of_N_digits (n : N) :
  string_of_N n <> "" /\ all_ascii_digits (string_of_N n) = true.
Proof.
  unfold string_of_N, NilZero.string_of_uint.
  destruct (N.to_uint n) eqn:E; split; try discriminate; try reflexivity;
    rewrite <- E at 1; apply string_of_uint_digits.
Qed.

Lemma fixed2_form (neg : bool) (c : N) : two_decimal_form (sign_str neg +:+ fixed2 c).
Proof.
  exists neg, (string_of_N (c / 100)), (digit_char (c / 10)), (digit_char c).
  destruct (string_of_N_digits (c / 100)) as [Hne Hd].
  repeat split; auto using digit_char_is_digit.
Qed.

(** A finite float is printed with a sign (when negative), at least one
    digit, a decimal point and exactly two digits. *)
Lemma format_2f_finite (x : float) :
  is_finite x = true -> two_decimal_form (format_2f x).
Proof.
  unfold is_finite, format_2f. destruct (Prim2SF x) as [s|s| |s m e]; try discriminate.
  - intros _. exists s, "0", "0"%char, "0"%char. now repeat split.
  - intros _. apply fixed2_form.
Qed.

(** In that shape the third character from the end is the point. *)
Lemma two_decimal_form_point (s : string) :
  two_decimal_form s -> nth_error (rev (chars s)) 2 = Some "."%char.
Proof.
  intros (neg & ip & d1 & d2 & -> & _).
  rewrite !chars_app, !rev_app_distr. reflexivity.
Qed.

(** An infinite or undefined float is printed without any digit. *)
Lemma format_2f_not_finite (x : float) :
  is_finite x = false -> ~ two_decimal_form (format_2f x).
Proof.
  unfold is_finite, format_2f. intros Hx Hf. apply two_decimal_form_point in Hf.
  destruct (Prim2SF x) as [s|[]| |s m e]; discriminate.
Qed.

(** It is printed as [inf], [-inf] or [nan]. *)
Lemma format_2f_not_finite_cases (x : float) :
  is_finite x = false -> In (format_2f x) ["inf"; "-inf"; "nan"].
Proof.
  unfold is_finite, format_2f.
  destruct (Prim2SF x) as [s|[]| |s m e]; try discriminate; intros _; simpl; auto.
Qed.

Example format_2f_sum : format_2f 15%float = "15.00".
Proof. vm_compute. reflexivity. Qed.

Example format_2f_tie_to_even : format_2f 0.125%float = "0.12".
Proof. vm_compute. reflexivity. Qed.

Example format_2f_negative_zero : format_2f (-0.0009765625)%float = "-0.00".
Proof. vm_compute. reflexivity. Qed.

Example format_2f_infinity : format_2f infinity = "inf".
Proof. vm_compute. reflexivity. Qed.

End Format2f.

(** ** The totals of an hour (lines 84-95) *)
Module Merge.
Import Py Spark Driver Notions Inputs Effects.

Section Generic.
Context {V : Type} (add : V -> V -> V) (zero : V).

Abbreviation totals := (dict (option string) V).

Lemma dict_get_set (k k' : option string) (v : V) (d : totals) :
  dict_get k' (dict_set k v d) = if decide (k' = k) then Some v else dict_get k' d.
Proof.
  induction d as [|[k0 v0] d IH]; simpl.
  - now destruct (decide (k' = k)).
  - destruct (decide (k = k0)) as [->|Hne]; simpl.
    + now destruct (decide (k' = k0)).
    + destruct (decide (k' = k0)) as [->|Hne'].
      * rewrite decide_False by congruence. reflexivity.
      * exact IH.
Qed.

Lemma dict_set_keys (k : option string) (v : V) (d : totals) :
  dict_keys (dict_set k v d)
  = if decide (k ∈ dict_keys d) then dict_keys d else dict_keys d ++ [k].
Proof.
  induction d as [|[k0 v0] d IH]; simpl; [reflexivity|].
  destruct (decide (k = k0)) as [->|Hne]; simpl.
  - rewrite decide_True by now left. reflexivity.
  - rewrite IH. destruct (decide (k ∈ dict_keys d)) as [Hin|Hnin].
    + rewrite decide_True by now right. reflexivity.
    + rewrite decide_False by (intros [?|?]%elem_of_cons; congruence). reflexivity.
Qed.

Lemma dict_set_nodup (k : option string) (v : V) (d : totals) :
  NoDup (dict_keys d) -> NoDup (dict_keys (dict_set k v d)).
Proof.
  intros Hd. rewrite dict_set_keys. destruct (decide (k ∈ dict_keys d)); [exact Hd|].
  apply NoDup_app. repeat split; [exact Hd| |apply NoDup_singleton].
  intros x Hx ->%list_elem_of_singleton. contradiction.
Qed.

Lemma add_row_get (d : totals) (p : option string) (a : V) :
  exists d', add_row add zero d (mkRow p (Some a)) = Return d'
    /\ (forall q, dict_get q d'
         = if decide (q = p) then Some (add (default zero (dict_get p d)) a)
           else dict_get q d)
    /\ (NoDup (dict_keys d) -> NoDup (dict_keys d')).
Proof.
  unfold add_row. simpl. destruct (dict_get p d) as [t|] eqn:Hp.
  - rewrite Hp. eexists. split; [reflexivity|]. split.
    + intros q. apply dict_get_set.
    + apply dict_set_nodup.
  - rewrite dict_get_set, decide_True by reflexivity. eexists. split; [reflexivity|].
    split.
    + intros q. rewrite !dict_get_set. destruct (decide (q = p)) as [->|]; [|reflexivity].
      reflexivity.
    + intros Hd. now apply dict_set_nodup, dict_set_nodup.
Qed.

Lemma add_rows_get (rows : list (Row V)) :
  forall d, Forall has_amount rows ->
  exists d', add_rows add zero d rows = Return d'
    /\ (forall q, dict_get q d' = total_after add zero (dict_get q d) (amounts_of q rows))
    /\ (NoDup (dict_keys d) -> NoDup (dict_keys d')).
Proof.
  induction rows as [|[p [a|]] rows IH]; intros d Hrows.
  - exists d. now repeat split.
  - inversion Hrows as [|? ? _ Hrest]; subst.
    destruct (add_row_get d p a) as (d1 & H1 & Hget1 & Hnd1).
    destruct (IH d1 Hrest) as (d' & H' & Hget' & Hnd').
    exists d'. simpl. rewrite H1. split; [exact H'|]. split; [|auto].
    intros q. rewrite Hget', Hget1. unfold amounts_of. simpl.
    destruct (decide (p = q)) as [->|Hne].
    + rewrite decide_True by reflexivity. simpl.
      now destruct (omap _ rows).
    + rewrite decide_False by congruence. reflexivity.
  - inversion Hrows as [|? ? Hbad _]; subst. now elim Hbad.
Qed.

Lemma amounts_of_app (p : option string) (a b : list (Row V)) :
  amounts_of p (a ++ b) = amounts_of p a ++ amounts_of p b.
Proof. apply omap_app. Qed.

Lemma amounts_of_nonempty (p : option string) (rows : list (Row V)) :
  Forall has_amount rows ->
  amounts_of p rows <> [] <-> exists r, In r rows /\ product_name r = p.
Proof.
  induction rows as [|[q [a|]] rows IH]; intros Hrows.
  - split; [easy|]. now intros (r & [] & _).
  - inversion Hrows as [|? ? _ Hrest]; subst. unfold amounts_of. simpl.
    destruct (decide (q = p)) as [->|Hne]; simpl.
    + split; [|discriminate]. intros _. eexists. split; [now left|reflexivity].
    + fold (amounts_of p rows). rewrite (IH Hrest). split.
      * intros (r & Hr & Hp). exists r. split; [now right|exact Hp].
      * intros (r & [<-|Hr] & Hp); [now elim Hne|]. now exists r.
  - inversion Hrows as [|? ? Hbad _]; subst. now elim Hbad.
Qed.

End Generic.

Lemma add_rows_app (hr : hour_dict) (a b : list (Row float)) :
  add_rows PrimFloat.add 0%float hr (a ++ b)
  = match add_rows PrimFloat.add 0%float hr a with
    | Return hr' => add_rows PrimFloat.add 0%float hr' b
    | Raise e => Raise e
    end.
Proof.
  revert hr; induction a as [|r a IH]; intros hr; simpl; [reflexivity|].
  destruct (add_row _ _ hr r); [apply IH|reflexivity].
Qed.

(** The loop over the log files adds up the rows of the files that Spark
    could read, file after file. *)
Lemma for_log_files_adds_rows (w : World) (paths : list string) :
  collect_never_fails w paths ->
  forall hr st,
    snd (for_log_files w paths hr st)
    = add_rows PrimFloat.add 0%float hr (flat_map (rows_of w) paths).
Proof.
  induction paths as [|path paths IH]; intros Hc hr st; [reflexivity|].
  assert (Hc' : collect_never_fails w paths)
    by (intros p df Hin; apply Hc; now right).
  simpl. rewrite add_rows_app. unfold process_log_file, rows_of.
  destruct (log_totals (spark w) path) as [df|e] eqn:Hq; simpl.
  - destruct (Hc path df (or_introl eq_refl) Hq) as [rows Hrows]. rewrite Hrows.
    destruct (add_rows _ _ hr rows); [now apply IH|reflexivity].
  - now apply IH.
Qed.

(** Float addition: adding to [0.0] changes nothing but the sign of a
    negative zero. *)
Lemma float_zero_add (a : float) :
  Prim2SF a <> S754_zero true -> PrimFloat.add 0%float a = a.
Proof.
  intros Ha. apply Prim2SF_inj. rewrite add_spec.
  change (Prim2SF 0%float) with (S754_zero false).
  unfold SF64add, SFadd. destruct (Prim2SF a) as [[]|s| |s m e]; try reflexivity.
  now elim Ha.
Qed.

(** Float addition is commutative. *)
Lemma float_add_comm (a b : float) : PrimFloat.add a b = PrimFloat.add b a.
Proof.
  apply Prim2SF_inj. rewrite !add_spec. unfold SF64add, SFadd.
  destruct (Prim2SF a) as [[]|[]| |sa ma ea], (Prim2SF b) as [[]|[]| |sb mb eb];
    try reflexivity.
  now rewrite Z.min_comm, Z.add_comm.
Qed.

(** Adding a negative zero changes nothing. *)
Lemma float_add_negative_zero (x a : float) :
  Prim2SF a = S754_zero true -> PrimFloat.add x a = x.
Proof.
  intros Ha. apply Prim2SF_inj. rewrite add_spec, Ha. unfold SF64add, SFadd.
  now destruct (Prim2SF x) as [[]|[]| |s m e].
Qed.

Lemma float_is_negative_zero (a : float) :
  {Prim2SF a = S754_zero true} + {Prim2SF a <> S754_zero true}.
Proof.
  destruct (Prim2SF a) as [[]|s| |s m e]; (now left) || (now right).
Qed.

(** Two amounts add up to the same total from [0.0] in either order. *)
Lemma two_amounts_either_order (a b : float) :
  PrimFloat.add (PrimFloat.add 0%float a) b = PrimFloat.add (PrimFloat.add 0%float b) a.
Proof.
  destruct (float_is_negative_zero a) as [Ha|Ha].
  - now rewrite (float_add_negative_zero 0%float a Ha),
      (float_add_negative_zero (PrimFloat.add 0%float b) a Ha).
  - destruct (float_is_negative_zero b) as [Hb|Hb].
    + now rewrite (float_add_negative_zero (PrimFloat.add 0%float a) b Hb),
        (float_add_negative_zero 0%float b Hb).
    + rewrite (float_zero_add a Ha), (float_zero_add b Hb). apply float_add_comm.
Qed.

(** C3.  The totals of an hour, as the loop over its log files leaves
    them, when every query that Spark builds for one of the files runs
    and gives rows that all hold an amount.  The loop returns totals; a
    product is a key of them, once, exactly when a row of some file names
    it (the union of the keys), and its total is the sum, from [0.0] and
    in processing order, of the amounts that the rows of the files hold
    for it.  Processing the files in another order returns totals too,
    with the same keys, and adds up for each product the same amounts in
    another order.  A product with one amount or with two has the same
    total in either order; a single amount is kept as it is, unless it is
    a negative zero. *)
Theorem merge_sums_shared_keys_and_unions (w : World) (paths paths' : list string)
    (st st' : state) :
  rows_have_amounts w paths ->
  Permutation paths paths' ->
  exists d d',
    snd (for_log_files w paths [] st) = Return d
    /\ snd (for_log_files w paths' [] st') = Return d'
    /\ NoDup (dict_keys d)
    /\ (forall p, dict_get p d
          = match amounts_of p (flat_map (rows_of w) paths) with
            | [] => None
            | l => Some (fold_left PrimFloat.add l 0%float)
            end)
    /\ (forall p, is_Some (dict_get p d)
          <-> exists path r, In path paths /\ In r (rows_of w path) /\ product_name r = p)
    /\ (forall p, dict_get p d'
          = match amounts_of p (flat_map (rows_of w) paths') with
            | [] => None
            | l => Some (fold_left PrimFloat.add l 0%float)
            end)
    /\ (forall p, is_Some (dict_get p d) <-> is_Some (dict_get p d'))
    /\ (forall p, Permutation (amounts_of p (flat_map (rows_of w) paths))
                              (amounts_of p (flat_map (rows_of w) paths')))
    /\ (forall p a, amounts_of p (flat_map (rows_of w) paths) = [a] ->
          dict_get p d = Some (PrimFloat.add 0%float a)
          /\ dict_get p d' = dict_get p d
          /\ (Prim2SF a <> S754_zero true -> dict_get p d = Some a))
    /\ (forall p a b, amounts_of p (flat_map (rows_of w) paths) = [a; b] ->
          dict_get p d = Some (PrimFloat.add (PrimFloat.add 0%float a) b)
          /\ dict_get p d' = dict_get p d).
Proof.
  intros Hrows Hperm.
  assert (Hrows' : rows_have_amounts w paths').
  { intros path df Hin. apply Hrows. now apply (Permutation_in _ (Permutation_sym Hperm)). }
  assert (Hloop : forall ps s, rows_have_amounts w ps ->
    exists d, snd (for_log_files w ps [] s) = Return d
      /\ NoDup (dict_keys d)
      /\ (forall p, dict_get p d
            = match amounts_of p (flat_map (rows_of w) ps) with
              | [] => None
              | l => Some (fold_left PrimFloat.add l 0%float)
              end)
      /\ Forall has_amount (flat_map (rows_of w) ps)).
  { intros ps s Hps.
    assert (Hc : collect_never_fails w ps).
    { intros path df Hin Hq. destruct (Hps path df Hin Hq) as (rows & Hr & _). now exists rows. }
    assert (Hall : Forall has_amount (flat_map (rows_of w) ps)).
    { apply List.Forall_forall. intros r Hr.
      apply in_flat_map in Hr as (path & Hin & Hr). unfold rows_of in Hr.
      destruct (log_totals (spark w) path) as [df|e] eqn:Hq; [|easy].
      destruct (Hps path df Hin Hq) as (rows & Hcol & Hamounts). rewrite Hcol in Hr.
      rewrite List.Forall_forall in Hamounts. now apply Hamounts. }
    destruct (add_rows_get PrimFloat.add 0%float _ [] Hall) as (d & Hd & Hget & Hnd).
    exists d. rewrite (for_log_files_adds_rows w ps Hc). split; [exact Hd|].
    split; [apply Hnd, NoDup_nil_2|]. split; [|exact Hall].
    intros p. rewrite Hget. unfold total_after.
    now destruct (amounts_of p (flat_map (rows_of w) ps)). }
  destruct (Hloop paths st Hrows) as (d & Hd & Hnd & Hget & Hall).
  destruct (Hloop paths' st' Hrows') as (d' & Hd' & _ & Hget' & _).
  assert (Hperm_p : forall p, Permutation (amounts_of p (flat_map (rows_of w) paths))
                                          (amounts_of p (flat_map (rows_of w) paths'))).
  { intros p. unfold amounts_of. apply omap_Permutation.
    now apply Permutation_flat_map. }
  exists d, d'. split; [exact Hd|]. split; [exact Hd'|]. split; [exact Hnd|].
  split; [exact Hget|]. split; [|split; [exact Hget'|split; [|split; [exact Hperm_p|split]]]].
  - intros p. rewrite Hget.
    transitivity (amounts_of p (flat_map (rows_of w) paths) <> []).
    { destruct (amounts_of p _); split; intros H; try easy. now destruct H. }
    rewrite (amounts_of_nonempty p _ Hall). split.
    + intros (r & Hr & Hp). apply in_flat_map in Hr as (path & Hin & Hr). now exists path, r.
    + intros (path & r & Hin & Hr & Hp). exists r. split; [|exact Hp].
      apply in_flat_map. now exists path.
  - intros p. rewrite Hget, Hget'. specialize (Hperm_p p).
    destruct (amounts_of p (flat_map (rows_of w) paths)) as [|a l].
    + apply Permutation_nil in Hperm_p. rewrite Hperm_p. reflexivity.
    + destruct (amounts_of p (flat_map (rows_of w) paths')) as [|a' l'].
      * apply Permutation_sym, Permutation_nil in Hperm_p. discriminate.
      * split; intros _; eauto.
  - intros p a Ha. rewrite Hget, Hget'. specialize (Hperm_p p). rewrite Ha in *.
    apply Permutation_length_1_inv in Hperm_p. rewrite Hperm_p. simpl.
    split; [reflexivity|]. split; [reflexivity|]. intros Hnz. now rewrite float_zero_add.
  - intros p a b Hab. rewrite Hget, Hget'. specialize (Hperm_p p). rewrite Hab in *.
    split; [reflexivity|].
    apply Permutation_length_2_inv in Hperm_p as [->| ->]; [reflexivity|].
    simpl. f_equal. apply two_amounts_either_order.
Qed.

(** The theorem on two files, the second one first. *)
Lemma merge_sums_shared_keys_and_unions_witness :
  exists d d' : hour_dict,
    snd (for_log_files two_files_world [file_a; file_b] [] fresh_state) = Return d
    /\ snd (for_log_files two_files_world [file_b; file_a] [] fresh_state) = Return d'
    /\ dict_get (Some "Widget") d = Some 15%float
    /\ dict_get (Some "Widget") d' = Some 15%float
    /\ dict_get (Some "Gadget") d = Some 7.25%float
    /\ dict_get (Some "Gadget") d' = Some 7.25%float
    /\ dict_keys d = [Some "Widget"; Some "Gadget"].
Proof.
  destruct (merge_sums_shared_keys_and_unions two_files_world
              [file_a; file_b] [file_b; file_a] fresh_state fresh_state)
    as (d & d' & Hd & Hd' & _ & _ & _ & _ & _ & _ & Hone & Htwo).
  - intros path df [<-|[<-|[]]] Hq; vm_compute in Hq; injection Hq as <-;
      (eexists; split; [reflexivity|repeat constructor; discriminate]).
  - apply perm_swap.
  - destruct (Htwo (Some "Widget") 10.5%float 4.5%float eq_refl) as [Hw Hw'].
    destruct (Hone (Some "Gadget") 7.25%float eq_refl) as (_ & Hg' & Hg).
    rewrite Hg in Hg' by (vm_compute; discriminate).
    exists d, d'. split; [exact Hd|]. split; [exact Hd'|].
    rewrite Hw', Hw, Hg', Hg by (vm_compute; discriminate). repeat split.
    vm_compute in Hd. now injection Hd as <-.
Defined.

(** The claim of C3 fails on the code.  Three files hold widgets for two
    to the power 53, for as much back, and for 1: processed in this order
    the total of the hour is 1, with the last two files exchanged it is
    0.  And a file with a row without amount has no merged totals at all:
    the loop raises. *)
Lemma merge_depends_on_file_order :
  snd (for_log_files cancelling_world [file_a; file_b; file_c] [] fresh_state)
    = Return [(Some "Widget", 1%float)]
  /\ snd (for_log_files cancelling_world [file_a; file_c; file_b] [] fresh_state)
     = Return [(Some "Widget", 0%float)]
  /\ snd (for_log_files null_amount_world [file_a] [] fresh_state) = Raise none_amount.
Proof. vm_compute. repeat split. Qed.

End Merge.

(** ** What the steps of [main] leave alone *)
Module Frame.
Import Py Spark Driver Notions StringFacts.

Lemma same_output_refl (a : state) : same_output a a.
Proof. now repeat split. Qed.

Lemma same_output_trans (a b c : state) :
  same_output a b -> same_output b c -> same_output a c.
Proof. intros (?&?&?) (?&?&?). repeat split; congruence. Qed.

Lemma print_same_output (msg : string) (st : state) : same_output (print msg st) st.
Proof. now repeat split. Qed.

Lemma process_log_file_same_output (s : Session) (path : string) (st : state) :
  same_output (fst (process_log_file s path st)) st.
Proof.
  unfold process_log_file. destruct (log_totals s path); simpl.
  - apply same_output_refl.
  - apply print_same_output.
Qed.

(** The loop over the log files of an hour only prints. *)
Lemma for_log_files_same_output (w : World) (log_files : list string) :
  forall hour_results st,
    same_output (fst (for_log_files w log_files hour_results st)) st.
Proof.
  induction log_files as [|path rest IH]; intros hr st; simpl.
  - apply same_output_refl.
  - pose proof (process_log_file_same_output (spark w) path st) as Hp.
    destruct (process_log_file (spark w) path st) as [st1 [df|]]; simpl in Hp.
    + destruct (collect df) as [rows|e]; simpl; [|exact Hp].
      destruct (add_rows _ _ hr rows) as [hr'|e]; simpl; [|exact Hp].
      eapply same_output_trans; [apply IH|exact Hp].
    + eapply same_output_trans; [apply IH|exact Hp].
Qed.

Lemma open_append_dirs (path text : string) (st st1 : state) :
  open_append path text st = Return st1 ->
  dirs st1 = dirs st /\ spark_running st1 = spark_running st /\ stdout st1 = stdout st
  /\ files st1 = <[path := default "" (files st !! path) +:+ text]> (files st).
Proof.
  unfold open_append. repeat case_decide; intros [= <-]; simpl.
  now repeat split.
Qed.

Lemma write_results_dirs (folder : string) (hr : hour_dict) (st : state) :
  dirs (fst (write_results folder hr st)) = dirs st
  /\ spark_running (fst (write_results folder hr st)) = spark_running st.
Proof.
  unfold write_results. destruct (dict_truthy hr); [|now split].
  destruct (open_append _ _ st) as [st1|e] eqn:Ho; [|now split].
  apply open_append_dirs in Ho as (Hd & Hs & _). simpl. now split.
Qed.

Lemma process_folder_dirs (w : World) (folder : string) (st : state) :
  dirs (fst (process_folder w folder st)) = dirs st
  /\ spark_running (fst (process_folder w folder st)) = spark_running st.
Proof.
  unfold process_folder.
  pose proof (for_log_files_same_output w (log_files_of w folder) [] st) as Hf.
  fold (log_files_of w folder).
  destruct (for_log_files w _ [] st) as [st1 [hr|e]]; simpl in Hf;
    destruct Hf as (Hd & _ & Hs).
  - destruct (write_results_dirs folder hr st1) as [Hd' Hs']. split; congruence.
  - simpl. now split.
Qed.

Lemma for_hour_folders_dirs (w : World) (folders : list string) :
  forall st, dirs (fst (for_hour_folders w folders st)) = dirs st
             /\ spark_running (fst (for_hour_folders w folders st)) = spark_running st.
Proof.
  induction folders as [|folder rest IH]; intros st; simpl; [now split|].
  pose proof (process_folder_dirs w folder st) as Hp.
  destruct (process_folder w folder st) as [st1 [[]|e]]; simpl in Hp.
  - destruct (IH st1) as [Hd Hs]. destruct Hp. split; congruence.
  - exact Hp.
Qed.

(** The directory of an output file is the output directory. *)
Lemma split_last_slash_app (a n : string) :
  split_last_slash n = None ->
  split_last_slash (a +:+ String "/" n) = Some (a, n).
Proof.
  intros Hn. induction a as [|c a IH].
  - rewrite app_nil_l. simpl. now rewrite Hn.
  - rewrite app_cons. simpl. now rewrite IH.
Qed.

Lemma split_last_slash_none (s : string) :
  (forall c, In c (chars s) -> c <> "/"%char) -> split_last_slash s = None.
Proof.
  induction s as [|c s IH]; intros H; [reflexivity|]. simpl.
  rewrite IH by (intros c' Hc'; apply H; rewrite chars_cons; now right).
  destruct (Ascii.eqb_spec c "/") as [->|]; [|reflexivity].
  exfalso. apply (H "/"%char); [rewrite chars_cons; now left|reflexivity].
Qed.

Lemma digit_not_slash (c : ascii) : char_isdigit c = true -> c <> "/"%char.
Proof. intros H ->. discriminate. Qed.

Lemma output_file_path (folder : string) :
  isdigit folder = true ->
  output_file folder = "./output/" +:+ folder +:+ ".txt"
  /\ parent_dir (output_file folder) = output_path.
Proof.
  intros Hd. apply GetHourFolders.isdigit_chars in Hd as [Hne Hc].
  assert (Hjoin : output_file folder = "./output/" +:+ folder +:+ ".txt").
  { unfold output_file, os_path_join. destruct folder as [|c folder]; [easy|].
    rewrite app_cons. unfold starts_with_slash.
    destruct (Ascii.eqb_spec c "/") as [->|Hc'].
    - exfalso. eapply digit_not_slash; [apply Hc; rewrite chars_cons; now left|reflexivity].
    - destruct c as [[] [] [] [] [] [] [] []]; try reflexivity. now elim Hc'. }
  split; [exact Hjoin|].
  rewrite Hjoin. unfold parent_dir.
  change ("./output/" +:+ folder +:+ ".txt")
    with ("./output" +:+ String "/" (folder +:+ ".txt")).
  rewrite split_last_slash_app; [reflexivity|].
  apply split_last_slash_none. intros c. rewrite chars_app, in_app_iff.
  intros [Hin|Hin].
  - now apply digit_not_slash, Hc.
  - simpl in Hin. intuition (subst; discriminate).
Qed.


(** [os.makedirs] with [exist_ok]: afterwards the directory is there, and
    nothing else has changed. *)
Lemma os_makedirs_ok (path : string) (st st1 : state) :
  os_makedirs path st = Return st1 ->
  path ∈ dirs st1 /\ dirs st1 = {[path]} ∪ dirs st /\ files st1 = files st
  /\ stdout st1 = stdout st /\ spark_running st1 = spark_running st.
Proof.
  unfold os_makedirs.
  destruct (decide (path ∈ dirs st)) as [Hin|Hnin];
    [|destruct (decide (is_Some (files st !! path)))]; intros Heq;
    try discriminate; injection Heq as <-; simpl.
  - repeat split; [assumption|].
    symmetry. now apply subseteq_union_1_L, singleton_subseteq_l.
  - repeat split. apply elem_of_union_l, elem_of_singleton. reflexivity.
Qed.

(** With the output directory there, the write of an hour can only fail
    because the file to open is itself a directory. *)
Lemma write_results_raise (folder : string) (hr : hour_dict) (st : state) (e : exn) :
  output_path ∈ dirs st -> isdigit folder = true ->
  snd (write_results folder hr st) = Raise e ->
  e = is_a_directory_error (output_file folder).
Proof.
  intros Hin Hd. destruct (output_file_path folder Hd) as [_ Hp].
  unfold write_results. destruct (dict_truthy hr); [|discriminate].
  unfold open_append. rewrite Hp.
  case_decide; [simpl; congruence|].
  rewrite decide_True by exact Hin. discriminate.
Qed.

(** The write of an hour goes after what the file already holds. *)
Lemma write_results_appends (folder : string) (hr : hour_dict) (st st' : state) :
  dict_truthy hr = true ->
  write_results folder hr st = (st', Return tt) ->
  files st' !! output_file folder
  = Some (default "" (files st !! output_file folder)
          +:+ output_text (format_datetime folder) hr).
Proof.
  unfold write_results. intros ->.
  destruct (open_append _ _ st) as [st1|e] eqn:Ho; [|discriminate].
  intros [= <-]. apply open_append_dirs in Ho as (_ & _ & _ & Hf).
  simpl. rewrite Hf. apply lookup_insert_eq.
Qed.

(** Without totals nothing is written. *)
Lemma write_results_empty (folder : string) (st : state) :
  write_results folder [] st = (st, Return tt).
Proof. reflexivity. Qed.

End Frame.

(** ** The totals of a file (process_log_file) *)
Module FileTotals.
Import Py Spark Driver Notions Inputs StringFacts.

Section Query.
Context (cast_float : string -> option float) (engine : Engine).

(** A line that Spark skips has no pipe in it, and is no record. *)
Lemma blank_line_fields (l : string) : nonblank l = false -> csv_fields l = [l].
Proof.
  unfold nonblank, csv_fields. induction l as [|c l IH]; [reflexivity|].
  rewrite chars_cons. simpl. intros H. apply orb_false_iff in H as [Hc Hl].
  destruct (Ascii.eqb_spec c "|") as [->|_]; [discriminate|].
  now rewrite (IH Hl).
Qed.

(** A record of the specification has four fields and is not blank. *)
Lemma spec_parse_line_fields (l : string) (p : string) (x : float) :
  spec_parse_line cast_float l = Some (p, x) ->
  length (csv_fields l) = 4 /\ nonblank l = true /\ csv_column 2 l = null_if_empty p.
Proof.
  unfold spec_parse_line, csv_column. intros H.
  destruct (nonblank l) eqn:Hnb;
    [|rewrite (blank_line_fields l Hnb) in H; discriminate].
  destruct (csv_fields l) as [|f0 [|f1 [|f2 [|f3 [|f4 fs]]]]]; try discriminate.
  destruct (cast_float f3); [|discriminate]. injection H as <- _. now repeat split.
Qed.

(** A column is null or holds a character. *)
Lemma csv_column_not_empty (i : nat) (l : string) : csv_column i l <> Some "".
Proof.
  unfold csv_column. destruct (nth_error _ _) as [f|]; [|discriminate].
  unfold null_if_empty. destruct (String.eqb_spec f "") as [->|Hf]; [discriminate|].
  now intros [= ->].
Qed.

(** On a line of at most four fields, the query sees a price exactly when
    the line is a record of the specification, and then for the product
    of the record (the null product when its name is empty). *)
Lemma record_of_spec (line : string) :
  cast_float "" = None -> length (csv_fields line) <= 4 ->
  record_of cast_float line
  = match spec_parse_line cast_float line with
    | Some (p, x) => (null_if_empty p, Some x)
    | None => (csv_column 2 line, None)
    end.
Proof.
  intros Hempty Hlen. unfold record_of, spec_parse_line, csv_column.
  destruct (csv_fields line) as [|f0 [|f1 [|f2 [|f3 [|f4 fs]]]]]; simpl in *;
    try reflexivity; [|lia].
  unfold null_if_empty at 2. destruct (String.eqb_spec f3 "") as [->|_].
  - now rewrite Hempty.
  - now destruct (cast_float f3).
Qed.

Lemma null_if_empty_default (p : string) (q : option string) :
  q <> Some "" -> (null_if_empty p = q <-> p = default "" q).
Proof.
  intros Hq. unfold null_if_empty. destruct (String.eqb_spec p "") as [->|Hp].
  - destruct q as [p'|]; simpl; [|easy]. split; [discriminate|]. intros <-. now elim Hq.
  - destruct q as [p'|]; simpl.
    + split; [now intros [= ->]|now intros ->].
    + split; [discriminate|]. intros ->. now elim Hp.
Qed.

(** The numbers of a group are the prices of the records of its
    product. *)
Lemma group_prices_spec (q : option string) (data : list string) :
  cast_float "" = None -> q <> Some "" ->
  Forall (fun l => length (csv_fields l) <= 4) data ->
  group_prices q (map (record_of cast_float) data)
  = spec_prices cast_float (default "" q) data.
Proof.
  intros Hempty Hq. induction 1 as [|l data Hl _ IH]; [reflexivity|].
  unfold group_prices, spec_prices in *. cbn [map flat_map]. rewrite IH. f_equal.
  rewrite (record_of_spec l Hempty Hl).
  destruct (spec_parse_line cast_float l) as [[p x]|]; cbn [fst snd].
  - destruct (decide (null_if_empty p = q)) as [Hk|Hk];
      [rewrite decide_True by now apply null_if_empty_default
      |rewrite decide_False by (intros Hp; now apply Hk, null_if_empty_default)];
      reflexivity.
  - now destruct (decide (csv_column 2 l = q)).
Qed.

Lemma spec_prices_nonblank (p : string) (lines : list string) :
  spec_prices cast_float p (List.filter nonblank lines) = spec_prices cast_float p lines.
Proof.
  unfold spec_prices. induction lines as [|l lines IH]; [reflexivity|].
  cbn [List.filter flat_map]. destruct (nonblank l) eqn:Hl.
  - cbn [flat_map]. now rewrite IH.
  - rewrite IH. unfold spec_parse_line. now rewrite (blank_line_fields l Hl).
Qed.


Lemma spec_prices_in (p : string) (lines : list string) :
  spec_prices cast_float p lines <> [] ->
  exists l x, In l lines /\ spec_parse_line cast_float l = Some (p, x).
Proof.
  unfold spec_prices. induction lines as [|l lines IH]; [easy|]. cbn [flat_map].
  destruct (spec_parse_line cast_float l) as [[q x]|] eqn:Hl.
  - destruct (decide (q = p)) as [->|_].
    + intros _. exists l, x. split; [now left|exact Hl].
    + intros H. destruct (IH H) as (l' & x' & Hin & Hp). exists l', x'. split; [now right|exact Hp].
  - intros H. destruct (IH H) as (l' & x' & Hin & Hp). exists l', x'. split; [now right|exact Hp].
Qed.


(** A record with a number gives its group a number. *)
Lemma group_prices_in (q : option string) (x : float)
    (records : list (option string * option float)) :
  In (q, Some x) records -> group_prices q records <> [].
Proof.
  unfold group_prices. induction records as [|r records IH]; [easy|].
  cbn [flat_map]. intros [->|Hin].
  - cbn [fst snd]. now rewrite decide_True.
  - intros H. apply app_eq_nil in H as [_ H]. now apply IH.
Qed.

(** The rows of the aggregate: one for each product of the records, with
    the total of its group, in whatever order. *)
Lemma group_sum_rows (lines : list string)
    (records : list (option string * option float)) :
  permutes engine ->
  NoDup (map product_name (group_sum engine lines records))
  /\ forall q t, In (mkRow q t) (group_sum engine lines records)
                 <-> In q (map fst records) /\ t = group_total engine lines q records.
Proof.
  intros Hperm. unfold group_sum.
  set (rows := map (fun q => mkRow q (group_total engine lines q records))
                 (remove_dups (map fst records))).
  pose proof (Hperm lines rows) as Hp. split.
  - rewrite Hp. subst rows. rewrite map_map. cbn [product_name].
    rewrite map_id. apply NoDup_remove_dups.
  - intros q t. split.
    + intros Hin. apply (Permutation_in _ Hp) in Hin. subst rows.
      apply in_map_iff in Hin as (q' & [= -> ->] & Hq).
      rewrite <- list_elem_of_In, elem_of_remove_dups, list_elem_of_In in Hq. now split.
    + intros [Hq ->]. apply (Permutation_in _ (Permutation_sym Hp)). subst rows.
      apply in_map_iff. exists q. split; [reflexivity|].
      now rewrite <- list_elem_of_In, elem_of_remove_dups, list_elem_of_In.
Qed.

(** The rows that the query gives for lines of which [data] are not
    blank: a row for each product that a line of [data] names, with the
    sum of the prices of the records of the product. *)
Lemma query_rows (lines : list string) :
  permutes engine -> cast_float "" = None ->
  (exists first rest,
      List.filter nonblank lines = first :: rest /\ length (csv_fields first) = 4) ->
  Forall (fun l => length (csv_fields l) <= 4) lines ->
  exists rows,
    query_lines cast_float engine lines = Return {| collect := Return rows |}
    /\ NoDup (map product_name rows)
    /\ forall q t, In (mkRow q t) rows <->
         (exists l, In l (List.filter nonblank lines) /\ csv_column 2 l = q)
         /\ t = spec_total cast_float (add_up engine lines q) (default "" q) lines.
Proof.
  intros Hperm Hempty (first & rest & Hdata & Hwidth) Hlen.
  set (data := List.filter nonblank lines) in *.
  destruct (group_sum_rows lines (map (record_of cast_float) data) Hperm) as [Hnd Hrows].
  exists (group_sum engine lines (map (record_of cast_float) data)).
  split; [|split; [exact Hnd|]].
  { unfold query_lines. fold data. now rewrite Hdata, Hwidth. }
  assert (Hdata_len : Forall (fun l => length (csv_fields l) <= 4) data).
  { apply List.Forall_forall. intros l Hl. apply filter_In in Hl as [Hl _].
    rewrite List.Forall_forall in Hlen. now apply Hlen. }
  assert (Hkey : forall q, In q (map fst (map (record_of cast_float) data))
                           <-> exists l, In l data /\ csv_column 2 l = q).
  { intros q. rewrite map_map, in_map_iff.
    split; intros (l & H1 & H2); exists l; now split. }
  assert (Htotal : forall q, q <> Some "" ->
            group_total engine lines q (map (record_of cast_float) data)
            = spec_total cast_float (add_up engine lines q) (default "" q) lines).
  { intros q Hq. unfold group_total, spec_total.
    rewrite (group_prices_spec q data Hempty Hq Hdata_len).
    now rewrite <- (spec_prices_nonblank (default "" q) lines). }
  intros q t. rewrite Hrows, Hkey. split.
  - intros [(l & Hl & Hk) ->]. split; [now exists l|].
    apply Htotal. rewrite <- Hk. apply csv_column_not_empty.
  - intros [(l & Hl & Hk) ->]. split; [now exists l|].
    symmetry. apply Htotal. rewrite <- Hk. apply csv_column_not_empty.
Qed.

(** A file whose first line has not four fields is refused as a whole. *)
Lemma first_line_decides (lines : list string) :
  match List.filter nonblank lines with
  | first :: _ => length (csv_fields first) <> 4
  | [] => True
  end ->
  exists width, query_lines cast_float engine lines = Raise (column_mismatch engine width).
Proof.
  unfold query_lines. destruct (List.filter nonblank lines) as [|first rest].
  - intros _. now exists 0.
  - intros Hw. exists (length (csv_fields first)). now rewrite (proj2 (Nat.eqb_neq _ _) Hw).
Qed.



End Query.



End FileTotals.

(** ** What can end a run *)
Module Abort.
Import Py Spark Driver Notions StringFacts Frame.

(** Adding a row fails only for want of an amount. *)
Lemma add_row_raise {V} (add : V -> V -> V) (zero : V)
    (d : dict (option string) V) (r : Row V) (e : exn) :
  add_row add zero d r = Raise e -> e = none_amount /\ total_price r = None.
Proof.
  unfold add_row. destruct (dict_get (product_name r) d) as [t|] eqn:Hp.
  - rewrite Hp. destruct (total_price r); [discriminate|]. now intros [= <-].
  - rewrite Merge.dict_get_set, decide_True by reflexivity.
    destruct (total_price r); [discriminate|]. now intros [= <-].
Qed.

Lemma add_rows_raise {V} (add : V -> V -> V) (zero : V) (rows : list (Row V)) :
  forall d e, add_rows add zero d rows = Raise e ->
              e = none_amount /\ exists r, In r rows /\ total_price r = None.
Proof.
  induction rows as [|r rows IH]; intros d e; simpl; [discriminate|].
  destruct (add_row add zero d r) as [d'|e'] eqn:Hr.
  - intros H. destruct (IH _ _ H) as (-> & r' & Hin & Hnull).
    split; [reflexivity|]. exists r'. split; [now right|exact Hnull].
  - intros [= <-]. apply add_row_raise in Hr as [-> Hnull].
    split; [reflexivity|]. exists r. split; [now left|exact Hnull].
Qed.

Lemma for_log_files_raise (w : World) (log_files : list string) :
  forall hr st e, snd (for_log_files w log_files hr st) = Raise e ->
                  exists path, In path log_files /\ raised_in_file w path e.
Proof.
  induction log_files as [|path rest IH]; intros hr st e; simpl; [discriminate|].
  unfold process_log_file.
  destruct (log_totals (spark w) path) as [df|e0] eqn:Hq.
  - destruct (collect df) as [rows|e1] eqn:Hc; simpl.
    + destruct (add_rows _ _ hr rows) as [hr'|e2] eqn:Ha; simpl.
      * intros H. destruct (IH _ _ _ H) as (p & Hin & Hp).
        exists p. split; [now right|exact Hp].
      * intros [= <-]. apply add_rows_raise in Ha as (-> & r & Hr & Hnull).
        exists path. split; [now left|]. exists df. split; [exact Hq|].
        right. split; [reflexivity|]. now exists rows, r.
    + intros [= <-]. exists path. split; [now left|]. exists df. split; [exact Hq|].
      now left.
  - intros H. destruct (IH _ _ _ H) as (p & Hin & Hp).
    exists p. split; [now right|exact Hp].
Qed.

Lemma process_folder_raise (w : World) (folder : string) (st : state) (e : exn) :
  output_path ∈ dirs st -> isdigit folder = true ->
  snd (process_folder w folder st) = Raise e -> raised_in_folder w folder e.
Proof.
  intros Hdir Hdigit. unfold process_folder, raised_in_folder.
  fold (log_files_of w folder).
  pose proof (for_log_files_raise w (log_files_of w folder) [] st e) as Hfiles.
  pose proof (for_log_files_same_output w (log_files_of w folder) [] st) as (Hd & _).
  destruct (for_log_files w (log_files_of w folder) [] st) as [st1 [hr|e1]]; simpl in *.
  - intros Hw. right. rewrite <- Hd in Hdir.
    now apply (write_results_raise folder hr st1).
  - intros [= <-]. left. now apply Hfiles.
Qed.

Lemma for_hour_folders_raise (w : World) (folders : list string) :
  forall st e,
    output_path ∈ dirs st ->
    Forall (fun folder => String.length folder = 10 /\ isdigit folder = true) folders ->
    snd (for_hour_folders w folders st) = Raise e ->
    exists folder, In folder folders /\ raised_in_folder w folder e.
Proof.
  induction folders as [|folder rest IH]; intros st e Hdir Hdigits; simpl; [discriminate|].
  apply Forall_cons in Hdigits as [[_ Hdigit] Hdigits].
  pose proof (process_folder_raise w folder st) as Hp.
  pose proof (process_folder_dirs w folder st) as [Hd _].
  destruct (process_folder w folder st) as [st1 [[]|e1]]; simpl in *.
  - intros H. rewrite <- Hd in Hdir.
    destruct (IH _ _ Hdir Hdigits H) as (f & Hin & Hf).
    exists f. split; [now right|exact Hf].
  - intros [= <-]. exists folder. split; [now left|]. now apply Hp.
Qed.

(** A run ends with an exception only when the output directory cannot be
    made, when the input root cannot be listed, when running the query of
    a file raises, when a collected total is null, or when the file of an
    hour is a directory. *)
Lemma main_raise_sources (w : World) (st : state) (e : exn) :
  snd (main w st) = Raise e ->
  os_makedirs output_path st = Raise e
  \/ os_listdir w input_path = Raise e
  \/ exists folders folder,
       get_hour_folders w input_path = Return folders
       /\ In folder folders /\ raised_in_folder w folder e.
Proof.
  unfold main. destruct (os_makedirs output_path st) as [st1|e0] eqn:Hmk.
  - apply os_makedirs_ok in Hmk as (Hdir & _).
    unfold main_body.
    destruct (get_hour_folders w input_path) as [folders|e1] eqn:Hg.
    + pose proof (for_hour_folders_raise w folders (create_spark_session st1) e Hdir
                    (GetHourFolders.get_hour_folders_digits _ _ _ Hg)) as Hf.
      destruct (for_hour_folders w folders (create_spark_session st1)) as [st3 r].
      simpl in *. intros Hr. right. right.
      destruct (Hf Hr) as (folder & Hin & Hfolder). now exists folders, folder.
    + simpl. intros [= <-]. right. left.
      unfold get_hour_folders in Hg. now destruct (os_listdir w input_path).
  - simpl. intros [= <-]. now left.
Qed.

End Abort.

(** ** main: the output directory and the discovery of the folders *)
Module MainSetup.
Import Py Spark Driver Notions Inputs StringFacts Frame.

(** C10.  When listing the input root raises, the run ends with that
    exception before any folder is processed: no file is created or
    changed and nothing is printed; of the directories only the output
    directory may be new; and the Spark session that was started has been
    stopped.  (When the output directory itself cannot be made, the run
    ends before the session starts and before the root is listed.) *)
Theorem discovery_failure_is_atomic (w : World) (st : state) (e : exn) :
  os_listdir w input_path = Raise e ->
  files (fst (main w st)) = files st
  /\ stdout (fst (main w st)) = stdout st
  /\ ((exists e0, os_makedirs output_path st = Raise e0 /\ main w st = (st, Raise e0))
      \/ (snd (main w st) = Raise e
          /\ spark_running (fst (main w st)) = false
          /\ dirs (fst (main w st)) = {[output_path]} ∪ dirs st
          /\ exists st1, os_makedirs output_path st = Return st1
               /\ spark_running (create_spark_session st1) = true
               /\ main w st = (spark_stop (create_spark_session st1), Raise e))).
Proof.
  intros Hlist. unfold main.
  destruct (os_makedirs output_path st) as [st1|e0] eqn:Hmk.
  - apply os_makedirs_ok in Hmk as (_ & Hd & Hf & Ho & _).
    unfold main_body, get_hour_folders. rewrite Hlist. simpl.
    repeat split; try assumption. right. repeat split; try assumption.
    exists st1. now repeat split.
  - simpl. repeat split. left. now exists e0.
Qed.

(** The theorem on a run whose input root is missing. *)
Lemma discovery_failure_is_atomic_witness :
  os_listdir no_logs_world input_path = Raise (Exn "FileNotFoundError" "./logs")
  /\ files (fst (main no_logs_world fresh_state)) = files fresh_state
  /\ snd (main no_logs_world fresh_state) = Raise (Exn "FileNotFoundError" "./logs").
Proof.
  split; [reflexivity|].
  destruct (discovery_failure_is_atomic no_logs_world fresh_state
              (Exn "FileNotFoundError" "./logs") eq_refl) as (Hf & _ & H).
  split; [exact Hf|]. vm_compute. reflexivity.
Defined.

(** C8.  The output directory is made before anything else, with
    [exist_ok]: a directory that is already there is no error; one that is
    missing is created, where no file has its name, and nothing else
    changes; the call fails only where a file has the name of the
    directory, and then nothing of the input is looked at.  From then on
    the directory is there: every log file and every folder of the loop
    keep it, so each write of an hour finds it, the file it opens lies
    directly in it, the directory is there when the run ends, and no run
    ends because that directory is missing. *)
Theorem output_dir_made_first_and_kept (w : World) (st : state) :
  (output_path ∈ dirs st -> os_makedirs output_path st = Return st)
  /\ (output_path ∉ dirs st -> files st !! output_path = None ->
        os_makedirs output_path st
        = Return {| dirs := {[output_path]} ∪ dirs st; files := files st;
                    stdout := stdout st; spark_running := spark_running st |}
        /\ output_path ∈ dirs (fst (main w st)))
  /\ (forall e, os_makedirs output_path st = Raise e ->
        (e = file_exists_error output_path /\ is_Some (files st !! output_path))
        /\ forall w', main w' st = (st, Raise e))
  /\ (forall st1, os_makedirs output_path st = Return st1 ->
        output_path ∈ dirs (create_spark_session st1)
        /\ output_path ∈ dirs (fst (main w st))
        /\ main w st = (spark_stop (fst (main_body w (create_spark_session st1))),
                        snd (main_body w (create_spark_session st1))))
  /\ (output_path ∈ dirs st ->
        (forall log_files hour_results,
            output_path ∈ dirs (fst (for_log_files w log_files hour_results st)))
        /\ (forall folder, output_path ∈ dirs (fst (process_folder w folder st)))
        /\ (forall folders, output_path ∈ dirs (fst (for_hour_folders w folders st)))
        /\ (forall folder hour_results,
              isdigit folder = true ->
              parent_dir (output_file folder) ∈ dirs st
              /\ forall e, snd (write_results folder hour_results st) = Raise e ->
                           e = is_a_directory_error (output_file folder)))
  /\ (forall e, snd (main w st) = Raise e ->
        os_makedirs output_path st = Raise e
        \/ os_listdir w input_path = Raise e
        \/ exists folders folder,
             get_hour_folders w input_path = Return folders
             /\ In folder folders /\ raised_in_folder w folder e).
Proof.
  assert (Hmain : forall st1, os_makedirs output_path st = Return st1 ->
                              output_path ∈ dirs (fst (main w st))).
  { intros st1 Hmk. unfold main, main_body. rewrite Hmk.
    apply os_makedirs_ok in Hmk as (Hin & _).
    destruct (get_hour_folders w input_path) as [folders|e]; simpl; [|exact Hin].
    pose proof (for_hour_folders_dirs w folders (create_spark_session st1)) as [Hd _].
    destruct (for_hour_folders w folders (create_spark_session st1)) as [st3 r].
    simpl in *. now rewrite Hd. }
  split; [|split; [|split; [|split; [|split]]]].
  - intros Hin. unfold os_makedirs. now rewrite decide_True.
  - intros Hnin Hfile.
    assert (Hmk : os_makedirs output_path st
                  = Return {| dirs := {[output_path]} ∪ dirs st; files := files st;
                              stdout := stdout st; spark_running := spark_running st |}).
    { unfold os_makedirs. rewrite decide_False by exact Hnin.
      rewrite decide_False; [reflexivity|]. rewrite Hfile. now intros [x Hx]. }
    split; [exact Hmk|]. exact (Hmain _ Hmk).
  - intros e He. split.
    + unfold os_makedirs in He. destruct (decide (output_path ∈ dirs st)); [discriminate|].
      destruct (decide (is_Some (files st !! output_path))) as [Hf|]; [|discriminate].
      now injection He as <-.
    + intros w'. unfold main. now rewrite He.
  - intros st1 Hmk. split; [|split].
    + apply os_makedirs_ok in Hmk as (Hin & _). exact Hin.
    + exact (Hmain _ Hmk).
    + unfold main. rewrite Hmk.
      now destruct (main_body w (create_spark_session st1)).
  - intros Hin. split; [|split; [|split]].
    + intros lf hr. destruct (for_log_files_same_output w lf hr st) as (-> & _).
      exact Hin.
    + intros folder. destruct (process_folder_dirs w folder st) as [-> _]. exact Hin.
    + intros folders. destruct (for_hour_folders_dirs w folders st) as [-> _]. exact Hin.
    + intros folder hr Hd. destruct (output_file_path folder Hd) as [_ Hp].
      split; [now rewrite Hp|].
      intros e. now apply write_results_raise.
  - apply Abort.main_raise_sources.
Qed.

(** The theorem on a first run, which finds no output directory, and on a
    state that has the directory. *)
Lemma output_dir_made_first_and_kept_witness :
  (output_path ∉ dirs fresh_state)
  /\ os_makedirs output_path fresh_state
     = Return {| dirs := {[output_path]} ∪ dirs fresh_state; files := ∅;
                 stdout := []; spark_running := false |}
  /\ output_path ∈ dirs (fst (main (tree_world widget_tree) fresh_state))
  /\ output_path ∈ dirs output_dir_state
  /\ os_makedirs output_path output_dir_state = Return output_dir_state
  /\ output_path
     ∈ dirs (fst (process_folder (tree_world widget_tree) "2024112314" output_dir_state))
  /\ parent_dir (output_file "2024112314") ∈ dirs output_dir_state.
Proof.
  assert (Hnin : output_path ∉ dirs fresh_state) by (vm_compute; set_solver).
  assert (Hin : output_path ∈ dirs output_dir_state) by reflexivity.
  destruct (output_dir_made_first_and_kept (tree_world widget_tree) fresh_state)
    as (_ & Hmade & _).
  destruct (Hmade Hnin eq_refl) as [Hmk Hthere].
  destruct (output_dir_made_first_and_kept (tree_world widget_tree) output_dir_state)
    as (Hok & _ & _ & _ & Hkept & _).
  destruct (Hkept Hin) as (_ & Hfolder & _ & Hwrite).
  split; [exact Hnin|]. split; [exact Hmk|]. split; [exact Hthere|].
  split; [exact Hin|]. split; [exact (Hok Hin)|]. split; [apply Hfolder|].
  now apply (Hwrite "2024112314" []).
Defined.

End MainSetup.

(** ** The file of an hour (lines 98-106) *)
Module HourFile.
Import Py Spark Driver Notions Inputs StringFacts Frame.

(** C6, as stated, fails: a total need not be written with two decimals.
    A price that Spark casts to the float infinity gives an infinite total,
    and the [.2f] format writes it as [inf]. *)
Lemma infinite_total_written_as_inf :
  snd (run infinity_tree fresh_state) = Return tt
  /\ files (fst (run infinity_tree fresh_state)) !! out14
     = Some ("2024/11/23 14" +:+ "|" +:+ "Widget" +:+ "|" +:+ format_2f infinity +:+ newline)
  /\ format_2f infinity = "inf"
  /\ ~ two_decimal_form (format_2f infinity).
Proof.
  split; [vm_compute; reflexivity|]. split; [vm_compute; reflexivity|].
  split; [vm_compute; reflexivity|].
  apply Format2f.format_2f_not_finite. vm_compute. reflexivity.
Qed.

(** C6, amended.  The write of an hour whose folder is a ten-digit name
    [YYYYMMDDHH] opens [<output>/<folder>.txt] and puts, after what the
    file holds, one line per product of the totals, in their order:
    [YYYY/MM/DD HH|product|total] and a newline, the date cut out of the
    folder name.  A finite total is written with a decimal point and
    exactly two decimal digits; a total that is not finite is written as
    [inf], [-inf] or [nan].  No other file changes. *)
Theorem hour_file_lines (folder y m d h : string) (hr : hour_dict) (st : state) :
  folder = y +:+ m +:+ d +:+ h ->
  String.length y = 4 -> String.length m = 2 ->
  String.length d = 2 -> String.length h = 2 ->
  isdigit folder = true ->
  dict_truthy hr = true ->
  output_path ∈ dirs st -> output_file folder ∉ dirs st ->
  exists st',
    write_results folder hr st = (st', Return tt)
    /\ output_file folder = "./output/" +:+ folder +:+ ".txt"
    /\ files st' !! output_file folder
       = Some (default "" (files st !! output_file folder)
               +:+ fold_right String.append "" (map (dated_line y m d h) hr))
    /\ (forall item, In item hr -> is_finite (snd item) = true ->
          two_decimal_form (format_2f (snd item)))
    /\ (forall item, In item hr -> is_finite (snd item) = false ->
          In (format_2f (snd item)) ["inf"; "-inf"; "nan"])
    /\ (forall path, path <> output_file folder -> files st' !! path = files st !! path).
Proof.
  intros -> Hy Hm Hd Hh Hdigit Hhr Hdir Hnodir.
  destruct (output_file_path _ Hdigit) as [Hpath Hparent].
  unfold write_results. rewrite Hhr.
  destruct (open_append (output_file (y +:+ m +:+ d +:+ h))
              (output_text (format_datetime (y +:+ m +:+ d +:+ h)) hr) st)
    as [st1|e] eqn:Ho.
  - apply open_append_dirs in Ho as (_ & _ & _ & Hf).
    eexists. split; [reflexivity|]. split; [exact Hpath|]. simpl. rewrite Hf.
    split; [|split; [|split]].
    + rewrite lookup_insert_eq. do 2 f_equal. unfold output_text.
      rewrite (FormatDatetime.format_datetime_bucket_id y m d h Hy Hm Hd Hh).
      reflexivity.
    + intros item _. apply Format2f.format_2f_finite.
    + intros item _. apply Format2f.format_2f_not_finite_cases.
    + intros path Hne. now apply lookup_insert_ne.
  - exfalso. unfold open_append in Ho. rewrite Hparent in Ho.
    rewrite decide_False, decide_True in Ho by assumption. discriminate.
Qed.

(** The theorem on the widgets of hour 14. *)
Lemma hour_file_lines_witness :
  exists st',
    write_results "2024112314" [(Some "Widget", 15%float)] output_dir_state
      = (st', Return tt)
    /\ files st' !! "./output/2024112314.txt"
       = Some ("2024/11/23 14|Widget|15.00" +:+ newline).
Proof.
  destruct (hour_file_lines "2024112314" "2024" "11" "23" "14"
              [(Some "Widget", 15%float)] output_dir_state)
    as (st' & Hw & Hpath & Hfile & _); try reflexivity.
  - intros Hin. unfold output_dir_state in Hin. simpl in Hin.
    apply elem_of_singleton in Hin. vm_compute in Hin. discriminate.
  - exists st'. split; [exact Hw|].
    change "./output/2024112314.txt" with (output_file "2024112314").
    rewrite Hfile. vm_compute. reflexivity.
Defined.

End HourFile.

(** ** Runs of [main] *)
Module Runs.
Import Py Spark Driver Notions Inputs StringFacts Frame.

Example widget_run :
  files (fst (run widget_tree fresh_state)) !! out14
    = Some ("2024/11/23 14|Widget|15.00" +:+ newline)
  /\ snd (run widget_tree fresh_state) = Return tt
  /\ stdout (fst (run widget_tree fresh_state)) = ["File created: ./output/2024112314.txt"].
Proof. vm_compute. repeat split. Qed.

(** *** Running twice *)

(** C1 fails on the code: the file of an hour is opened with mode ['a'].
    A second run over the same logs leaves the file of the hour with its
    lines twice, not with the content the first run gave it. *)
Theorem main_rerun_duplicates_lines :
  let first := fst (run widget_tree fresh_state) in
  let second := fst (run widget_tree first) in
  files first !! out14 = Some ("2024/11/23 14|Widget|15.00" +:+ newline)
  /\ files second !! out14
     = Some ("2024/11/23 14|Widget|15.00" +:+ newline
             +:+ "2024/11/23 14|Widget|15.00" +:+ newline)
  /\ files second !! out14 <> files first !! out14.
Proof. vm_compute. repeat split. discriminate. Qed.

(** *** Files that give nothing *)

(** A file whose query cannot be built is reported and passed over: the
    loop goes on with the next file and the totals it had. *)
Lemma failed_file_is_skipped (w : World) (path : string) (rest : list string)
    (hr : hour_dict) (st : state) (e : exn) :
  log_totals (spark w) path = Raise e ->
  process_log_file (spark w) path st
    = (print ("Error processing file " +:+ path +:+ ": " +:+ exn_str e) st, None)
  /\ for_log_files w (path :: rest) hr st
     = for_log_files w rest hr
         (print ("Error processing file " +:+ path +:+ ": " +:+ exn_str e) st).
Proof.
  intros Hq. simpl. unfold process_log_file. rewrite Hq. now split.
Qed.

Example unreadable_file_run :
  snd (main unreadable_file_world fresh_state) = Return tt
  /\ files (fst (main unreadable_file_world fresh_state)) !! out14
     = Some ("2024/11/23 14|Widget|15.00" +:+ newline)
  /\ stdout (fst (main unreadable_file_world fresh_state))
     = ["Error processing file ./logs/2024112314/a.txt: "
          +:+ "[PATH_NOT_FOUND] Path does not exist: "
          +:+ "file:/work/logs/2024112314/a.txt.";
        "File created: ./output/2024112314.txt"].
Proof. vm_compute. repeat split. Qed.

Lemma for_log_files_no_rows (w : World) (paths : list string) :
  forall hr st,
    (forall path, In path paths -> gives_no_row w path) ->
    snd (for_log_files w paths hr st) = Return hr.
Proof.
  induction paths as [|path rest IH]; intros hr st Hnone; [reflexivity|].
  assert (Hrest : forall p, In p rest -> gives_no_row w p)
    by (intros p Hp; apply Hnone; now right).
  simpl. unfold process_log_file.
  destruct (Hnone path (or_introl eq_refl)) as [[e He]|(df & Hdf & Hc)].
  - rewrite He. now apply IH.
  - rewrite Hdf, Hc. simpl. now apply IH.
Qed.

(** A folder without log files, or whose files all are refused or hold no
    row, is passed over: nothing is written, nothing is raised. *)
Lemma folder_without_rows_writes_nothing (w : World) (folder : string) (st : state) :
  (forall path, In path (log_files_of w folder) -> gives_no_row w path) ->
  snd (process_folder w folder st) = Return tt
  /\ same_output (fst (process_folder w folder st)) st.
Proof.
  intros Hnone. unfold process_folder. fold (log_files_of w folder).
  pose proof (for_log_files_no_rows w (log_files_of w folder) [] st Hnone) as Hr.
  pose proof (for_log_files_same_output w (log_files_of w folder) [] st) as Hs.
  destruct (for_log_files w (log_files_of w folder) [] st) as [st1 r].
  simpl in *. subst r. now rewrite write_results_empty.
Qed.

(** *** A price that is no number *)

(** C4 fails on the code: a folder whose only file has no well-formed line
    (its price is no number) is not passed over as an hour with nothing to
    write.  Spark lists the product with a null total, adding the null to
    the total of the hour raises [TypeError], and the run ends with it. *)
Theorem all_malformed_folder_is_fatal :
  log_totals (spark (tree_world abc_tree)) "./logs/2024112314/a.txt"
    = Return {| collect := Return [mkRow (Some "Widget") None] |}
  /\ snd (run abc_tree fresh_state) = Raise none_amount
  /\ files (fst (run abc_tree fresh_state)) !! out14 = None.
Proof. vm_compute. repeat split. Qed.

(** *** A malformed line among well-formed ones *)

(** C7 fails on the code: a malformed line can end the whole run.  With
    the line [garbage] after two well-formed lines, Spark lists a null
    product with a null total; [main] raises [TypeError] on it, writes
    nothing for the hour and never reaches the next hour, which the same
    run without that line writes. *)
Theorem malformed_line_is_fatal :
  snd (run garbage_tree fresh_state) = Raise none_amount
  /\ files (fst (run garbage_tree fresh_state)) !! out14 = None
  /\ files (fst (run garbage_tree fresh_state)) !! out15 = None
  /\ snd (run clean_tree fresh_state) = Return tt
  /\ files (fst (run clean_tree fresh_state)) !! out14
     = Some ("2024/11/23 14|Widget|15.00" +:+ newline)
  /\ files (fst (run clean_tree fresh_state)) !! out15
     = Some ("2024/11/23 15|Gadget|7.25" +:+ newline).
Proof. vm_compute. repeat split. Qed.

End Runs.

(** ** Hour folders and their files *)
Module Hours.
Import Py Spark Driver Notions Inputs StringFacts Frame.

Lemma string_app_inv_head (a b c : string) : a +:+ b = a +:+ c -> b = c.
Proof.
  induction a as [|x a IH]; [now rewrite !app_nil_l|].
  rewrite !app_cons. intros [= H]. now apply IH.
Qed.

Lemma string_app_inv_tail (a b c : string) : a +:+ c = b +:+ c -> a = b.
Proof.
  intros H. apply chars_inj. apply (f_equal chars) in H.
  rewrite !chars_app in H. now apply app_inv_tail in H.
Qed.

(** The date of a name of ten characters tells its characters. *)
Lemma format_datetime_inj (a b : string) :
  String.length a = 10 -> String.length b = 10 ->
  format_datetime a = format_datetime b -> a = b.
Proof.
  intros Ha Hb H.
  destruct (FormatDatetime.bucket_id_pieces a Ha) as (y & m & d & h & -> & Hy & Hm & Hd & Hh).
  destruct (FormatDatetime.bucket_id_pieces b Hb)
    as (y' & m' & d' & h' & -> & Hy' & Hm' & Hd' & Hh').
  rewrite !FormatDatetime.format_datetime_bucket_id in H by assumption.
  apply (f_equal chars) in H. rewrite !chars_app in H.
  rewrite <- chars_length in Hy, Hm, Hd, Hy', Hm', Hd'.
  apply app_inj_1 in H as [Ey H]; [|congruence].
  apply app_inj_1 in H as [_ H]; [|reflexivity].
  apply app_inj_1 in H as [Em H]; [|congruence].
  apply app_inj_1 in H as [_ H]; [|reflexivity].
  apply app_inj_1 in H as [Ed H]; [|congruence].
  apply app_inj_1 in H as [_ Eh]; [|reflexivity].
  apply chars_inj in Ey, Em, Ed, Eh. now subst.
Qed.

(** The file of an hour tells its folder. *)
Lemma output_file_inj (a b : string) :
  isdigit a = true -> isdigit b = true -> output_file a = output_file b -> a = b.
Proof.
  intros Ha Hb. destruct (output_file_path a Ha) as [-> _].
  destruct (output_file_path b Hb) as [-> _]. intros H.
  now apply string_app_inv_head, string_app_inv_tail in H.
Qed.

(** X1.  Two hour folders that the scanner returns under different names
    never share an output file, nor a date in the lines written for
    them; and the file of each lies directly in the output directory. *)
Theorem hours_do_not_collide (w : World) (base : string) (folders : list string)
    (a b : string) :
  get_hour_folders w base = Return folders ->
  In a folders -> In b folders -> a <> b ->
  output_file a <> output_file b
  /\ format_datetime a <> format_datetime b
  /\ parent_dir (output_file a) = output_path
  /\ parent_dir (output_file b) = output_path.
Proof.
  intros Hg Ha Hb Hne.
  pose proof (GetHourFolders.get_hour_folders_digits _ _ _ Hg) as Hd.
  rewrite List.Forall_forall in Hd.
  destruct (Hd a Ha) as [Hla Hda]. destruct (Hd b Hb) as [Hlb Hdb].
  destruct (output_file_path a Hda) as [_ Hpa].
  destruct (output_file_path b Hdb) as [_ Hpb].
  split; [|split; [|now split]].
  - intros H. now apply Hne, output_file_inj.
  - intros H. now apply Hne, format_datetime_inj.
Qed.

(** The theorem on hours 14 and 15 of a root with other entries. *)
Lemma hours_do_not_collide_witness :
  output_file "2024112314" <> output_file "2024112315"
  /\ format_datetime "2024112314" <> format_datetime "2024112315".
Proof.
  destruct (hours_do_not_collide mixed_root_world "./logs"
              ["2024112314"; "2024112315"] "2024112314" "2024112315")
    as (Hf & Hd & _).
  - reflexivity.
  - now left.
  - right. now left.
  - discriminate.
  - now split.
Defined.

End Hours.

(** ** What a run does to the files *)
Module RunEffects.
Import Py Spark Driver Notions Inputs Effects StringFacts Frame.

(** *** What is kept *)

(** Every file of [a] is in [b], with its content and maybe more text
    after it. *)
Lemma same_files_kept (a b : state) (path content : string) :
  files b = files a -> files a !! path = Some content ->
  exists suffix, files b !! path = Some (content +:+ suffix).
Proof. intros -> H. exists "". now rewrite app_empty_r. Qed.

Lemma write_results_keeps (folder : string) (hr : hour_dict) (st : state)
    (path content : string) :
  files st !! path = Some content ->
  exists suffix, files (fst (write_results folder hr st)) !! path = Some (content +:+ suffix).
Proof.
  intros Hc. unfold write_results.
  destruct (dict_truthy hr); [|now apply (same_files_kept st)].
  destruct (open_append _ _ st) as [st1|e] eqn:Ho; [|now apply (same_files_kept st)].
  apply open_append_dirs in Ho as (_ & _ & _ & Hf). simpl. rewrite Hf.
  destruct (decide (path = output_file folder)) as [->|Hne].
  - rewrite lookup_insert_eq, Hc. simpl. now eexists.
  - rewrite lookup_insert_ne by congruence. exists "". now rewrite app_empty_r.
Qed.

Lemma process_folder_keeps (w : World) (folder : string) (st : state)
    (path content : string) :
  files st !! path = Some content ->
  exists suffix, files (fst (process_folder w folder st)) !! path = Some (content +:+ suffix).
Proof.
  intros Hc. unfold process_folder.
  pose proof (for_log_files_same_output w (log_files_of w folder) [] st) as (_ & Hf & _).
  fold (log_files_of w folder).
  destruct (for_log_files w (log_files_of w folder) [] st) as [st1 [hr|e]]; simpl in *.
  - apply write_results_keeps. now rewrite Hf.
  - apply (same_files_kept st); assumption.
Qed.

Lemma for_hour_folders_keeps (w : World) (folders : list string) :
  forall st path content,
    files st !! path = Some content ->
    exists suffix,
      files (fst (for_hour_folders w folders st)) !! path = Some (content +:+ suffix).
Proof.
  induction folders as [|folder rest IH]; intros st path content Hc; simpl.
  - now apply (same_files_kept st).
  - destruct (process_folder_keeps w folder st path content Hc) as [s1 H1].
    destruct (process_folder w folder st) as [st1 [[]|e]]; simpl in *.
    + destruct (IH st1 path _ H1) as [s2 H2]. exists (s1 +:+ s2).
      now rewrite <- app_assoc_s.
    + now exists s1.
Qed.

(** The directories after a run: those before it, and the output
    directory when it could be made. *)
Lemma main_dirs (w : World) (st : state) :
  dirs (fst (main w st)) = dirs st
  \/ dirs (fst (main w st)) = {[output_path]} ∪ dirs st.
Proof.
  unfold main. destruct (os_makedirs output_path st) as [st1|e] eqn:Hmk; [|now left].
  apply os_makedirs_ok in Hmk as (_ & Hd & _). right.
  unfold main_body. destruct (get_hour_folders w input_path) as [folders|e]; simpl.
  - destruct (for_hour_folders_dirs w folders (create_spark_session st1)) as [Hd' _].
    destruct (for_hour_folders w folders (create_spark_session st1)) as [st3 r].
    simpl in *. congruence.
  - exact Hd.
Qed.

(** X2.  A run never deletes or shortens a file: whatever a file holds
    before the run, it holds afterwards, with at most more text behind
    it.  Nor does a run remove a directory; the only one it can add is
    the output directory. *)
Theorem main_keeps_file_contents (w : World) (st : state) (path content : string) :
  files st !! path = Some content ->
  (exists suffix, files (fst (main w st)) !! path = Some (content +:+ suffix))
  /\ dirs st ⊆ dirs (fst (main w st))
  /\ dirs (fst (main w st)) ⊆ {[output_path]} ∪ dirs st.
Proof.
  intros Hc. split.
  - unfold main. destruct (os_makedirs output_path st) as [st1|e] eqn:Hmk.
    + apply os_makedirs_ok in Hmk as (_ & _ & Hf & _).
      unfold main_body. destruct (get_hour_folders w input_path) as [folders|e]; simpl.
      * destruct (for_hour_folders_keeps w folders (create_spark_session st1)
                    path content) as [s Hs]; [simpl; now rewrite Hf|].
        destruct (for_hour_folders w folders (create_spark_session st1)) as [st3 r].
        now exists s.
      * apply (same_files_kept st); assumption.
    + now apply (same_files_kept st).
  - destruct (main_dirs w st) as [-> | ->]; split;
      try reflexivity; apply union_subseteq_r.
Qed.

(** The theorem on a second run over the widgets. *)
Lemma main_keeps_file_contents_witness :
  exists suffix,
    files (fst (run widget_tree after_first_run)) !! out14
    = Some (("2024/11/23 14|Widget|15.00" +:+ newline) +:+ suffix).
Proof.
  destruct (main_keeps_file_contents (tree_world widget_tree) after_first_run out14
              ("2024/11/23 14|Widget|15.00" +:+ newline)) as [H _].
  - reflexivity.
  - exact H.
Defined.

(** *** What is left alone *)

Lemma write_results_other_file (folder : string) (hr : hour_dict) (st : state)
    (path : string) :
  path <> output_file folder ->
  files (fst (write_results folder hr st)) !! path = files st !! path.
Proof.
  intros Hne. unfold write_results. destruct (dict_truthy hr); [|reflexivity].
  destruct (open_append _ _ st) as [st1|e] eqn:Ho; [|reflexivity].
  apply open_append_dirs in Ho as (_ & _ & _ & Hf). simpl. rewrite Hf.
  now apply lookup_insert_ne.
Qed.

Lemma process_folder_other_file (w : World) (folder : string) (st : state)
    (path : string) :
  path <> output_file folder ->
  files (fst (process_folder w folder st)) !! path = files st !! path.
Proof.
  intros Hne. unfold process_folder.
  pose proof (for_log_files_same_output w (log_files_of w folder) [] st) as (_ & Hf & _).
  fold (log_files_of w folder).
  destruct (for_log_files w (log_files_of w folder) [] st) as [st1 [hr|e]]; simpl in *.
  - rewrite write_results_other_file by assumption. now rewrite Hf.
  - now rewrite Hf.
Qed.

Lemma for_hour_folders_other_file (w : World) (folders : list string) (path : string) :
  (forall folder, In folder folders -> path <> output_file folder) ->
  forall st, files (fst (for_hour_folders w folders st)) !! path = files st !! path.
Proof.
  induction folders as [|folder rest IH]; intros Hne st; simpl; [reflexivity|].
  pose proof (process_folder_other_file w folder st path (Hne _ (or_introl eq_refl))) as Hp.
  destruct (process_folder w folder st) as [st1 [[]|e]]; simpl in *; [|exact Hp].
  rewrite IH; [exact Hp|]. intros f Hf. apply Hne. now right.
Qed.

(** X3.  A run changes no file but the files of the hour folders it finds
    under the input root: every other path holds afterwards what it held
    before, the log files among them. *)
Theorem main_writes_hour_files_only (w : World) (st : state) (path : string) :
  (forall folders folder,
      get_hour_folders w input_path = Return folders -> In folder folders ->
      path <> output_file folder) ->
  files (fst (main w st)) !! path = files st !! path.
Proof.
  intros Hne. unfold main.
  destruct (os_makedirs output_path st) as [st1|e] eqn:Hmk; [|reflexivity].
  apply os_makedirs_ok in Hmk as (_ & _ & Hf & _).
  unfold main_body. destruct (get_hour_folders w input_path) as [folders|e]; simpl.
  - pose proof (for_hour_folders_other_file w folders path
                  (fun folder => Hne folders folder eq_refl)
                  (create_spark_session st1)) as Hp.
    destruct (for_hour_folders w folders (create_spark_session st1)) as [st3 r].
    simpl in *. now rewrite Hp, Hf.
  - now rewrite Hf.
Qed.

(** The theorem on the file of hour 15, which the run over hour 14 leaves
    alone. *)
Lemma main_writes_hour_files_only_witness :
  files (fst (run widget_tree after_first_run)) !! out15 = None.
Proof.
  unfold run.
  rewrite (main_writes_hour_files_only (tree_world widget_tree) after_first_run out15).
  - reflexivity.
  - intros folders folder Hg Hin. vm_compute in Hg. injection Hg as <-.
    destruct Hin as [<-|[]]. vm_compute. discriminate.
Defined.

(** *** Runs that end well *)

Lemma dict_set_not_nil {V} (k : option string) (v : V) (d : dict (option string) V) :
  dict_set k v d <> [].
Proof.
  destruct d as [|[k' v'] d]; simpl; [discriminate|].
  destruct (decide (k = k')); discriminate.
Qed.

Lemma add_row_not_nil {V} (add : V -> V -> V) (zero : V)
    (d d' : dict (option string) V) (r : Row V) :
  add_row add zero d r = Return d' -> d' <> [].
Proof.
  unfold add_row.
  destruct (dict_get (product_name r) d); destruct (dict_get _ _);
    destruct (total_price r); try discriminate;
    intros [= <-]; apply dict_set_not_nil.
Qed.

Lemma add_rows_not_nil {V} (add : V -> V -> V) (zero : V) (rows : list (Row V)) :
  forall d d', add_rows add zero d rows = Return d' -> d <> [] \/ rows <> [] -> d' <> [].
Proof.
  induction rows as [|r rows IH]; simpl; intros d d' H Hne.
  - injection H as <-. now destruct Hne.
  - destruct (add_row add zero d r) as [d1|e] eqn:Hr; [|discriminate].
    apply (IH _ _ H). left. eapply add_row_not_nil, Hr.
Qed.

Lemma rows_have_amounts_collect (w : World) (paths : list string) :
  rows_have_amounts w paths -> collect_never_fails w paths.
Proof.
  intros H path df Hin Hq. destruct (H path df Hin Hq) as (rows & Hc & _). now exists rows.
Qed.

Lemma rows_have_amounts_all (w : World) (paths : list string) :
  rows_have_amounts w paths -> Forall has_amount (flat_map (rows_of w) paths).
Proof.
  intros H. apply List.Forall_forall. intros r Hr.
  apply in_flat_map in Hr as (path & Hin & Hr). unfold rows_of in Hr.
  destruct (log_totals (spark w) path) as [df|e] eqn:Hq; [|easy].
  destruct (H path df Hin Hq) as (rows & Hc & Hall). rewrite Hc in Hr.
  rewrite List.Forall_forall in Hall. now apply Hall.
Qed.

(** The totals of the log files whose rows all hold an amount. *)
Lemma for_log_files_totals (w : World) (paths : list string) (st : state) :
  rows_have_amounts w paths ->
  exists hr,
    snd (for_log_files w paths [] st) = Return hr
    /\ (forall q, dict_get q hr
          = total_after PrimFloat.add 0%float None
              (amounts_of q (flat_map (rows_of w) paths)))
    /\ NoDup (dict_keys hr)
    /\ add_rows PrimFloat.add 0%float [] (flat_map (rows_of w) paths) = Return hr.
Proof.
  intros H.
  destruct (Merge.add_rows_get PrimFloat.add 0%float _ [] (rows_have_amounts_all _ _ H))
    as (hr & Hadd & Hget & Hnd).
  exists hr. rewrite (Merge.for_log_files_adds_rows w paths (rows_have_amounts_collect _ _ H)).
  split; [exact Hadd|]. split; [exact Hget|]. split; [apply Hnd, NoDup_nil_2|exact Hadd].
Qed.

Lemma output_file_not_output_path (folder : string) :
  isdigit folder = true -> output_file folder <> output_path.
Proof.
  intros Hd. destruct (output_file_path folder Hd) as [-> _]. intros H.
  apply (f_equal String.length) in H. rewrite !length_app in H. simpl in H. lia.
Qed.

Lemma write_results_returns (folder : string) (hr : hour_dict) (st : state) :
  output_path ∈ dirs st -> isdigit folder = true -> output_file folder ∉ dirs st ->
  snd (write_results folder hr st) = Return tt
  /\ (hr <> [] ->
      files (fst (write_results folder hr st)) !! output_file folder
      = Some (default "" (files st !! output_file folder)
              +:+ output_text (format_datetime folder) hr)).
Proof.
  intros Hdir Hd Hnd. destruct (output_file_path folder Hd) as [_ Hp].
  unfold write_results. destruct hr as [|item hr]; [now split|].
  unfold dict_truthy, open_append.
  rewrite decide_False by assumption. rewrite Hp, decide_True by assumption.
  simpl. split; [reflexivity|]. intros _. apply lookup_insert_eq.
Qed.

Lemma process_folder_returns (w : World) (folder : string) (st : state) :
  output_path ∈ dirs st -> isdigit folder = true -> output_file folder ∉ dirs st ->
  rows_have_amounts w (log_files_of w folder) ->
  snd (process_folder w folder st) = Return tt
  /\ (hour_rows w folder <> [] ->
      is_Some (files (fst (process_folder w folder st)) !! output_file folder)).
Proof.
  intros Hdir Hd Hnd Hrows. unfold process_folder. fold (log_files_of w folder).
  destruct (for_log_files_totals w _ st Hrows) as (hr & Hr & _ & _ & Hadd).
  pose proof (for_log_files_same_output w (log_files_of w folder) [] st) as (Hds & _).
  destruct (for_log_files w (log_files_of w folder) [] st) as [st1 r].
  simpl in *. subst r. rewrite <- Hds in Hdir, Hnd.
  destruct (write_results_returns folder hr st1 Hdir Hd Hnd) as [Hw Hfile].
  split; [exact Hw|]. intros Hne. rewrite Hfile; [eauto|].
  apply (add_rows_not_nil _ _ _ _ _ Hadd). now right.
Qed.

Lemma for_hour_folders_returns (w : World) (folders : list string) :
  forall st,
    output_path ∈ dirs st ->
    (forall folder, In folder folders ->
        isdigit folder = true /\ (output_file folder ∉ dirs st)
        /\ rows_have_amounts w (log_files_of w folder)) ->
    snd (for_hour_folders w folders st) = Return tt
    /\ forall folder, In folder folders -> hour_rows w folder <> [] ->
         is_Some (files (fst (for_hour_folders w folders st)) !! output_file folder).
Proof.
  induction folders as [|folder rest IH]; intros st Hdir Hall; simpl; [now split|].
  destruct (Hall folder (or_introl eq_refl)) as (Hd & Hnd & Hrows).
  destruct (process_folder_returns w folder st Hdir Hd Hnd Hrows) as [Hr Hfile].
  destruct (process_folder_dirs w folder st) as [Hds _].
  pose proof (for_hour_folders_keeps w rest (fst (process_folder w folder st))
                (output_file folder)) as Hkeep.
  destruct (process_folder w folder st) as [st1 r]. simpl in *. subst r.
  destruct (IH st1) as [Hr' Hfiles'].
  { now rewrite Hds. }
  { intros f Hf. rewrite Hds. apply Hall. now right. }
  split; [exact Hr'|]. intros f [<-|Hf] Hne.
  - destruct (Hfile Hne) as [content Hc]. destruct (Hkeep _ Hc) as [s Hs]. eauto.
  - now apply Hfiles'.
Qed.

(** X4.  A run returns normally when the output directory can be made,
    the input root can be listed, no directory stands where the file of
    an hour goes, and every query that Spark builds for a log file runs
    and gives rows that all hold an amount.  The session is stopped then,
    and every hour folder whose files give a row has its file. *)
Theorem main_succeeds (w : World) (st st1 : state) (folders : list string) :
  os_makedirs output_path st = Return st1 ->
  get_hour_folders w input_path = Return folders ->
  (forall folder, In folder folders -> output_file folder ∉ dirs st) ->
  (forall folder, In folder folders -> rows_have_amounts w (log_files_of w folder)) ->
  snd (main w st) = Return tt
  /\ spark_running (fst (main w st)) = false
  /\ forall folder, In folder folders -> hour_rows w folder <> [] ->
       is_Some (files (fst (main w st)) !! output_file folder).
Proof.
  intros Hmk Hg Hnd Hrows. unfold main, main_body. rewrite Hmk, Hg.
  apply os_makedirs_ok in Hmk as (Hdir & Hd & _).
  pose proof (GetHourFolders.get_hour_folders_digits _ _ _ Hg) as Hdigits.
  rewrite List.Forall_forall in Hdigits.
  destruct (for_hour_folders_returns w folders (create_spark_session st1)) as [Hr Hfiles].
  { exact Hdir. }
  { intros folder Hin. destruct (Hdigits folder Hin) as [_ Hdigit].
    split; [exact Hdigit|]. split; [|now apply Hrows].
    simpl. rewrite Hd. intros [Ho|Ho]%elem_of_union.
    - apply elem_of_singleton in Ho. now apply (output_file_not_output_path folder).
    - now apply (Hnd folder). }
  destruct (for_hour_folders w folders (create_spark_session st1)) as [st3 r].
  simpl in *. now repeat split.
Qed.

(** The theorem on the run over hours 14 and 15. *)
Lemma main_succeeds_witness :
  snd (run clean_tree fresh_state) = Return tt
  /\ is_Some (files (fst (run clean_tree fresh_state)) !! out14)
  /\ is_Some (files (fst (run clean_tree fresh_state)) !! out15).
Proof.
  destruct (main_succeeds (tree_world clean_tree) fresh_state
              {| dirs := {[output_path]} ∪ dirs fresh_state; files := ∅;
                 stdout := []; spark_running := false |}
              ["2024112314"; "2024112315"]) as (Hr & _ & Hfiles).
  - reflexivity.
  - reflexivity.
  - intros folder [<-|[<-|[]]] Hin; unfold fresh_state in Hin; simpl in Hin;
      apply elem_of_singleton in Hin; vm_compute in Hin; discriminate.
  - intros folder [<-|[<-|[]]] path df [<-|[]] Hq; vm_compute in Hq;
      injection Hq as <-; eexists; (split; [reflexivity|]);
      repeat constructor; discriminate.
  - split; [exact Hr|]. split.
    + apply (Hfiles "2024112314"); [now left|]. vm_compute. discriminate.
    + apply (Hfiles "2024112315"); [right; now left|]. vm_compute. discriminate.
Defined.

(** *** Runs that find no row *)

Lemma for_hour_folders_without_rows (w : World) (folders : list string) :
  (forall folder path, In folder folders -> In path (log_files_of w folder) ->
                       gives_no_row w path) ->
  forall st, snd (for_hour_folders w folders st) = Return tt
             /\ same_output (fst (for_hour_folders w folders st)) st.
Proof.
  induction folders as [|folder rest IH]; intros Hnone st; simpl.
  - split; [reflexivity|apply same_output_refl].
  - destruct (Runs.folder_without_rows_writes_nothing w folder st) as [Hr Hs].
    { intros path. apply Hnone. now left. }
    destruct (process_folder w folder st) as [st1 r]. simpl in *. subst r.
    destruct (IH (fun f p Hf => Hnone f p (or_intror Hf)) st1) as [Hr' Hs'].
    split; [exact Hr'|]. eapply same_output_trans; eassumption.
Qed.

(** X5.  When the output directory can be made and the input root can be
    listed, a run that finds no row (every log file of every hour folder
    is refused by Spark or gives no row, or there is no log file at all)
    returns normally and leaves every file as it was: no file of an hour
    is created, not even an empty one. *)
Theorem run_without_rows_writes_nothing (w : World) (st st1 : state)
    (folders : list string) :
  os_makedirs output_path st = Return st1 ->
  get_hour_folders w input_path = Return folders ->
  (forall folder path, In folder folders -> In path (log_files_of w folder) ->
                       gives_no_row w path) ->
  snd (main w st) = Return tt /\ files (fst (main w st)) = files st.
Proof.
  intros Hmk Hg Hnone. unfold main, main_body. rewrite Hmk, Hg.
  apply os_makedirs_ok in Hmk as (_ & _ & Hf & _).
  destruct (for_hour_folders_without_rows w folders Hnone (create_spark_session st1))
    as (Hr & _ & Hfiles & _).
  destruct (for_hour_folders w folders (create_spark_session st1)) as [st3 r].
  simpl in *. split; [exact Hr|congruence].
Qed.

(** The theorem on an hour whose only log file Spark cannot read. *)
Lemma run_without_rows_writes_nothing_witness :
  snd (main unreadable_hour_world fresh_state) = Return tt
  /\ files (fst (main unreadable_hour_world fresh_state)) = files fresh_state.
Proof.
  apply (run_without_rows_writes_nothing unreadable_hour_world fresh_state
           {| dirs := {[output_path]} ∪ dirs fresh_state; files := ∅;
              stdout := []; spark_running := false |} ["2024112314"]).
  - reflexivity.
  - reflexivity.
  - intros folder path _ _. left. eexists. reflexivity.
Defined.

(** *** A null total *)

Lemma add_row_null {V} (add : V -> V -> V) (zero : V)
    (d : dict (option string) V) (r : Row V) :
  total_price r = None -> add_row add zero d r = Raise none_amount.
Proof.
  intros Hnull. unfold add_row. rewrite Hnull.
  destruct (dict_get (product_name r) d) as [t|] eqn:Hp.
  - now rewrite Hp.
  - now rewrite Merge.dict_get_set, decide_True.
Qed.

Lemma add_rows_null {V} (add : V -> V -> V) (zero : V) (rows : list (Row V)) :
  (exists r, In r rows /\ total_price r = None) ->
  forall d, add_rows add zero d rows = Raise none_amount.
Proof.
  induction rows as [|r rows IH]; intros (r0 & Hin & Hnull) d; [easy|]. simpl.
  destruct (add_row add zero d r) as [d1|e] eqn:Hr.
  - apply IH. exists r0. split; [|exact Hnull].
    destruct Hin as [->|Hin]; [|exact Hin].
    now rewrite (add_row_null add zero d r0 Hnull) in Hr.
  - now apply Abort.add_row_raise in Hr as [-> _].
Qed.

(** X6.  When the queries of the log files of an hour folder all run, one
    null total among the rows collected for the hour ends the loop over
    the hour folders: adding it to the total of its product raises
    [TypeError], nothing is written for the hour, and the hour folders
    that come after it are not looked at. *)
Theorem null_total_ends_the_run (w : World) (folder : string) (rest : list string)
    (st : state) :
  collect_never_fails w (log_files_of w folder) ->
  (exists r, In r (hour_rows w folder) /\ total_price r = None) ->
  for_hour_folders w (folder :: rest) st
    = (fst (process_folder w folder st), Raise none_amount)
  /\ same_output (fst (process_folder w folder st)) st.
Proof.
  intros Hc Hnull. simpl. unfold process_folder. fold (log_files_of w folder).
  pose proof (Merge.for_log_files_adds_rows w _ Hc [] st) as Hr.
  rewrite (add_rows_null _ _ _ Hnull) in Hr.
  pose proof (for_log_files_same_output w (log_files_of w folder) [] st) as Hs.
  destruct (for_log_files w (log_files_of w folder) [] st) as [st1 r].
  simpl in *. subst r. now split.
Qed.

(** The theorem on two hours, the first of which has a null total: the
    second one is not written. *)
Lemma null_total_ends_the_run_witness :
  snd (for_hour_folders null_total_world ["2024112314"; "2024112315"] output_dir_state)
    = Raise none_amount
  /\ files (fst (for_hour_folders null_total_world ["2024112314"; "2024112315"]
                   output_dir_state)) = ∅.
Proof.
  destruct (null_total_ends_the_run null_total_world "2024112314" ["2024112315"]
              output_dir_state) as [Hr (_ & Hf & _)].
  - intros path df [<-|[]] Hq. vm_compute in Hq. injection Hq as <-.
    eexists. reflexivity.
  - eexists. split; [right; now left|reflexivity].
  - rewrite Hr. simpl. split; [reflexivity|exact Hf].
Defined.

(** *** A log file that Spark cannot read *)

(** What the loop over the log files returns does not depend on the state
    it starts in. *)
Lemma for_log_files_result (w : World) (log_files : list string) :
  forall hr a b,
    snd (for_log_files w log_files hr a) = snd (for_log_files w log_files hr b).
Proof.
  induction log_files as [|path rest IH]; intros hr a b; simpl; [reflexivity|].
  unfold process_log_file. destruct (log_totals (spark w) path) as [df|e].
  - destruct (collect df) as [rows|e1]; simpl; [|reflexivity].
    destruct (add_rows _ _ hr rows); simpl; [apply IH|reflexivity].
  - apply IH.
Qed.

Lemma same_output_sym (a b : state) : same_output a b -> same_output b a.
Proof. intros (?&?&?). now repeat split. Qed.

(** X7.  A log file for which Spark cannot build the query is reported
    and counts for nothing: wherever it stands among the log files of an
    hour, the totals of the hour (or the exception that ends the loop)
    are those of the loop without that file, and so are the directories
    and files. *)
Theorem unreadable_file_changes_nothing (w : World) (before : list string)
    (path : string) (after : list string) (hr : hour_dict) (st : state) (e : exn) :
  log_totals (spark w) path = Raise e ->
  process_log_file (spark w) path st
    = (print ("Error processing file " +:+ path +:+ ": " +:+ exn_str e) st, None)
  /\ snd (for_log_files w (before ++ path :: after) hr st)
     = snd (for_log_files w (before ++ after) hr st)
  /\ same_output (fst (for_log_files w (before ++ path :: after) hr st))
       (fst (for_log_files w (before ++ after) hr st)).
Proof.
  intros Hq. split; [unfold process_log_file; now rewrite Hq|]. split.
  - revert hr st. induction before as [|p before IH]; intros hr st; simpl.
    + unfold process_log_file. rewrite Hq. apply for_log_files_result.
    + destruct (process_log_file (spark w) p st) as [st1 [df|]]; [|apply IH].
      destruct (collect df) as [rows|e1]; [|reflexivity].
      destruct (add_rows _ _ hr rows); [apply IH|reflexivity].
  - eapply same_output_trans; [apply for_log_files_same_output|].
    apply same_output_sym, for_log_files_same_output.
Qed.

(** The theorem on a folder whose first file is missing. *)
Lemma unreadable_file_changes_nothing_witness :
  snd (for_log_files unreadable_file_world
         ["./logs/2024112314/a.txt"; "./logs/2024112314/b.txt"] [] fresh_state)
  = snd (for_log_files unreadable_file_world ["./logs/2024112314/b.txt"] [] fresh_state).
Proof.
  apply (unreadable_file_changes_nothing unreadable_file_world []
           "./logs/2024112314/a.txt" ["./logs/2024112314/b.txt"] [] fresh_state
           (path_not_found example_engine "./logs/2024112314/a.txt")).
  reflexivity.
Defined.

(** *** The file of an hour, from the rows of its log files *)

Lemma dict_in_get_any {V} (d : dict (option string) V) (q : option string) (t : V) :
  NoDup (dict_keys d) -> In (q, t) d -> dict_get q d = Some t.
Proof.
  induction d as [|[k v] d IH]; simpl; [easy|]. intros Hnd Hin.
  apply NoDup_cons in Hnd as [Hk Hnd].
  destruct Hin as [[= -> ->]|Hin]; [now rewrite decide_True|].
  destruct (decide (q = k)) as [->|]; [|now apply IH].
  elim Hk. apply list_elem_of_In. change k with (fst (k, t)). now apply in_map.
Qed.

(** A new product goes behind the products that are there. *)
Lemma add_row_keys {V} (add : V -> V -> V) (zero : V)
    (d d' : dict (option string) V) (r : Row V) :
  add_row add zero d r = Return d' ->
  dict_keys d'
  = if decide (product_name r ∈ dict_keys d) then dict_keys d
    else dict_keys d ++ [product_name r].
Proof.
  unfold add_row. destruct (dict_get (product_name r) d) as [t|] eqn:Hp.
  - rewrite Hp. destruct (total_price r); [|discriminate]. intros [= <-].
    apply Merge.dict_set_keys.
  - rewrite Merge.dict_get_set, decide_True by reflexivity.
    destruct (total_price r); [|discriminate]. intros [= <-].
    rewrite !Merge.dict_set_keys.
    destruct (decide (product_name r ∈ dict_keys d)) as [Hin|Hnin].
    + now rewrite decide_True.
    + rewrite decide_True; [reflexivity|]. apply elem_of_app. right. now left.
Qed.

Lemma add_rows_keys {V} (add : V -> V -> V) (zero : V) (rows : list (Row V)) :
  forall d d', add_rows add zero d rows = Return d' ->
    dict_keys d'
    = fold_left (fun seen k => if decide (k ∈ seen) then seen else seen ++ [k])
        (map product_name rows) (dict_keys d).
Proof.
  induction rows as [|r rows IH]; simpl; intros d d' H; [now injection H as <-|].
  destruct (add_row add zero d r) as [d1|e] eqn:Hr; [|discriminate].
  rewrite (IH _ _ H). now rewrite (add_row_keys _ _ _ _ _ Hr).
Qed.

Lemma output_text_lines (folder : string) (rows : list (Row float)) (hr : hour_dict) :
  NoDup (dict_keys hr) ->
  (forall q, dict_get q hr
     = total_after PrimFloat.add 0%float None (amounts_of q rows)) ->
  output_text (format_datetime folder) hr
  = fold_right String.append "" (map (total_line folder rows) (dict_keys hr)).
Proof.
  intros Hnd Hget. unfold output_text, dict_keys. rewrite map_map. f_equal.
  apply map_ext_in. intros [q t] Hin. unfold output_line, total_line. simpl.
  do 4 f_equal. apply (dict_in_get_any _ _ _ Hnd) in Hin.
  rewrite Hget in Hin. unfold total_after in Hin.
  destruct (amounts_of q rows); [discriminate|]. now injection Hin as <-.
Qed.

Lemma append_text_some (old : option string) (text : string) :
  text <> "" -> append_text old text = Some (default "" old +:+ text).
Proof. now destruct text. Qed.

Lemma append_text_app (old : option string) (a b : string) :
  append_text (append_text old a) b = append_text old (a +:+ b).
Proof.
  destruct a as [|c a]; [now rewrite app_nil_l|].
  destruct b as [|c' b]; [now rewrite app_empty_r|].
  rewrite app_cons. simpl. now rewrite app_assoc_s, app_cons.
Qed.

Lemma output_text_not_empty (date_str : string) (hr : hour_dict) :
  hr <> [] -> output_text date_str hr <> "".
Proof.
  destruct hr as [|item hr]; [easy|]. intros _ H.
  apply (f_equal String.length) in H. unfold output_text in H. simpl in H.
  unfold output_line in H. rewrite !length_app in H. simpl in H. lia.
Qed.

(** What the processing of an hour folder does to the file of the hour. *)
Lemma process_folder_text (w : World) (folder : string) (st : state) :
  output_path ∈ dirs st -> output_file folder ∉ dirs st -> isdigit folder = true ->
  rows_have_amounts w (log_files_of w folder) ->
  snd (process_folder w folder st) = Return tt
  /\ files (fst (process_folder w folder st)) !! output_file folder
     = append_text (files st !! output_file folder) (hour_text w folder)
  /\ (hour_rows w folder <> [] -> hour_text w folder <> "").
Proof.
  intros Hdir Hnd Hd Hrows. unfold process_folder. fold (log_files_of w folder).
  destruct (for_log_files_totals w _ st Hrows) as (hr & Hr & Hget & Hkeys & Hadd).
  pose proof (for_log_files_same_output w (log_files_of w folder) [] st) as (Hds & Hfs & _).
  destruct (for_log_files w (log_files_of w folder) [] st) as [st1 r].
  simpl in *. subst r. rewrite <- Hds in Hdir, Hnd.
  destruct (write_results_returns folder hr st1 Hdir Hd Hnd) as [Hw Hfile].
  assert (Htext : output_text (format_datetime folder) hr = hour_text w folder).
  { rewrite (output_text_lines folder _ hr Hkeys Hget).
    now rewrite (add_rows_keys _ _ _ _ _ Hadd). }
  split; [exact Hw|]. split.
  - rewrite <- Htext, <- Hfs. destruct hr as [|item hr]; [reflexivity|].
    rewrite Hfile by easy. symmetry. now apply append_text_some, output_text_not_empty.
  - intros Hne. rewrite <- Htext. apply output_text_not_empty.
    apply (add_rows_not_nil _ _ _ _ _ Hadd). now right.
Qed.

(** X8.  The hour of a folder, from end to end.  The folder is named by
    digits, the output directory is there and no directory stands where
    the file of the hour goes.  When the rows that Spark gives for the
    log files of the folder all hold an amount and there is at least one,
    the folder is processed without error and its file gets, behind what
    it held, one line per product, in the order in which the rows first
    name the products: the date of the folder, the product, and the sum
    from [0.0] of the amounts of the product in the order of the rows,
    written with [.2f]. *)
Theorem process_folder_writes_totals (w : World) (folder : string) (st : state) :
  output_path ∈ dirs st -> output_file folder ∉ dirs st -> isdigit folder = true ->
  rows_have_amounts w (log_files_of w folder) ->
  hour_rows w folder <> [] ->
  snd (process_folder w folder st) = Return tt
  /\ files (fst (process_folder w folder st)) !! output_file folder
     = Some (default "" (files st !! output_file folder)
             +:+ fold_right String.append ""
                   (map (total_line folder (hour_rows w folder))
                        (first_seen (map product_name (hour_rows w folder))))).
Proof.
  intros Hdir Hnd Hd Hrows Hne.
  destruct (process_folder_text w folder st Hdir Hnd Hd Hrows) as (Hr & Hfile & Htext).
  split; [exact Hr|]. rewrite Hfile. now apply append_text_some, Htext.
Qed.

(** The theorem on the widgets of hour 14. *)
Lemma process_folder_writes_totals_witness :
  files (fst (process_folder (tree_world widget_tree) "2024112314" output_dir_state))
    !! out14
  = Some ("2024/11/23 14|Widget|15.00" +:+ newline).
Proof.
  destruct (process_folder_writes_totals (tree_world widget_tree) "2024112314"
              output_dir_state) as [_ Hfile].
  - reflexivity.
  - intros Hin. unfold output_dir_state in Hin. simpl in Hin.
    apply elem_of_singleton in Hin. vm_compute in Hin. discriminate.
  - reflexivity.
  - intros path df [<-|[]] Hq. vm_compute in Hq. injection Hq as <-.
    eexists. split; [reflexivity|]. repeat constructor. discriminate.
  - vm_compute. discriminate.
  - change out14 with (output_file "2024112314"). rewrite Hfile. vm_compute. reflexivity.
Defined.

(** *** Running again *)

(** The write of an hour in two states that have the same directories:
    the same outcome, and the same text behind the same file. *)
Lemma write_results_twice (folder : string) (hr : hour_dict) (a b : state) :
  dirs a = dirs b ->
  snd (write_results folder hr a) = snd (write_results folder hr b)
  /\ exists written : string -> string, forall path,
       files (fst (write_results folder hr a)) !! path
       = append_text (files a !! path) (written path)
       /\ files (fst (write_results folder hr b)) !! path
          = append_text (files b !! path) (written path).
Proof.
  intros Hd. unfold write_results. destruct hr as [|item hr].
  { split; [reflexivity|]. exists (fun _ => ""). now split. }
  set (hr' := item :: hr). assert (Hne : hr' <> []) by easy.
  unfold dict_truthy, hr' at 1 3 5 7. unfold open_append. rewrite <- Hd.
  destruct (decide (output_file folder ∈ dirs a)).
  { split; [reflexivity|]. exists (fun _ => ""). now split. }
  destruct (decide (parent_dir (output_file folder) ∈ dirs a)).
  2:{ split; [reflexivity|]. exists (fun _ => ""). now split. }
  split; [reflexivity|].
  exists (fun path => if decide (path = output_file folder)
                      then output_text (format_datetime folder) hr' else "").
  intros path. simpl. destruct (decide (path = output_file folder)) as [->|Hp].
  - rewrite !lookup_insert_eq, !append_text_some by now apply output_text_not_empty.
    now split.
  - rewrite !lookup_insert_ne by congruence. now split.
Qed.

Lemma process_folder_twice (w : World) (folder : string) (a b : state) :
  dirs a = dirs b ->
  snd (process_folder w folder a) = snd (process_folder w folder b)
  /\ exists written : string -> string, forall path,
       files (fst (process_folder w folder a)) !! path
       = append_text (files a !! path) (written path)
       /\ files (fst (process_folder w folder b)) !! path
          = append_text (files b !! path) (written path).
Proof.
  intros Hd. unfold process_folder. fold (log_files_of w folder).
  pose proof (for_log_files_result w (log_files_of w folder) [] a b) as Hr.
  pose proof (for_log_files_same_output w (log_files_of w folder) [] a) as (Hda & Hfa & _).
  pose proof (for_log_files_same_output w (log_files_of w folder) [] b) as (Hdb & Hfb & _).
  destruct (for_log_files w (log_files_of w folder) [] a) as [a1 ra].
  destruct (for_log_files w (log_files_of w folder) [] b) as [b1 rb].
  simpl in *. subst rb. destruct ra as [hr|e].
  - destruct (write_results_twice folder hr a1 b1) as [Hw (written & Hwr)]; [congruence|].
    split; [exact Hw|]. exists written. intros path. rewrite <- Hfa, <- Hfb. apply Hwr.
  - split; [reflexivity|]. exists (fun _ => ""). intros path. simpl.
    now rewrite Hfa, Hfb.
Qed.

Lemma for_hour_folders_twice (w : World) (folders : list string) :
  forall a b,
    dirs a = dirs b ->
    snd (for_hour_folders w folders a) = snd (for_hour_folders w folders b)
    /\ exists written : string -> string, forall path,
         files (fst (for_hour_folders w folders a)) !! path
         = append_text (files a !! path) (written path)
         /\ files (fst (for_hour_folders w folders b)) !! path
            = append_text (files b !! path) (written path).
Proof.
  induction folders as [|folder rest IH]; intros a b Hd; simpl.
  { split; [reflexivity|]. exists (fun _ => ""). now split. }
  destruct (process_folder_twice w folder a b Hd) as [Hr (w1 & H1)].
  destruct (process_folder_dirs w folder a) as [Hda _].
  destruct (process_folder_dirs w folder b) as [Hdb _].
  destruct (process_folder w folder a) as [a1 ra].
  destruct (process_folder w folder b) as [b1 rb].
  simpl in *. subst rb. destruct ra as [[]|e].
  - destruct (IH a1 b1) as [Hr' (w2 & H2)]; [congruence|].
    split; [exact Hr'|]. exists (fun p => w1 p +:+ w2 p). intros path.
    rewrite <- !append_text_app. destruct (H1 path) as [<- <-]. apply H2.
  - split; [reflexivity|]. now exists w1.
Qed.

Lemma main_body_twice (w : World) (a b : state) :
  dirs a = dirs b ->
  snd (main_body w a) = snd (main_body w b)
  /\ dirs (fst (main_body w a)) = dirs a
  /\ exists written : string -> string, forall path,
       files (fst (main_body w a)) !! path = append_text (files a !! path) (written path)
       /\ files (fst (main_body w b)) !! path
          = append_text (files b !! path) (written path).
Proof.
  intros Hd. unfold main_body. destruct (get_hour_folders w input_path) as [folders|e].
  - destruct (for_hour_folders_twice w folders a b Hd) as [Hr Hw].
    split; [exact Hr|]. split; [|exact Hw]. apply for_hour_folders_dirs.
  - split; [reflexivity|]. split; [reflexivity|]. exists (fun _ => ""). now split.
Qed.

(** X9.  A second run over the same logs does to the files what the
    first run did: it ends the same way, and behind every file that the
    first run wrote text to it writes the same text once more.  (A file
    of an hour is never replaced: after two runs it holds its lines
    twice.) *)
Theorem second_run_appends_again (w : World) (st : state) :
  snd (main w (fst (main w st))) = snd (main w st)
  /\ exists written : string -> string, forall path,
       files (fst (main w st)) !! path = append_text (files st !! path) (written path)
       /\ files (fst (main w (fst (main w st)))) !! path
          = append_text (files (fst (main w st)) !! path) (written path).
Proof.
  destruct (os_makedirs output_path st) as [st1|e] eqn:Hmk.
  - assert (Hfirst : main w st
                     = (spark_stop (fst (main_body w (create_spark_session st1))),
                        snd (main_body w (create_spark_session st1)))).
    { unfold main. rewrite Hmk. now destruct (main_body w (create_spark_session st1)). }
    apply os_makedirs_ok in Hmk as (Hdir & _ & Hf & _).
    set (a := create_spark_session st1) in *.
    set (first := spark_stop (fst (main_body w a))) in *.
    destruct (main_body_twice w a (create_spark_session first)) as (Hr & Hd & written & Hw).
    { destruct (main_body_twice w a a eq_refl) as (_ & Hd & _). now rewrite <- Hd. }
    assert (Hsecond : main w first
                      = (spark_stop (fst (main_body w (create_spark_session first))),
                         snd (main_body w (create_spark_session first)))).
    { unfold main, os_makedirs. rewrite decide_True.
      - now destruct (main_body w (create_spark_session first)).
      - unfold first. simpl. now rewrite Hd. }
    rewrite Hfirst. simpl. rewrite Hsecond. simpl. split; [now rewrite Hr|].
    exists written. intros path. destruct (Hw path) as [Ha Hb].
    split; [now rewrite <- Hf|exact Hb].
  - assert (Hfirst : main w st = (st, Raise e)) by (unfold main; now rewrite Hmk).
    rewrite Hfirst. simpl. rewrite Hfirst. simpl. split; [reflexivity|].
    exists (fun _ => ""). now split.
Qed.

(** *** The files of all the hours *)

Lemma for_hour_folders_texts (w : World) (folders : list string) :
  NoDup folders ->
  forall st,
    output_path ∈ dirs st ->
    (forall folder, In folder folders ->
        isdigit folder = true /\ (output_file folder ∉ dirs st)
        /\ rows_have_amounts w (log_files_of w folder)) ->
    forall folder, In folder folders ->
      files (fst (for_hour_folders w folders st)) !! output_file folder
      = append_text (files st !! output_file folder) (hour_text w folder).
Proof.
  induction 1 as [|f rest Hnin Hnd IH]; intros st Hdir Hall folder Hin; [easy|].
  simpl. destruct (Hall f (or_introl eq_refl)) as (Hd & Hndir & Hrows).
  destruct (process_folder_text w f st Hdir Hndir Hd Hrows) as (Hr & Hfile & _).
  destruct (process_folder_dirs w f st) as [Hds _].
  pose proof (process_folder_other_file w f st) as Hother.
  destruct (process_folder w f st) as [st1 r]. simpl in *. subst r.
  assert (Hdiff : forall f', In f' rest -> output_file f <> output_file f').
  { intros f' Hf' Heq. apply Hnin, list_elem_of_In.
    destruct (Hall f' (or_intror Hf')) as (Hd' & _).
    now rewrite (Hours.output_file_inj f f' Hd Hd' Heq). }
  destruct Hin as [<-|Hin].
  - rewrite for_hour_folders_other_file; [exact Hfile|]. exact Hdiff.
  - rewrite (IH st1).
    + rewrite Hother; [reflexivity|]. intros Heq. now apply (Hdiff folder Hin).
    + now rewrite Hds.
    + intros f' Hf'. rewrite Hds. apply Hall. now right.
    + exact Hin.
Qed.

(** X15.  A whole run, from end to end.  When the output directory can be
    made, the listing of the input root names each hour folder once, no
    directory stands where the file of an hour goes, and the rows that
    Spark gives for the log files all hold an amount, the run puts behind
    the file of every hour folder the lines of that hour and nothing
    else: one line per product, in the order in which the rows first name
    the products, with the sum of its amounts; the file of an hour
    without rows is left as it was, or left out. *)
Theorem main_writes_every_hour (w : World) (st st1 : state) (folders : list string)
    (folder : string) :
  os_makedirs output_path st = Return st1 ->
  get_hour_folders w input_path = Return folders ->
  NoDup folders ->
  (forall folder, In folder folders -> output_file folder ∉ dirs st) ->
  (forall folder, In folder folders -> rows_have_amounts w (log_files_of w folder)) ->
  In folder folders ->
  files (fst (main w st)) !! output_file folder
  = append_text (files st !! output_file folder) (hour_text w folder).
Proof.
  intros Hmk Hg Hnodup Hnd Hrows Hin. unfold main, main_body. rewrite Hmk, Hg.
  apply os_makedirs_ok in Hmk as (Hdir & Hd & Hf & _).
  pose proof (GetHourFolders.get_hour_folders_digits _ _ _ Hg) as Hdigits.
  rewrite List.Forall_forall in Hdigits.
  pose proof (for_hour_folders_texts w folders Hnodup (create_spark_session st1)) as Ht.
  destruct (for_hour_folders w folders (create_spark_session st1)) as [st3 r].
  simpl in *. rewrite Ht; [now rewrite Hf|exact Hdir| |exact Hin].
  intros f Hfin. destruct (Hdigits f Hfin) as [_ Hdigit].
  split; [exact Hdigit|]. split; [|now apply Hrows].
  rewrite Hd. intros [Ho|Ho]%elem_of_union.
  - apply elem_of_singleton in Ho. now apply (output_file_not_output_path f).
  - now apply (Hnd f).
Qed.

(** The theorem on the run over hours 14 and 15: the file of hour 15. *)
Lemma main_writes_every_hour_witness :
  files (fst (run clean_tree fresh_state)) !! out15
  = Some ("2024/11/23 15|Gadget|7.25" +:+ newline).
Proof.
  change out15 with (output_file "2024112315"). unfold run.
  rewrite (main_writes_every_hour (tree_world clean_tree) fresh_state
             {| dirs := {[output_path]} ∪ dirs fresh_state; files := ∅;
                stdout := []; spark_running := false |}
             ["2024112314"; "2024112315"] "2024112315").
  - vm_compute. reflexivity.
  - reflexivity.
  - reflexivity.
  - apply (bool_decide_unpack _). vm_compute. exact I.
  - intros folder [<-|[<-|[]]] Hin; unfold fresh_state in Hin; simpl in Hin;
      apply elem_of_singleton in Hin; vm_compute in Hin; discriminate.
  - intros folder [<-|[<-|[]]] path df [<-|[]] Hq; vm_compute in Hq;
      injection Hq as <-; eexists; (split; [reflexivity|]);
      repeat constructor; discriminate.
  - right. now left.
Defined.

(** *** Prices that are numbers *)

(** The rows of a query hold an amount when every price is a number. *)
Lemma group_sum_amounts (engine : Engine) (lines : list string)
    (records : list (option string * option float)) :
  permutes engine ->
  (forall r, In r records -> snd r <> None) ->
  Forall has_amount (group_sum engine lines records).
Proof.
  intros Hperm Hprices. apply List.Forall_forall. intros [q t] Hr.
  apply (FileTotals.group_sum_rows engine lines records Hperm) in Hr as [Hq ->].
  unfold has_amount, group_total. simpl.
  apply in_map_iff in Hq as ([k v] & <- & Hin). simpl.
  destruct v as [x|]; [|now elim (Hprices _ Hin)].
  pose proof (FileTotals.group_prices_in k x records Hin) as Hne.
  now destruct (group_prices k records).
Qed.

(** X16.  A log file for which Spark reads lines without quote
    characters, all of which (the blank ones apart) carry a price that
    Spark can cast to a float, never gives a null total: when the query
    for it can be built, it runs, and each of its rows holds an amount, in
    whatever order Spark returns the rows and however it adds up the
    prices.  Adding the rows of such a file to the totals of the hour
    cannot raise. *)
Theorem numeric_prices_give_amounts (cast_float : string -> option float)
    (engine : Engine) (read_lines : string -> option (list string)) (path : string)
    (lines : list string) (df : DataFrame) :
  permutes engine ->
  read_lines path = Some lines ->
  Forall (fun line => quote_free line = true) lines ->
  (forall line, In line lines -> nonblank line = true ->
                snd (record_of cast_float line) <> None) ->
  log_totals (csv_session cast_float engine read_lines) path = Return df ->
  exists rows,
    collect df = Return rows /\ Forall has_amount rows
    /\ forall hr, exists hr', add_rows PrimFloat.add 0%float hr rows = Return hr'.
Proof.
  intros Hperm Hread _ Hprices. unfold csv_session, log_totals. rewrite Hread.
  unfold query_lines. destruct (_ =? 4); [|discriminate]. intros [= <-].
  set (records := map (record_of cast_float) (List.filter nonblank lines)).
  assert (Hall : Forall has_amount (group_sum engine lines records)).
  { apply group_sum_amounts; [exact Hperm|]. intros r Hr.
    apply in_map_iff in Hr as (line & <- & Hline).
    apply filter_In in Hline as [Hline Hnb]. now apply Hprices. }
  eexists. split; [reflexivity|]. split; [exact Hall|]. intros hr.
  destruct (Merge.add_rows_get PrimFloat.add 0%float _ hr Hall) as (hr' & H & _).
  now exists hr'.
Qed.

(** The theorem on the two sales of widgets. *)
Lemma numeric_prices_give_amounts_witness :
  exists rows,
    collect {| collect := Return [mkRow (Some "Widget") (Some 15%float)] |} = Return rows
    /\ Forall has_amount rows.
Proof.
  destruct (numeric_prices_give_amounts example_cast example_engine
              (fun _ => Some widget_lines)
              "./logs/2024112314/a.txt" widget_lines
              {| collect := Return [mkRow (Some "Widget") (Some 15%float)] |})
    as (rows & Hc & Hall & _).
  - intros lines rows. reflexivity.
  - reflexivity.
  - repeat constructor.
  - intros line [<-|[<-|[]]] _; vm_compute; discriminate.
  - vm_compute. reflexivity.
  - now exists rows.
Defined.

(** *** From the lines of the log files to the amounts of the hour *)

Section Lines.
Context (cast_float : string -> option float) (engine : Engine)
        (read_lines : string -> option (list string)).

Lemma amounts_of_absent (q : option string) (rows : list (Row float)) :
  ~ In q (map product_name rows) -> amounts_of q rows = [].
Proof.
  induction rows as [|[k v] rows IH]; [reflexivity|]. intros Hq.
  unfold amounts_of in *.
  change (omap ?f (?x :: ?l))
    with (match f x with Some y => y :: omap f l | None => omap f l end).
  cbn [product_name total_price]. rewrite decide_False by (intros ->; apply Hq; now left).
  apply IH. intros Hin. apply Hq. now right.
Qed.

(** The amounts of a product among rows that list each product once: the
    amount of its row, when the row holds one. *)
Lemma amounts_of_unique (q : option string) (rows : list (Row float)) :
  NoDup (map product_name rows) ->
  (forall x, In (mkRow q (Some x)) rows -> amounts_of q rows = [x])
  /\ ((forall x, ~ In (mkRow q (Some x)) rows) -> amounts_of q rows = []).
Proof.
  induction rows as [|[k v] rows IH]; [now split|]. intros Hnd.
  cbn [map product_name] in Hnd. apply NoDup_cons in Hnd as [Hk Hnd].
  rewrite list_elem_of_In in Hk. destruct (IH Hnd) as [IH1 IH2].
  assert (Hcons : amounts_of q (mkRow k v :: rows)
                  = match (if decide (k = q) then v else None) with
                    | Some y => y :: amounts_of q rows
                    | None => amounts_of q rows
                    end) by reflexivity.
  rewrite Hcons. split.
  - intros x [[= -> ->]|Hin].
    + rewrite decide_True by reflexivity. now rewrite amounts_of_absent.
    + rewrite decide_False; [now apply IH1|]. intros ->. apply Hk.
      now apply (in_map product_name) in Hin.
  - intros Hnone. destruct (decide (k = q)) as [->|Hne].
    + destruct v as [x|]; [elim (Hnone x); now left|]. now apply amounts_of_absent.
    + apply IH2. intros x Hin. apply (Hnone x). now right.
Qed.

(** The amounts that a log file gives a product. *)
Lemma file_rows_amounts (path : string) (p : string) :
  permutes engine -> cast_float "" = None -> p <> "" ->
  (forall lines line, read_lines path = Some lines -> In line lines ->
                      nonblank line = true -> length (csv_fields line) = 4) ->
  amounts_of (Some p)
    (match log_totals (csv_session cast_float engine read_lines) path with
     | Return df => match collect df with Return rows => rows | Raise _ => [] end
     | Raise _ => []
     end)
  = file_amount cast_float engine read_lines p path.
Proof.
  intros Hperm Hempty Hp Hfields. unfold csv_session, log_totals, file_amount.
  destruct (read_lines path) as [lines|] eqn:Hread; [|reflexivity].
  specialize (Hfields lines).
  destruct (List.filter nonblank lines) as [|first rest] eqn:Ed.
  - unfold query_lines, spec_total. rewrite Ed.
    rewrite <- (FileTotals.spec_prices_nonblank cast_float p lines), Ed. reflexivity.
  - destruct (FileTotals.query_rows cast_float engine lines Hperm Hempty)
      as (rows & Hq & Hnd & Hrows).
    { exists first, rest. split; [exact Ed|]. apply Hfields; [reflexivity| |].
      - assert (Hin : In first (List.filter nonblank lines)) by (rewrite Ed; now left).
        now apply filter_In in Hin.
      - assert (Hin : In first (List.filter nonblank lines)) by (rewrite Ed; now left).
        now apply filter_In in Hin. }
    { apply List.Forall_forall. intros l Hl. destruct (nonblank l) eqn:Hnb.
      - rewrite (Hfields l eq_refl Hl Hnb). lia.
      - rewrite (FileTotals.blank_line_fields l Hnb). simpl. lia. }
    rewrite Hq. cbn [collect].
    destruct (amounts_of_unique (Some p) rows Hnd) as [Hone Hnone].
    destruct (spec_total cast_float (add_up engine lines (Some p)) p lines) as [x|] eqn:Ex.
    + apply Hone, Hrows. split; [|symmetry; exact Ex].
      assert (Hne : spec_prices cast_float p lines <> []).
      { unfold spec_total in Ex. now destruct (spec_prices cast_float p lines). }
      apply FileTotals.spec_prices_in in Hne as (l & y & Hl & Hparse).
      apply FileTotals.spec_parse_line_fields in Hparse as (_ & Hnb & Hc).
      exists l. split; [now apply filter_In|]. rewrite Hc. unfold null_if_empty.
      now destruct (String.eqb_spec p "").
    + apply Hnone. intros x Hin. apply Hrows in Hin as [_ Hx].
      change (default "" (Some p)) with p in Hx. now rewrite Ex in Hx.
Qed.

(** X17.  From the lines to the totals.  When the lines that Spark reads
    for the log files of an hour folder hold no quote character and (the
    blank ones apart) have four fields each and a price that Spark can
    cast to a float, no row of the hour has a null total, in whatever
    order Spark returns the rows, and the amounts that [main] adds up for
    a product (of a name that is not empty) are, file after file, the sum
    that Spark takes of the prices of the product in the lines read for
    that file: a file without the product, or a path for which nothing is
    read, gives nothing.  For a file that Spark reads as one partition
    that sum is taken from [0.0] in the order of the lines. *)
Theorem well_formed_logs_are_summed (w : World) (folder : string) (p : string) :
  spark w = csv_session cast_float engine read_lines ->
  permutes engine ->
  cast_float "" = None -> p <> "" ->
  (forall path lines line,
      In path (log_files_of w folder) -> read_lines path = Some lines ->
      In line lines ->
      quote_free line = true
      /\ (nonblank line = true ->
          length (csv_fields line) = 4 /\ snd (record_of cast_float line) <> None)) ->
  rows_have_amounts w (log_files_of w folder)
  /\ amounts_of (Some p) (hour_rows w folder)
     = flat_map (file_amount cast_float engine read_lines p) (log_files_of w folder)
  /\ (forall path lines,
        read_lines path = Some lines -> one_partition engine lines ->
        file_amount cast_float engine read_lines p path
        = match spec_prices cast_float p lines with
          | [] => []
          | prices => [fold_left PrimFloat.add prices 0%float]
          end).
Proof.
  intros Hspark Hperm Hempty Hp Hlines. split; [|split].
  - intros path df Hin Hq. rewrite Hspark in Hq. unfold csv_session, log_totals in Hq.
    destruct (read_lines path) as [lines|] eqn:Hread; [|discriminate].
    unfold query_lines in Hq. destruct (_ =? 4); [|discriminate]. injection Hq as <-.
    eexists. split; [reflexivity|]. apply group_sum_amounts; [exact Hperm|]. intros r Hr.
    apply in_map_iff in Hr as (line & <- & Hline).
    apply filter_In in Hline as [Hline Hnb].
    now apply (Hlines path lines line).
  - unfold hour_rows. revert Hlines. generalize (log_files_of w folder) as paths.
    induction paths as [|path paths IH]; intros Hlines; [reflexivity|].
    cbn [flat_map]. rewrite Merge.amounts_of_app, IH.
    + f_equal. unfold rows_of. rewrite Hspark.
      apply file_rows_amounts; [assumption|assumption|assumption|].
      intros lines line Hread Hline Hnb.
      now apply (Hlines path lines line); [left|..].
    + intros path' lines line Hin. apply Hlines. now right.
  - intros path lines Hread Hone. unfold file_amount, spec_total. rewrite Hread.
    destruct (spec_prices cast_float p lines); [reflexivity|]. now rewrite Hone.
Qed.

End Lines.

(** The theorem on the widgets of hour 14: the two prices of the file
    make one amount. *)
Lemma well_formed_logs_are_summed_witness :
  amounts_of (Some "Widget") (hour_rows (tree_world widget_tree) "2024112314")
  = [fold_left PrimFloat.add [10.5%float; 4.5%float] 0%float].
Proof.
  destruct (well_formed_logs_are_summed example_cast example_engine
              (fun path => snd <$> List.find (fun f => String.eqb (fst f) path)
                                     (tree_files widget_tree))
              (tree_world widget_tree) "2024112314" "Widget") as (_ & H & _).
  - reflexivity.
  - intros lines rows. reflexivity.
  - reflexivity.
  - discriminate.
  - intros path lines line [<-|[]] Hread. vm_compute in Hread. injection Hread as <-.
    intros [<-|[<-|[]]]; (split; [reflexivity|intros _; split; [reflexivity|vm_compute; discriminate]]).
  - rewrite H. reflexivity.
Defined.

End RunEffects.

(** ** The dashboard: which files [load_data] reads *)
Module LoadData.
Import Py Driver Dashboard StringFacts.

(** *** Dates *)

Lemma date_le_trans (a b c : date) :
  date_le a b = true -> date_le b c = true -> date_le a c = true.
Proof.
  unfold date_le.
  rewrite !orb_true_iff, !andb_true_iff, !orb_true_iff, !andb_true_iff,
    !N.ltb_lt, !N.eqb_eq, !N.leb_le.
  lia.
Qed.

Lemma nothing_between (start end_ d : date) :
  date_le start end_ = false -> date_le start d && date_le d end_ = false.
Proof.
  intros H. destruct (date_le start d) eqn:H1; [|reflexivity].
  destruct (date_le d end_) eqn:H2; [|reflexivity].
  now rewrite (date_le_trans _ _ _ H1 H2) in H.
Qed.

(** *** The loop over the entries *)
Section Loading.
Context {Frame : Type} (env : Env Frame) (self : SalesDashboard).

Lemma for_filenames_bad_name (start end_ : date) (filenames : list string)
    (name : string) :
  In name filenames -> endswith name ".txt" = true -> file_date name = None ->
  forall all_data out, exists out' text,
    for_filenames env self start end_ filenames all_data out = (out', inr (BadDate text)).
Proof.
  intros Hin Hend Hdate. unfold file_date in Hdate.
  induction filenames as [|f rest IH]; [easy|]. intros all_data out.
  cbn [for_filenames]. destruct Hin as [->|Hin].
  - rewrite Hend, Hdate. eauto.
  - destruct (endswith f ".txt"); [|now apply IH].
    destruct (strptime matches_Ymd (slice 0 8 f)) as [fd|]; [|eauto].
    destruct (date_le start fd && date_le fd end_); [|now apply IH].
    destruct (read_sales_csv env _); now apply IH.
Qed.

Lemma for_filenames_chosen (start end_ : date) (filenames : list string) :
  names_have_dates filenames ->
  forall all_data out,
    for_filenames env self start end_ filenames all_data out
    = (out ++ read_errors_of env self (chosen start end_ filenames),
       inl (all_data ++ frames_of env self (chosen start end_ filenames))).
Proof.
  unfold chosen. induction filenames as [|f rest IH]; intros Hd all_data out.
  - cbn. now rewrite !app_nil_r.
  - assert (Hrest : names_have_dates rest) by (intros n Hn; apply Hd; now right).
    pose proof (Hd f (or_introl eq_refl)) as Hf. unfold file_date in Hf.
    cbn [for_filenames List.filter].
    destruct (endswith f ".txt") eqn:He.
    2:{ replace (in_range start end_ f) with false
          by (unfold in_range; now rewrite He).
        now apply IH. }
    destruct (strptime matches_Ymd (slice 0 8 f)) as [fd|] eqn:Hfd; [|now elim Hf].
    replace (in_range start end_ f) with (date_le start fd && date_le fd end_)
      by (unfold in_range, file_date; now rewrite He, Hfd).
    destruct (date_le start fd && date_le fd end_); [|now apply IH].
    unfold read_errors_of, frames_of. cbn [flat_map].
    destruct (read_sales_csv env (os_path_join (output_dir self) f)) as [df|e];
      rewrite (IH Hrest); unfold read_errors_of, frames_of;
      now rewrite <- !app_assoc.
Qed.

Lemma for_filenames_reversed (start end_ : date) (filenames : list string) :
  date_le start end_ = false ->
  forall all_data out,
    for_filenames env self start end_ filenames all_data out = (out, inl all_data)
    \/ exists c, for_filenames env self start end_ filenames all_data out = (out, inr c).
Proof.
  intros Hrev. induction filenames as [|f rest IH]; intros all_data out;
    cbn [for_filenames]; [now left|].
  destruct (endswith f ".txt"); [|apply IH].
  destruct (strptime matches_Ymd (slice 0 8 f)) as [fd|]; [|right; eauto].
  rewrite (nothing_between start end_ fd Hrev). apply IH.
Qed.

End Loading.

(** *** load_data *)

(** X10.  One entry of the output directory that ends in [.txt] and does
    not start with a date ([YYYYMMDD], as [strptime] reads it) empties the
    dashboard: [load_data] returns the empty frame, whatever the range of
    dates is and whatever the other files hold, and the last thing it
    prints is that the loading failed.  The frames read before that entry
    are dropped. *)
Theorem bad_file_name_empties_load {Frame : Type} (env : Env Frame)
    (self : SalesDashboard) (start_date end_date : string)
    (filenames : list string) (name : string) :
  listdir env (output_dir self) = Return filenames ->
  In name filenames -> endswith name ".txt" = true -> file_date name = None ->
  snd (load_data env self start_date end_date) = EmptyFrame
  /\ exists out c, fst (load_data env self start_date end_date) = out ++ [LoadError c].
Proof.
  intros Hl Hin Hend Hdate. unfold load_data, load_data_body.
  destruct (strptime matches_Y_m_d start_date) as [start|]; [|now eauto].
  destruct (strptime matches_Y_m_d end_date) as [end_|]; [|now eauto].
  rewrite Hl.
  destruct (for_filenames_bad_name env self start end_ filenames name Hin Hend Hdate [] [])
    as (out & text & ->).
  now eauto.
Qed.

(** The theorem on an output directory that holds [summary.txt]. *)
Lemma bad_file_name_empties_load_witness :
  snd (load_data (paths_env ["2024112314.txt"; "summary.txt"]) over_output
         "2024-11-23" "2024-11-24") = EmptyFrame.
Proof.
  apply (bad_file_name_empties_load (paths_env ["2024112314.txt"; "summary.txt"])
           over_output "2024-11-23" "2024-11-24"
           ["2024112314.txt"; "summary.txt"] "summary.txt").
  - reflexivity.
  - right. now left.
  - reflexivity.
  - reflexivity.
Defined.

(** X11.  When every entry that ends in [.txt] starts with a date,
    [load_data] reads the entries that end in [.txt] and whose date lies
    between the start and the end date, both included, in the order of
    the listing, each at its path under the output directory.  An entry
    that pandas cannot read is reported and passed over; the frames of
    the others are put together, and without any the result is the empty
    frame. *)
Theorem load_data_selects_by_date {Frame : Type} (env : Env Frame)
    (self : SalesDashboard) (start_date end_date : string) (start end_ : date)
    (filenames : list string) :
  strptime matches_Y_m_d start_date = Some start ->
  strptime matches_Y_m_d end_date = Some end_ ->
  listdir env (output_dir self) = Return filenames ->
  names_have_dates filenames ->
  load_data env self start_date end_date
  = match frames_of env self (chosen start end_ filenames) with
    | [] => (read_errors_of env self (chosen start end_ filenames), EmptyFrame)
    | all_data =>
        match concat_dated env all_data with
        | Return df => (read_errors_of env self (chosen start end_ filenames), Data df)
        | Raise e =>
            (read_errors_of env self (chosen start end_ filenames)
               ++ [LoadError (Raised e)], EmptyFrame)
        end
    end.
Proof.
  intros Hs He Hl Hd. unfold load_data, load_data_body.
  rewrite Hs, He, Hl, (for_filenames_chosen env self start end_ filenames Hd).
  cbn [app].
  destruct (frames_of env self (chosen start end_ filenames)) as [|df all_data];
    [reflexivity|].
  now destruct (concat_dated env (df :: all_data)).
Qed.

(** The theorem on the files of two days: the day of the range is read,
    in the order of the listing. *)
Lemma load_data_selects_by_date_witness :
  load_data (paths_env three_hours) over_output "2024-11-23" "2024-11-23"
  = ([], Data ["./output/2024112314.txt"; "./output/2024112315.txt"]).
Proof.
  rewrite (load_data_selects_by_date (paths_env three_hours) over_output
             "2024-11-23" "2024-11-23" (Date 2024 11 23) (Date 2024 11 23) three_hours).
  - reflexivity.
  - reflexivity.
  - reflexivity.
  - reflexivity.
  - intros filename [<-|[<-|[<-|[<-|[]]]]] He; vm_compute in He; try discriminate He;
      vm_compute; discriminate.
Defined.

(** X12.  When the start and the end date are dates, a range whose end
    lies before its start shows nothing: [load_data] returns the empty
    frame, whatever the output directory holds. *)
Theorem reversed_range_loads_nothing {Frame : Type} (env : Env Frame)
    (self : SalesDashboard) (start_date end_date : string) (start end_ : date) :
  strptime matches_Y_m_d start_date = Some start ->
  strptime matches_Y_m_d end_date = Some end_ ->
  date_le start end_ = false ->
  snd (load_data env self start_date end_date) = EmptyFrame.
Proof.
  intros Hs He Hrev. unfold load_data, load_data_body. rewrite Hs, He.
  destruct (listdir env (output_dir self)) as [filenames|e]; [|reflexivity].
  destruct (for_filenames_reversed env self start end_ filenames Hrev [] [])
    as [-> | [c ->]]; reflexivity.
Qed.

(** The theorem on a range from the 24th back to the 23rd. *)
Lemma reversed_range_loads_nothing_witness :
  snd (load_data (paths_env three_hours) over_output "2024-11-24" "2024-11-23")
  = EmptyFrame.
Proof.
  apply (reversed_range_loads_nothing (paths_env three_hours) over_output
           "2024-11-24" "2024-11-23" (Date 2024 11 24) (Date 2024 11 23));
    reflexivity.
Defined.

(** *** The text of a date *)

Lemma two_chars_length (lo1 hi1 lo2 hi2 : ascii) (s : string) (v : N) (r : string) :
  In (v, r) (two_chars lo1 hi1 lo2 hi2 s) -> String.length s = 2 + String.length r.
Proof.
  unfold two_chars. destruct s as [|c1 [|c2 s]]; try easy.
  destruct (_ && _); [|easy]. now intros [[= _ <-]|[]].
Qed.

Lemma one_char_length (lo hi : ascii) (s : string) (v : N) (r : string) :
  In (v, r) (one_char lo hi s) -> String.length s = 1 + String.length r.
Proof.
  unfold one_char. destruct s as [|c s]; [easy|].
  destruct (in_class lo hi c); [|easy]. now intros [[= _ <-]|[]].
Qed.

Lemma blank_and_digit_length (s : string) (v : N) (r : string) :
  In (v, r) (blank_and_digit s) -> String.length s = 2 + String.length r.
Proof.
  unfold blank_and_digit. destruct s as [|c1 [|c2 s]]; try easy.
  - now destruct c1 as [[] [] [] [] [] [] [] []].
  - destruct c1 as [[] [] [] [] [] [] [] []]; try easy.
    destruct (in_class "1" "9" c2); [|easy]. now intros [[= _ <-]|[]].
Qed.

Lemma re_Y_length (s : string) (v : N) (r : string) :
  In (v, r) (re_Y s) -> String.length s = 4 + String.length r.
Proof.
  unfold re_Y. destruct s as [|a [|b [|c [|d s]]]]; try easy.
  destruct (_ && _); [|easy]. now intros [[= _ <-]|[]].
Qed.

Lemma re_m_length (s : string) (v : N) (r : string) :
  In (v, r) (re_m s) -> String.length s <= 2 + String.length r.
Proof.
  unfold re_m. rewrite !in_app_iff.
  intros [H|[H|H]];
    [apply two_chars_length in H|apply two_chars_length in H|apply one_char_length in H];
    lia.
Qed.

Lemma re_d_length (s : string) (v : N) (r : string) :
  In (v, r) (re_d s) -> String.length s <= 2 + String.length r.
Proof.
  unfold re_d. rewrite !in_app_iff.
  intros [H|[H|[H|[H|H]]]];
    [apply two_chars_length in H|apply two_chars_length in H
     |apply two_chars_length in H|apply one_char_length in H
     |apply blank_and_digit_length in H];
    lia.
Qed.

Lemma literal_length (c : ascii) (s r : string) :
  In r (literal c s) -> String.length s = 1 + String.length r.
Proof.
  unfold literal. destruct s as [|c' s]; [easy|].
  destruct (Ascii.eqb c c'); [|easy]. now intros [<-|[]].
Qed.

(** A match of ['%Y-%m-%d'] reads ten characters at most. *)
Lemma matches_Y_m_d_length (s : string) (y m d : N) (rest : string) :
  In (y, m, d, rest) (matches_Y_m_d s) -> String.length s <= 10 + String.length rest.
Proof.
  unfold matches_Y_m_d. intros H.
  apply in_flat_map in H as ([y' r1] & H1 & H).
  apply in_flat_map in H as (r1' & H2 & H).
  apply in_flat_map in H as ([m' r2] & H3 & H).
  apply in_flat_map in H as (r2' & H4 & H).
  apply in_map_iff in H as ([d' r3] & [= _ _ _ <-] & H5).
  apply re_Y_length in H1. apply literal_length in H2. apply re_m_length in H3.
  apply literal_length in H4. apply re_d_length in H5. lia.
Qed.

Lemma strptime_long_text (s : string) :
  10 < String.length s -> strptime matches_Y_m_d s = None.
Proof.
  intros Hlen. unfold strptime.
  destruct (matches_Y_m_d s) as [|[[[y m] d] rest] l] eqn:E; [reflexivity|].
  assert (Hin : In (y, m, d, rest) (matches_Y_m_d s)) by (rewrite E; now left).
  apply matches_Y_m_d_length in Hin.
  destruct rest as [|c rest]; [simpl in Hin; lia|reflexivity].
Qed.

(** X13.  A start or end date of more than ten characters, such as a
    date with a time of day ([2024-11-23T00:00:00]), is no date for
    [load_data]: it prints that the loading failed and returns the empty
    frame, and nothing else is printed. *)
Theorem long_date_text_is_refused {Frame : Type} (env : Env Frame)
    (self : SalesDashboard) (start_date end_date : string) :
  10 < String.length start_date \/ 10 < String.length end_date ->
  exists text,
    load_data env self start_date end_date = ([LoadError (BadDate text)], EmptyFrame).
Proof.
  intros Hlen. unfold load_data, load_data_body.
  destruct (strptime matches_Y_m_d start_date) as [start|] eqn:Hs; [|now eauto].
  destruct Hlen as [Hlen|Hlen].
  - now rewrite (strptime_long_text _ Hlen) in Hs.
  - rewrite (strptime_long_text _ Hlen). now eauto.
Qed.

(** The theorem on a start date with a time of day. *)
Lemma long_date_text_is_refused_witness :
  exists text,
    load_data (paths_env three_hours) over_output "2024-11-23T00:00:00" "2024-11-24"
    = ([LoadError (BadDate text)], EmptyFrame).
Proof.
  apply (long_date_text_is_refused (paths_env three_hours) over_output
           "2024-11-23T00:00:00" "2024-11-24").
  left. simpl. lia.
Defined.

(** *** The files that [main] writes *)

Lemma endswith_app (a b : string) : endswith (a +:+ b) b = true.
Proof.
  unfold endswith. rewrite length_app, (proj2 (Nat.leb_le _ _)) by lia.
  replace (String.length a + String.length b - String.length b)
    with (String.length a) by lia.
  replace (substring (String.length a) (String.length b) (a +:+ b)) with b;
    [now rewrite String.eqb_refl|].
  apply chars_inj. rewrite substring_chars, chars_app, <- !chars_length.
  rewrite drop_app_length. symmetry. apply firstn_all.
Qed.

Lemma slice_prefix (n : nat) (a b : string) :
  String.length a = n -> slice 0 n (a +:+ b) = a.
Proof.
  intros <-. apply chars_inj.
  rewrite slice_chars, chars_app, Nat.sub_0_r, <- chars_length, drop_0.
  apply take_app_length.
Qed.

Lemma ascii_digit_cases (c : ascii) :
  is_ascii_digit c = true ->
  In c ["0"; "1"; "2"; "3"; "4"; "5"; "6"; "7"; "8"; "9"]%char.
Proof.
  destruct c as [[] [] [] [] [] [] [] []]; intros H; try discriminate H;
    simpl; tauto.
Qed.

(** Two digits that write a month are read as that month. *)
Lemma re_m_two_digits (c1 c2 : ascii) (r : string) :
  is_ascii_digit c1 = true -> is_ascii_digit c2 = true ->
  ((1 <=? 10 * digit_value c1 + digit_value c2)
   && (10 * digit_value c1 + digit_value c2 <=? 12))%N = true ->
  exists more,
    re_m (String c1 (String c2 r))
    = ((10 * digit_value c1 + digit_value c2)%N, r) :: more.
Proof.
  intros H1 H2 Hv. apply ascii_digit_cases in H1, H2. simpl in H1, H2.
  repeat (destruct H1 as [<-|H1]; [|]); try contradiction;
    repeat (destruct H2 as [<-|H2]; [|]); try contradiction;
    vm_compute in Hv; try discriminate Hv; eexists; reflexivity.
Qed.

(** Two digits that write a day of a month are read as that day. *)
Lemma re_d_two_digits (c1 c2 : ascii) (r : string) :
  is_ascii_digit c1 = true -> is_ascii_digit c2 = true ->
  ((1 <=? 10 * digit_value c1 + digit_value c2)
   && (10 * digit_value c1 + digit_value c2 <=? 31))%N = true ->
  exists more,
    re_d (String c1 (String c2 r))
    = ((10 * digit_value c1 + digit_value c2)%N, r) :: more.
Proof.
  intros H1 H2 Hv. apply ascii_digit_cases in H1, H2. simpl in H1, H2.
  repeat (destruct H1 as [<-|H1]; [|]); try contradiction;
    repeat (destruct H2 as [<-|H2]; [|]); try contradiction;
    vm_compute in Hv; try discriminate Hv; eexists; reflexivity.
Qed.

Lemma days_in_month_le (y m : N) : (days_in_month y m <= 31)%N.
Proof. unfold days_in_month. repeat case_match; lia. Qed.

(** Eight digits that write a date are read as that date. *)
Lemma strptime_eight_digits (y0 y1 y2 y3 m0 m1 d0 d1 : ascii) :
  forallb is_ascii_digit [y0; y1; y2; y3; m0; m1; d0; d1] = true ->
  valid_date (1000 * digit_value y0 + 100 * digit_value y1
              + 10 * digit_value y2 + digit_value y3)
             (10 * digit_value m0 + digit_value m1)
             (10 * digit_value d0 + digit_value d1) = true ->
  strptime matches_Ymd
    (String y0 (String y1 (String y2 (String y3
       (String m0 (String m1 (String d0 (String d1 ""))))))))
  = Some (Date (1000 * digit_value y0 + 100 * digit_value y1
                + 10 * digit_value y2 + digit_value y3)
               (10 * digit_value m0 + digit_value m1)
               (10 * digit_value d0 + digit_value d1)).
Proof.
  intros Hdigits Hvalid. cbn [forallb] in Hdigits.
  repeat (apply andb_true_iff in Hdigits as [? Hdigits]).
  pose proof Hvalid as Hv. unfold valid_date in Hv.
  apply andb_true_iff in Hv as [Hv Hd_hi]. apply andb_true_iff in Hv as [Hv Hd_lo].
  apply andb_true_iff in Hv as [Hv Hm_hi]. apply andb_true_iff in Hv as [_ Hm_lo].
  destruct (re_m_two_digits m0 m1 (String d0 (String d1 ""))) as [more_m Hm];
    [assumption|assumption|apply andb_true_iff; now split|].
  destruct (re_d_two_digits d0 d1 "") as [more_d Hd]; [assumption|assumption| |].
  { apply andb_true_iff. split; [assumption|]. apply N.leb_le.
    etransitivity; [apply N.leb_le, Hd_hi|apply days_in_month_le]. }
  unfold strptime, matches_Ymd, re_Y.
  repeat match goal with H : is_ascii_digit _ = true |- _ => rewrite H; clear H end.
  cbn [andb flat_map]. rewrite Hm. cbn [flat_map]. rewrite Hd. cbn [map app].
  now rewrite Hvalid.
Qed.

Lemma number_two (a b : ascii) :
  number (String a (String b "")) = (10 * digit_value a + digit_value b)%N.
Proof. unfold number. cbn. lia. Qed.

Lemma number_four (a b c d : ascii) :
  number (String a (String b (String c (String d ""))))
  = (1000 * digit_value a + 100 * digit_value b + 10 * digit_value c + digit_value d)%N.
Proof. unfold number. cbn. lia. Qed.

(** X14.  The file that [main] writes for an hour folder is one that the
    dashboard over [./output] reads by its date: for a folder of ten
    ASCII digits [YYYYMMDDHH] whose first eight write a date of the
    calendar, the path that [load_data] opens for the entry
    [<folder>.txt] is the file of that hour, the entry ends in [.txt],
    [strptime] reads that date from its first eight characters, and the
    entry is read exactly when that date lies in the range. *)
Theorem hour_file_is_found_by_date (folder y m d h : string) (start end_ : date) :
  folder = y +:+ m +:+ d +:+ h ->
  String.length y = 4 -> String.length m = 2 ->
  String.length d = 2 -> String.length h = 2 ->
  all_ascii_digits folder = true ->
  valid_date (number y) (number m) (number d) = true ->
  output_file folder = os_path_join (output_dir over_output) (folder +:+ ".txt")
  /\ endswith (folder +:+ ".txt") ".txt" = true
  /\ file_date (folder +:+ ".txt") = Some (Date (number y) (number m) (number d))
  /\ in_range start end_ (folder +:+ ".txt")
     = date_le start (Date (number y) (number m) (number d))
       && date_le (Date (number y) (number m) (number d)) end_.
Proof.
  intros -> Hy Hm Hd Hh Hdigits Hvalid.
  assert (Hdate : file_date ((y +:+ m +:+ d +:+ h) +:+ ".txt")
                  = Some (Date (number y) (number m) (number d))).
  { unfold file_date.
    replace ((y +:+ m +:+ d +:+ h) +:+ ".txt")
      with ((y +:+ m +:+ d) +:+ (h +:+ ".txt")) by now rewrite !app_assoc_s.
    rewrite slice_prefix by (rewrite !length_app; lia).
    unfold all_ascii_digits in Hdigits. rewrite !chars_app, !forallb_app in Hdigits.
    apply andb_true_iff in Hdigits as [Dy Hdigits].
    apply andb_true_iff in Hdigits as [Dm Hdigits].
    apply andb_true_iff in Hdigits as [Dd _].
    destruct y as [|y0 [|y1 [|y2 [|y3 [|? ?]]]]]; try discriminate Hy.
    destruct m as [|m0 [|m1 [|? ?]]]; try discriminate Hm.
    destruct d as [|d0 [|d1 [|? ?]]]; try discriminate Hd.
    rewrite number_four, !number_two in *.
    rewrite !app_cons, !app_nil_l. apply strptime_eight_digits; [|exact Hvalid].
    rewrite !chars_cons in Dy, Dm, Dd. cbn [forallb chars list_ascii_of_string] in *.
    repeat (apply andb_true_iff in Dy as [? Dy]).
    repeat (apply andb_true_iff in Dm as [? Dm]).
    repeat (apply andb_true_iff in Dd as [? Dd]).
    repeat match goal with Hc : is_ascii_digit _ = true |- _ => rewrite Hc; clear Hc end.
    reflexivity. }
  split; [reflexivity|]. split; [apply endswith_app|]. split; [exact Hdate|].
  unfold in_range. now rewrite endswith_app, Hdate.
Qed.

(** The theorem on hour 14 of the 23rd of November 2024. *)
Lemma hour_file_is_found_by_date_witness :
  file_date "2024112314.txt" = Some (Date 2024 11 23)
  /\ in_range (Date 2024 11 23) (Date 2024 11 24) "2024112314.txt" = true.
Proof.
  destruct (hour_file_is_found_by_date "2024112314" "2024" "11" "23" "14"
              (Date 2024 11 23) (Date 2024 11 24)) as (_ & _ & Hdate & Hrange);
    try reflexivity.
  change "2024112314.txt" with ("2024112314" +:+ ".txt").
  split; [exact Hdate|]. rewrite Hrange. reflexivity.
Defined.

End LoadData.
